(** * Message routing and provider dispatch of the Telegram bot bridge

    A shallow embedding of [BotService] (the message router with its
    in-memory conversation store) and of [LlmService] (the response
    generator with its four provider adapters), then of [ConfigService]
    (loading and validation), of the handler list, the start-up and the
    channel announcements of [TelegramService] and of [TelegramController]
    (the webhook endpoint), followed by the properties proved about them.

    Conventions of the embedding.
    - JavaScript strings are byte strings ([string]) holding the UTF-8
      encoding of the text.  [trim] removes the white space and the line
      terminators of ECMAScript in that encoding.  [toLowerCase] acts on the
      ASCII letters; the command words it is compared with are ASCII, and no
      other character is mapped to a letter of theirs, so those comparisons
      come out as in the source.
    - Values that arrive from the network untyped ([response.data]) are
      modelled by [JS.value]; numbers are the integers (token counts), added
      with the rounding of doubles; the sampling temperature is a rational.
    - [async] code is sequential here: an awaited promise either yields a
      value or throws.  Effects are threaded through a state and exception
      monad; the outside world (HTTP backend, chat transport) is an oracle
      that decides the outcome of each call, and every call is recorded.
    - Thrown values are error objects carrying a message, as [axios], the
      runtime and [new Error] produce them.
    - The conversation table is a finite map from chat keys to arrays.  The
      keys are decimal renderings of numeric chat ids, so they never name an
      inherited member of the table object. *)

From Stdlib Require Import ZArith QArith String Ascii List Lia.
From stdpp Require Import gmap strings list pretty.

Set Warnings "-register-all".

Open Scope string_scope.
Open Scope Z_scope.
Open Scope list_scope.

(** ** Exceptions and the effect monad *)

Inductive exn : Type :=
| Error (message : string)
| TypeError (message : string)
| AxiosError (message : string).

Definition message (e : exn) : string :=
  match e with
  | Error m | TypeError m | AxiosError m => m
  end.

Inductive Result (A : Type) : Type :=
| Ok (a : A)
| Throw (e : exn).
Arguments Ok {A} a.
Arguments Throw {A} e.

Definition is_ok {A} (r : Result A) : bool :=
  match r with Ok _ => true | Throw _ => false end.

(** A computation over a state [S] that returns normally or throws. *)
Definition M (S A : Type) : Type := S -> Result A * S.

Definition ret {S A} (a : A) : M S A := fun s => (Ok a, s).

Definition throw {S A} (e : exn) : M S A := fun s => (Throw e, s).

Definition bind {S A B} (c : M S A) (k : A -> M S B) : M S B :=
  fun s =>
    match c s with
    | (Ok a, s') => k a s'
    | (Throw e, s') => (Throw e, s')
    end.

(** [try { c } catch (error) { h error }]: the effects of [c] up to the
    throw are kept. *)
Definition try_catch {S A} (c : M S A) (h : exn -> M S A) : M S A :=
  fun s =>
    match c s with
    | (Ok a, s') => (Ok a, s')
    | (Throw e, s') => h e s'
    end.

Definition lift_result {S A} (r : Result A) : M S A := fun s => (r, s).

(** Sequencing of expressions that may throw but have no other effect. *)
Definition and_then {A B} (r : Result A) (k : A -> Result B) : Result B :=
  match r with
  | Ok a => k a
  | Throw e => Throw e
  end.

Definition modify {S} (f : S -> S) : M S unit := fun s => (Ok tt, f s).

Definition gets {S A} (f : S -> A) : M S A := fun s => (Ok (f s), s).

Declare Scope js_scope.
Delimit Scope js_scope with js.
Notation "x <- c1 ;; c2" := (bind c1 (fun x => c2))
  (at level 100, c1 at next level, right associativity) : js_scope.
Notation "c1 ;; c2" := (bind c1 (fun _ => c2))
  (at level 100, right associativity) : js_scope.
Open Scope js_scope.

(** ** The fragment of JavaScript the services rely on *)

Module JS.

Inductive value : Type :=
| VUndefined
| VNull
| VBool (b : bool)
| VNum (z : Z)
| VNaN
| VStr (s : string)
| VArr (l : list value)
| VObj (fields : list (string * value)).

(** ToBoolean. *)
Definition truthy (v : value) : bool :=
  match v with
  | VUndefined | VNull | VNaN => false
  | VBool b => b
  | VNum z => negb (z =? 0)
  | VStr s => negb (String.eqb s EmptyString)
  | VArr _ | VObj _ => true
  end.

(** [a || b]. *)
Definition or (a b : value) : value := if truthy a then a else b.

Fixpoint assoc (k : string) (fields : list (string * value)) : value :=
  match fields with
  | [] => VUndefined
  | (k', v) :: rest => if String.eqb k k' then v else assoc k rest
  end.

Definition nullish (v : value) : bool :=
  match v with VUndefined | VNull => true | _ => false end.

Definition type_name (v : value) : string :=
  match v with VNull => "null" | _ => "undefined" end.

Definition cannot_read (v : value) (k : string) : exn :=
  TypeError ("Cannot read properties of " +:+ type_name v +:+
             " (reading '" +:+ k +:+ "')").

(** [v.k] for an identifier [k]: reading a member of [undefined] or
    [null] throws; a member that is not there reads as [undefined]. *)
Definition get (v : value) (k : string) : Result value :=
  match v with
  | VUndefined | VNull => Throw (cannot_read v k)
  | VObj fields => Ok (assoc k fields)
  | VArr l => Ok (if String.eqb k "length" then VNum (Z.of_nat (length l))
                  else VUndefined)
  | VStr s => Ok (if String.eqb k "length" then VNum (Z.of_nat (String.length s))
                  else VUndefined)
  | VBool _ | VNum _ | VNaN => Ok VUndefined
  end.

(** [v[i]] for an index [i]. *)
Definition at_index (v : value) (i : nat) : Result value :=
  match v with
  | VUndefined | VNull => Throw (cannot_read v (pretty i))
  | VArr l => Ok (nth i l VUndefined)
  | VObj fields => Ok (assoc (pretty i) fields)
  | VStr s => Ok (match String.get i s with
                  | Some c => VStr (String c EmptyString)
                  | None => VUndefined
                  end)
  | VBool _ | VNum _ | VNaN => Ok VUndefined
  end.

(** [v?.k]. *)
Definition opt_get (v : value) (k : string) : value :=
  if nullish v then VUndefined
  else match get v k with Ok x => x | Throw _ => VUndefined end.

Fixpoint join (sep : string) (l : list string) : string :=
  match l with
  | [] => EmptyString
  | [s] => s
  | s :: rest => s +:+ sep +:+ join sep rest
  end.

(** ToString; an array is the comma-joined rendering of its elements,
    holes for [undefined] and [null]. *)
Fixpoint toString (v : value) : string :=
  match v with
  | VUndefined => "undefined"
  | VNull => "null"
  | VBool true => "true"
  | VBool false => "false"
  | VNum z => pretty z
  | VNaN => "NaN"
  | VStr s => s
  | VArr l =>
      join "," (map (fun x => if nullish x then EmptyString else toString x) l)
  | VObj _ => "[object Object]"
  end.

(** ToPrimitive: objects and arrays become strings. *)
Definition toPrimitive (v : value) : value :=
  match v with
  | VArr _ | VObj _ => VStr (toString v)
  | _ => v
  end.

(** ToNumber of a primitive that is not a string; [None] is [NaN]. *)
Definition toNumber (v : value) : option Z :=
  match v with
  | VNum z => Some z
  | VBool true => Some 1
  | VBool false | VNull => Some 0
  | _ => None
  end.

Definition is_string (v : value) : bool :=
  match v with VStr _ => true | _ => false end.

(** [Number.MAX_SAFE_INTEGER]. *)
Definition MAX_SAFE_INTEGER : Z := 2 ^ 53 - 1.

(** [Number.isSafeInteger]. *)
Definition safe_integer (z : Z) : Prop := Z.abs z <= MAX_SAFE_INTEGER.

(** A number of the source is a double.  [to_double z] is the double nearest
    to the integer [z], ties to the even significand: [z] itself up to
    [2 ^ 53] in magnitude, and above that the nearest integer with a
    significand of 53 bits. *)
Definition to_double (z : Z) : Z :=
  if Z.abs z <=? 2 ^ 53 then z
  else
    let e := Z.log2 (Z.abs z) - 52 in
    let q := Z.abs z / 2 ^ e in
    let r := Z.abs z mod 2 ^ e in
    let half := 2 ^ (e - 1) in
    let q' := if (half <? r) || ((r =? half) && Z.odd q) then q + 1 else q in
    Z.sgn z * (q' * 2 ^ e).

(** [a + b].  A sum of numbers is rounded as the addition of doubles rounds
    it; it is the exact sum whenever that is a safe integer.  (A sum beyond
    the largest double, which is [Infinity] in the source, is outside the
    fragment.) *)
Definition add (a b : value) : value :=
  let pa := toPrimitive a in
  let pb := toPrimitive b in
  if is_string pa || is_string pb then VStr (toString pa +:+ toString pb)
  else match toNumber pa, toNumber pb with
       | Some x, Some y => VNum (to_double (x + y))
       | _, _ => VNaN
       end.

(** *** Strings *)

Definition startsWith (s p : string) : bool := String.prefix p s.

(** [s.substring(n)]. *)
Fixpoint substring (n : nat) (s : string) : string :=
  match n, s with
  | O, _ => s
  | S n', String _ s' => substring n' s'
  | S _, EmptyString => EmptyString
  end.

(** The white space and the line terminators of one byte: TAB, LF, VT, FF,
    CR and SP. *)
Definition is_space (c : ascii) : bool :=
  match nat_of_ascii c with
  | 9%nat | 10%nat | 11%nat | 12%nat | 13%nat | 32%nat => true
  | _ => false
  end.

(** The third byte of the white space that is encoded [E2 80 _]: U+2000 to
    U+200A, the line and paragraph separators U+2028 and U+2029, and
    U+202F. *)
Definition is_general_space (n : nat) : bool :=
  (128 <=? n)%nat && (n <=? 138)%nat
  || (n =? 168)%nat || (n =? 169)%nat || (n =? 175)%nat.

(** [after_space s] is the rest of [s] behind its first character when that
    character is white space or a line terminator ([WhiteSpace] and
    [LineTerminator] of ECMAScript, which is what [trim] removes): the six
    ASCII ones, U+00A0 ([C2 A0]), U+1680 ([E1 9A 80]), U+2000 to U+200A,
    U+2028, U+2029 and U+202F ([E2 80 _]), U+205F ([E2 81 9F]), U+3000
    ([E3 80 80]) and U+FEFF ([EF BB BF]). *)
Definition after_space (s : string) : option string :=
  match s with
  | EmptyString => None
  | String c1 rest1 =>
      if is_space c1 then Some rest1
      else
        match nat_of_ascii c1, rest1 with
        | 194%nat, String c2 rest2 =>
            if (nat_of_ascii c2 =? 160)%nat then Some rest2 else None
        | 225%nat, String c2 (String c3 rest3) =>
            if (nat_of_ascii c2 =? 154)%nat && (nat_of_ascii c3 =? 128)%nat
            then Some rest3 else None
        | 226%nat, String c2 (String c3 rest3) =>
            if (nat_of_ascii c2 =? 128)%nat && is_general_space (nat_of_ascii c3)
            then Some rest3
            else if (nat_of_ascii c2 =? 129)%nat && (nat_of_ascii c3 =? 159)%nat
            then Some rest3 else None
        | 227%nat, String c2 (String c3 rest3) =>
            if (nat_of_ascii c2 =? 128)%nat && (nat_of_ascii c3 =? 128)%nat
            then Some rest3 else None
        | 239%nat, String c2 (String c3 rest3) =>
            if (nat_of_ascii c2 =? 187)%nat && (nat_of_ascii c3 =? 191)%nat
            then Some rest3 else None
        | _, _ => None
        end
  end.

(** [strip n s] removes at most [n] leading white space characters. *)
Fixpoint strip (n : nat) (s : string) : string :=
  match n with
  | O => s
  | S n' => match after_space s with
            | Some rest => strip n' rest
            | None => s
            end
  end.

Definition trimStart (s : string) : string := strip (String.length s) s.

(** A string of white space only. *)
Definition blank (s : string) : bool :=
  String.eqb (trimStart s) EmptyString.

(** The longest prefix of [s] that is not followed by white space only. *)
Fixpoint trimEnd (s : string) : string :=
  match s with
  | EmptyString => EmptyString
  | String c s' => if blank s then EmptyString else String c (trimEnd s')
  end.

Definition trim (s : string) : string := trimEnd (trimStart s).

Definition lower (c : ascii) : ascii :=
  let n := nat_of_ascii c in
  if (65 <=? n)%nat && (n <=? 90)%nat then ascii_of_nat (n + 32) else c.

Fixpoint toLowerCase (s : string) : string :=
  match s with
  | EmptyString => EmptyString
  | String c s' => String (lower c) (toLowerCase s')
  end.

(** *** Arrays *)

(** [l.slice(start)]: a negative [start] counts from the end. *)
Definition slice {A} (start : Z) (l : list A) : list A :=
  let len := Z.of_nat (length l) in
  let k := if start <? 0 then Z.max (len + start) 0 else Z.min start len in
  drop (Z.to_nat k) l.

(** [l.includes(x)] on an array of strings. *)
Definition includes (l : list string) (x : string) : bool :=
  existsb (String.eqb x) l.

(** *** JSON.stringify *)

Definition hex_digit (n : nat) : ascii :=
  ascii_of_nat (if (n <? 10)%nat then 48 + n else 87 + n).

Definition dquote : string := String (ascii_of_nat 34) EmptyString.

Definition escape_char (c : ascii) : string :=
  let n := nat_of_ascii c in
  match n with
  | 34%nat => "\" +:+ dquote
  | 92%nat => "\\"
  | 8%nat => "\b"
  | 9%nat => "\t"
  | 10%nat => "\n"
  | 12%nat => "\f"
  | 13%nat => "\r"
  | _ =>
      if (n <? 32)%nat
      then "\u00" +:+ String (hex_digit (n / 16))
                          (String (hex_digit (n mod 16)) EmptyString)
      else String c EmptyString
  end.

Fixpoint escape (s : string) : string :=
  match s with
  | EmptyString => EmptyString
  | String c s' => escape_char c +:+ escape s'
  end.

Definition quote (s : string) : string := dquote +:+ escape s +:+ dquote.

(** [JSON.stringify(v)]; [None] is [undefined].  A member whose value is
    [undefined] is left out of an object and printed [null] in an array. *)
Fixpoint stringify (v : value) : option string :=
  match v with
  | VUndefined => None
  | VNull | VNaN => Some "null"
  | VBool true => Some "true"
  | VBool false => Some "false"
  | VNum z => Some (pretty z)
  | VStr s => Some (quote s)
  | VArr l =>
      Some ("[" +:+ join "," (map (fun x => default "null" (stringify x)) l)
                +:+ "]")
  | VObj fields =>
      Some ("{" +:+
            join "," (omap (fun kv =>
                              match kv with
                              | (k, x) =>
                                  option_map (fun s => quote k +:+ ":" +:+ s)
                                             (stringify x)
                              end) fields)
            +:+ "}")
  end.

(** A template literal prints [undefined] for a missing rendering. *)
Definition interpolate (o : option string) : string := default "undefined" o.

(** *** Defaults written with [||] *)

(** [s || d] for an optional string: absent and empty are both falsy. *)
Definition or_string (o : option string) (d : string) : string :=
  match o with
  | Some s => if String.eqb s EmptyString then d else s
  | None => d
  end.

(** [n || d] for an optional integer: absent and zero are both falsy. *)
Definition or_int (o : option Z) (d : Z) : Z :=
  match o with
  | Some n => if n =? 0 then d else n
  | None => d
  end.

(** [q || d] for an optional rational: absent and zero are both falsy. *)
Definition or_rat (o : option Q) (d : Q) : Q :=
  match o with
  | Some q => if Qnum q =? 0 then d else q
  | None => d
  end.

Definition nl : string := String (ascii_of_nat 10) EmptyString.

End JS.

(** ** Configuration (config.interface.ts) *)

Module Config.

Record Personality : Type := {
  name : string;
  description : string;
  traits : list string;
  tone : string;
  responseStyle : string
}.

(** [provider] is declared as a union of four names; the value comes from
    a YAML file and may be any string at run time. *)
Record Llm : Type := {
  provider : string;
  apiKey : string;
  model : option string;
  endpoint : option string;
  maxTokens : option Z;
  temperature : option Q;
  systemPrompt : option string
}.

Record Settings : Type := {
  logLevel : string;
  allowedUsers : option (list string);
  blacklistedUsers : option (list string);
  commandPrefix : option string;
  responseDelay : option Z
}.

End Config.

(** ** LlmService (llm.service.ts) *)

Module LlmService.

Record ChatMessage : Type := { role : string; content : string }.

(** The JSON body of a request: the chat-completion shape shared by the
    grok, openai and anthropic adapters, and the flat shape of the custom
    adapter. *)
Inductive Payload : Type :=
| ChatBody (model : string) (messages : list ChatMessage)
           (max_tokens : Z) (temperature : Q)
| CustomBody (model : option string) (system_prompt user_message : string)
             (chat_history : list string) (max_tokens : Z) (temperature : Q).

Record HttpRequest : Type := {
  url : string;
  body : Payload;
  headers : list (string * string)
}.

(** interface LlmResponse *)
Record LlmResponse : Type := { text : JS.value; usage : JS.value }.

Inductive LogLine : Type :=
| LogError (line : string)
| LogWarn (line : string)
| LogDebug (line : string).

(** What the service can change: the requests issued so far (oldest
    first) and the log. *)
Record State : Type := {
  requests : list HttpRequest;
  log : list LogLine
}.

Definition logger (l : LogLine) : M State unit :=
  modify (fun s => {| requests := requests s; log := log s ++ [l] |}).

Definition fallback : string :=
  "I'm sorry, I'm having trouble processing your request right now. Please try again later.".

Section Service.

Variable llmConfig : Config.Llm.
Variable personalityConfig : Config.Personality.

(** The backend: given the requests issued before and the present one,
    the promise of [axios.post] resolves to a response with that [data]
    or rejects. *)
Variable backend : list HttpRequest -> HttpRequest -> Result JS.value.

(** [(await axios.post(url, body, { headers })).data] *)
Definition axios_post (req : HttpRequest) : M State JS.value :=
  fun s =>
    (backend (requests s) req,
     {| requests := requests s ++ [req]; log := log s |}).

Definition generateSystemPrompt : string :=
  let traitsText := JS.join ", " (Config.traits personalityConfig) in
  "You are " +:+ Config.name personalityConfig +:+ ", " +:+
  Config.description personalityConfig +:+ ". " +:+ JS.nl +:+
  "Your personality traits include: " +:+ traitsText +:+ "." +:+ JS.nl +:+
  "You speak in a " +:+ Config.tone personalityConfig +:+
  " tone and your response style is " +:+
  Config.responseStyle personalityConfig +:+ "." +:+ JS.nl +:+
  "Respond to the user's messages in character, maintaining this personality consistently.".

(** The loop of [formatChatHistory], from index [i] on. *)
Fixpoint formatFrom (i : nat) (chatHistory : list string) : list ChatMessage :=
  match chatHistory with
  | [] => []
  | c :: rest =>
      {| role := if (i mod 2 =? 0)%nat then "user" else "assistant";
         content := c |} :: formatFrom (S i) rest
  end.

Definition formatChatHistory (chatHistory : list string) : list ChatMessage :=
  formatFrom 0 chatHistory.

Definition bearer_headers : list (string * string) :=
  [("Authorization", "Bearer " +:+ Config.apiKey llmConfig);
   ("Content-Type", "application/json")].

Definition chat_messages (systemPrompt userMessage : string)
    (chatHistory : list string) : list ChatMessage :=
  [{| role := "system"; content := systemPrompt |}]
    ++ formatChatHistory chatHistory
    ++ [{| role := "user"; content := userMessage |}].

(** [data.choices[0].message.content] *)
Definition choices_content (data : JS.value) : Result JS.value :=
  and_then (JS.get data "choices") (fun choices =>
  and_then (JS.at_index choices 0) (fun first =>
  and_then (JS.get first "message") (fun msg =>
  JS.get msg "content"))).

(** [data.content[0].text] *)
Definition content_text (data : JS.value) : Result JS.value :=
  and_then (JS.get data "content") (fun c =>
  and_then (JS.at_index c 0) (fun first =>
  JS.get first "text")).

(** [data.text || data.response || data.content] *)
Definition first_present (data : JS.value) : Result JS.value :=
  and_then (JS.get data "text") (fun t1 =>
  if JS.truthy t1 then Ok t1
  else and_then (JS.get data "response") (fun t2 =>
       if JS.truthy t2 then Ok t2
       else JS.get data "content")).

(** The usage object the Anthropic adapter builds:
    [{ promptTokens: data.usage?.input_tokens,
       completionTokens: data.usage?.output_tokens,
       totalTokens: (data.usage?.input_tokens || 0)
                    + (data.usage?.output_tokens || 0) }] *)
Definition anthropic_usage (data : JS.value) : Result JS.value :=
  and_then (JS.get data "usage") (fun u =>
  let input_tokens := JS.opt_get u "input_tokens" in
  let output_tokens := JS.opt_get u "output_tokens" in
  Ok (JS.VObj
        [("promptTokens", input_tokens);
         ("completionTokens", output_tokens);
         ("totalTokens",
          JS.add (JS.or input_tokens (JS.VNum 0))
                 (JS.or output_tokens (JS.VNum 0)))])).

(** [return { text: data.choices[0].message.content, usage: data.usage }] *)
Definition chat_response (data : JS.value) : Result LlmResponse :=
  and_then (choices_content data) (fun t =>
  and_then (JS.get data "usage") (fun u =>
  Ok {| text := t; usage := u |})).

(** [return { text: data.content[0].text, usage: { ... } }] *)
Definition anthropic_response (data : JS.value) : Result LlmResponse :=
  and_then (content_text data) (fun t =>
  and_then (anthropic_usage data) (fun u =>
  Ok {| text := t; usage := u |})).

(** [return { text: data.text || data.response || data.content,
              usage: data.usage }] *)
Definition custom_response (data : JS.value) : Result LlmResponse :=
  and_then (first_present data) (fun t =>
  and_then (JS.get data "usage") (fun u =>
  Ok {| text := t; usage := u |})).

Definition callGrokApi (systemPrompt userMessage : string)
    (chatHistory : list string) : M State LlmResponse :=
  try_catch
    (let endpoint :=
       JS.or_string (Config.endpoint llmConfig)
                    "https://api.grok.x/v1/chat/completions" in
     data <- axios_post
               {| url := endpoint;
                  body := ChatBody
                            (JS.or_string (Config.model llmConfig) "grok-3")
                            (chat_messages systemPrompt userMessage chatHistory)
                            (JS.or_int (Config.maxTokens llmConfig) 1000)
                            (JS.or_rat (Config.temperature llmConfig) 0.7%Q);
                  headers := bearer_headers |} ;;
     lift_result (chat_response data))
    (fun error =>
       logger (LogError ("Grok API error: " +:+ message error)) ;;
       throw error).

Definition callOpenAiApi (systemPrompt userMessage : string)
    (chatHistory : list string) : M State LlmResponse :=
  try_catch
    (let endpoint :=
       JS.or_string (Config.endpoint llmConfig)
                    "https://api.openai.com/v1/chat/completions" in
     data <- axios_post
               {| url := endpoint;
                  body := ChatBody
                            (JS.or_string (Config.model llmConfig) "gpt-4")
                            (chat_messages systemPrompt userMessage chatHistory)
                            (JS.or_int (Config.maxTokens llmConfig) 1000)
                            (JS.or_rat (Config.temperature llmConfig) 0.7%Q);
                  headers := bearer_headers |} ;;
     lift_result (chat_response data))
    (fun error =>
       logger (LogError ("OpenAI API error: " +:+ message error)) ;;
       throw error).

Definition callAnthropicApi (systemPrompt userMessage : string)
    (chatHistory : list string) : M State LlmResponse :=
  try_catch
    (let endpoint :=
       JS.or_string (Config.endpoint llmConfig)
                    "https://api.anthropic.com/v1/messages" in
     let messages := chat_messages systemPrompt userMessage chatHistory in
     data <- axios_post
               {| url := endpoint;
                  body := ChatBody
                            (JS.or_string (Config.model llmConfig)
                                          "claude-3-opus-20240229")
                            messages
                            (JS.or_int (Config.maxTokens llmConfig) 1000)
                            (JS.or_rat (Config.temperature llmConfig) 0.7%Q);
                  headers :=
                    [("x-api-key", Config.apiKey llmConfig);
                     ("anthropic-version", "2023-06-01");
                     ("Content-Type", "application/json")] |} ;;
     lift_result (anthropic_response data))
    (fun error =>
       logger (LogError ("Anthropic API error: " +:+ message error)) ;;
       throw error).

Definition callCustomApi (systemPrompt userMessage : string)
    (chatHistory : list string) : M State LlmResponse :=
  try_catch
    (match Config.endpoint llmConfig with
     | None => throw (Error "Custom API endpoint is required but not provided")
     | Some e =>
         if String.eqb e EmptyString
         then throw (Error "Custom API endpoint is required but not provided")
         else
           data <- axios_post
                     {| url := e;
                        body := CustomBody
                                  (Config.model llmConfig)
                                  systemPrompt userMessage chatHistory
                                  (JS.or_int (Config.maxTokens llmConfig) 1000)
                                  (JS.or_rat (Config.temperature llmConfig) 0.7%Q);
                        headers := bearer_headers |} ;;
           lift_result (custom_response data)
     end)
    (fun error =>
       logger (LogError ("Custom API error: " +:+ message error)) ;;
       throw error).

(** The [switch] of [generateResponse]. *)
Definition dispatch (systemPrompt userMessage : string)
    (chatHistory : list string) : M State LlmResponse :=
  let provider := Config.provider llmConfig in
  if String.eqb provider "grok"
  then callGrokApi systemPrompt userMessage chatHistory
  else if String.eqb provider "openai"
  then callOpenAiApi systemPrompt userMessage chatHistory
  else if String.eqb provider "anthropic"
  then callAnthropicApi systemPrompt userMessage chatHistory
  else if String.eqb provider "custom"
  then callCustomApi systemPrompt userMessage chatHistory
  else throw (Error ("Unsupported LLM provider: " +:+ provider)).

Definition generateResponse (userMessage : string)
    (chatHistory : list string) : M State JS.value :=
  try_catch
    (let systemPrompt :=
       JS.or_string (Config.systemPrompt llmConfig) generateSystemPrompt in
     response <- dispatch systemPrompt userMessage chatHistory ;;
     (if JS.truthy (usage response)
      then logger (LogDebug ("Token usage: " +:+
                             JS.interpolate (JS.stringify (usage response))))
      else ret tt) ;;
     ret (text response))
    (fun error =>
       logger (LogError ("Error generating response: " +:+ message error)) ;;
       ret (JS.VStr fallback)).

End Service.

(** The state after [req] has been issued, and after a line has been
    logged. *)
Definition sent (st : State) (req : HttpRequest) : State :=
  {| requests := requests st ++ [req]; log := log st |}.

Definition logged (st : State) (l : LogLine) : State :=
  {| requests := requests st; log := log st ++ [l] |}.

(** What an adapter does with a request: issue it, build the response
    object from the data received, and on any throw log a line tagged with
    the provider and throw the error again. *)
Definition adapter_outcome
    (backend : list HttpRequest -> HttpRequest -> Result JS.value)
    (req : HttpRequest) (build : JS.value -> Result LlmResponse)
    (tag : string) (st : State) : Result LlmResponse * State :=
  match and_then (backend (requests st) req) build with
  | Ok r => (Ok r, sent st req)
  | Throw e => (Throw e, logged (sent st req) (LogError (tag +:+ message e)))
  end.

(** The text path of the configured provider cannot be read in [d]. *)
Definition unreadable (c : Config.Llm) (d : JS.value) : Prop :=
  ((Config.provider c = "grok" \/ Config.provider c = "openai")
   /\ is_ok (choices_content d) = false)
  \/ (Config.provider c = "anthropic" /\ is_ok (content_text d) = false)
  \/ (Config.provider c = "custom" /\ is_ok (first_present d) = false).

(** [v[i]] where it can be read, [undefined] where reading it throws. *)
Definition element (v : JS.value) (i : nat) : JS.value :=
  match JS.at_index v i with Ok x => x | Throw _ => JS.VUndefined end.

(** The response [d] itself, or a container on the way to the text of the
    configured provider, is [undefined] or [null]: [d], [d.choices],
    [d.choices[0]] or [d.choices[0].message] for the chat providers; [d],
    [d.content] or [d.content[0]] for Anthropic; [d] for the custom
    endpoint.  Stated on the response alone, without the adapters'
    readers. *)
Definition path_broken (c : Config.Llm) (d : JS.value) : Prop :=
  ((Config.provider c = "grok" \/ Config.provider c = "openai")
   /\ JS.nullish d
       || JS.nullish (JS.opt_get d "choices")
       || JS.nullish (element (JS.opt_get d "choices") 0)
       || JS.nullish (JS.opt_get (element (JS.opt_get d "choices") 0) "message")
       = true)
  \/ (Config.provider c = "anthropic"
      /\ JS.nullish d
          || JS.nullish (JS.opt_get d "content")
          || JS.nullish (element (JS.opt_get d "content") 0)
          = true)
  \/ (Config.provider c = "custom" /\ JS.nullish d = true).

(** The [messages] member of a request body; the flat body of the custom
    adapter has none. *)
Definition payload_messages (p : Payload) : option (list ChatMessage) :=
  match p with
  | ChatBody _ messages _ _ => Some messages
  | CustomBody _ _ _ _ _ _ => None
  end.

Definition payload_max_tokens (p : Payload) : Z :=
  match p with
  | ChatBody _ _ n _ | CustomBody _ _ _ _ n _ => n
  end.

Definition payload_temperature (p : Payload) : Q :=
  match p with
  | ChatBody _ _ _ t | CustomBody _ _ _ _ _ t => t
  end.

(** A token count as it appears in a response: a number, or missing. *)
Definition count (o : option Z) : JS.value :=
  match o with
  | Some n => JS.VNum n
  | None => JS.VUndefined
  end.

(** The providers whose adapters send a [messages] array. *)
Definition chat_provider (provider : string) : Prop :=
  provider = "grok" \/ provider = "openai" \/ provider = "anthropic".

(** The custom provider with the endpoint it needs. *)
Definition custom_provider (c : Config.Llm) : Prop :=
  Config.provider c = "custom"
  /\ exists e, Config.endpoint c = Some e /\ e <> EmptyString.

Definition supported (provider : string) : Prop :=
  chat_provider provider \/ provider = "custom".

(** The configuration with every falsy setting that is read through a
    default or a guard taken out: an empty endpoint or system prompt, a
    zero [maxTokens] or [temperature]. *)
Definition without_blanks (c : Config.Llm) : Config.Llm :=
  {| Config.provider := Config.provider c;
     Config.apiKey := Config.apiKey c;
     Config.model := Config.model c;
     Config.endpoint :=
       match Config.endpoint c with
       | Some e => if String.eqb e EmptyString then None else Some e
       | None => None
       end;
     Config.maxTokens :=
       match Config.maxTokens c with
       | Some n => if n =? 0 then None else Some n
       | None => None
       end;
     Config.temperature :=
       match Config.temperature c with
       | Some t => if Qnum t =? 0 then None else Some t
       | None => None
       end;
     Config.systemPrompt :=
       match Config.systemPrompt c with
       | Some p => if String.eqb p EmptyString then None else Some p
       | None => None
       end |}.

End LlmService.

(** ** BotService (bot.service.ts) *)

Module BotService.

(** What the router reads from a Telegraf context: the text of the
    message ([None] when the update carries no text) and the numeric ids
    of the chat and of the sender. *)
Record Context : Type := {
  message_text : option string;
  chat_id : Z;
  from_id : Z
}.

(** Calls that leave the router, in the order they are made. *)
Inductive Call : Type :=
| SendChatAction (chatId action : string)
| Reply (text : string)
| Sleep (ms : Z)
| Generate (userMessage : string) (history : list string).

Record State : Type := {
  chatHistory : gmap string (list string);
  calls : list Call;
  log : list LlmService.LogLine;
  llm : LlmService.State
}.

Definition with_history (f : gmap string (list string) -> gmap string (list string))
    (s : State) : State :=
  {| chatHistory := f (chatHistory s); calls := calls s; log := log s;
     llm := llm s |}.

Definition logger (l : LlmService.LogLine) : M State unit :=
  modify (fun s => {| chatHistory := chatHistory s; calls := calls s;
                      log := log s ++ [l]; llm := llm s |}).

Definition record (c : Call) : M State unit :=
  modify (fun s => {| chatHistory := chatHistory s; calls := calls s ++ [c];
                      log := log s; llm := llm s |}).

(** Run a computation of the injected LlmService on its own state. *)
Definition lift_llm {A} (c : M LlmService.State A) : M State A :=
  fun s =>
    match c (llm s) with
    | (r, l') => (r, {| chatHistory := chatHistory s; calls := calls s;
                        log := log s; llm := l' |})
    end.

Definition maxHistoryLength : Z := 10.

Definition apology : string :=
  "I'm sorry, I encountered an error while processing your message.".

Definition reset_confirmation : string :=
  "I've reset our conversation history.".

(** [id.toString()] *)
Definition toString (id : Z) : string := pretty id.

(** private addToChatHistory(chatId, message), as a change of the table *)
Definition addToChatHistory (chatId message : string)
    (h : gmap string (list string)) : gmap string (list string) :=
  let h1 := match h !! chatId with
            | None => <[chatId := []]> h
            | Some _ => h
            end in
  let h2 := alter (fun l => (l ++ [message])%list) chatId h1 in
  match h2 !! chatId with
  | Some l =>
      if Z.of_nat (length l) >? maxHistoryLength * 2
      then <[chatId := JS.slice (- maxHistoryLength * 2) l]> h2
      else h2
  | None => h2
  end.

(** private getChatHistory(chatId) *)
Definition getChatHistory (chatId : string)
    (h : gmap string (list string)) : list string :=
  default [] (h !! chatId).

Section Service.

Variable settings : Config.Settings.
Variable personalityConfig : Config.Personality.
Variable llmConfig : Config.Llm.

(** The injected LlmService, declared to return [Promise<string>]. *)
Variable llmService : string -> list string -> M LlmService.State string.

(** The transport: given the calls made before and the present one,
    the promise of the Telegram call resolves ([None]) or rejects. *)
Variable transport : list Call -> Call -> option exn.

Definition telegram (c : Call) : M State unit :=
  fun s =>
    (match transport (calls s) c with
     | None => Ok tt
     | Some e => Throw e
     end,
     {| chatHistory := chatHistory s; calls := calls s ++ [c];
        log := log s; llm := llm s |}).

(** ctx.reply(text) *)
Definition reply (text : string) : M State unit := telegram (Reply text).

(** [JSON.stringify(debugInfo, null, 2)] *)
Definition debug_dump (ctx : Context) (historyLength : Z) : string :=
  "{" +:+ JS.nl +:+
  "  " +:+ JS.quote "chatId" +:+ ": " +:+ pretty (chat_id ctx) +:+ "," +:+ JS.nl +:+
  "  " +:+ JS.quote "userId" +:+ ": " +:+ pretty (from_id ctx) +:+ "," +:+ JS.nl +:+
  "  " +:+ JS.quote "historyLength" +:+ ": " +:+ pretty historyLength +:+ "," +:+ JS.nl +:+
  "  " +:+ JS.quote "botName" +:+ ": " +:+
     JS.quote (Config.name personalityConfig) +:+ "," +:+ JS.nl +:+
  "  " +:+ JS.quote "llmProvider" +:+ ": " +:+
     JS.quote (Config.provider llmConfig) +:+ JS.nl +:+
  "}".

(** private async handleCustomCommand(ctx, text) *)
Definition handleCustomCommand (ctx : Context) (text : string) : M State unit :=
  match Config.commandPrefix settings with
  | None => throw (JS.cannot_read JS.VUndefined "length")
  | Some prefix =>
      let command := JS.trim (JS.substring (String.length prefix) text) in
      let lowered := JS.toLowerCase command in
      if String.eqb lowered "reset" then
        let chatId := toString (chat_id ctx) in
        modify (with_history (fun h => <[chatId := []]> h)) ;;
        reply reset_confirmation
      else if String.eqb lowered "debug" then
        h <- gets chatHistory ;;
        let historyLength :=
          match h !! toString (chat_id ctx) with
          | Some l => Z.of_nat (length l)
          | None => 0
          end in
        reply ("Debug information:" +:+ JS.nl +:+ debug_dump ctx historyLength)
      else
        reply ("Unknown command: " +:+ command)
  end.

(** private async generateResponse(chatId, userMessage) *)
Definition generateResponse (chatId userMessage : string) : M State string :=
  history <- gets (fun s => getChatHistory chatId (chatHistory s)) ;;
  record (Generate userMessage history) ;;
  lift_llm (llmService userMessage history).

(** [allowedUsers?.length && !allowedUsers.includes(userId)] *)
Definition unauthorized (userId : string) : bool :=
  match Config.allowedUsers settings with
  | None => false
  | Some l => negb (Nat.eqb (length l) 0) && negb (JS.includes l userId)
  end.

(** [blacklistedUsers?.includes(userId)] *)
Definition blacklisted (userId : string) : bool :=
  match Config.blacklistedUsers settings with
  | None => false
  | Some l => JS.includes l userId
  end.

(** [commandPrefix && messageText.startsWith(commandPrefix)] *)
Definition is_command (messageText : string) : bool :=
  match Config.commandPrefix settings with
  | None => false
  | Some p => negb (String.eqb p EmptyString) && JS.startsWith messageText p
  end.

(** [responseDelay && responseDelay > 0] *)
Definition delay : option Z :=
  match Config.responseDelay settings with
  | Some d => if negb (d =? 0) && (d >? 0) then Some d else None
  | None => None
  end.

(** private async handleMessage(ctx) *)
Definition handleMessage (ctx : Context) : M State unit :=
  match message_text ctx with
  | None => ret tt
  | Some messageText =>
      let chatId := toString (chat_id ctx) in
      let userId := toString (from_id ctx) in
      if unauthorized userId then
        logger (LlmService.LogWarn
                  ("Blocked message from unauthorized user: " +:+ userId))
      else if blacklisted userId then
        logger (LlmService.LogWarn
                  ("Blocked message from blacklisted user: " +:+ userId))
      else if is_command messageText then
        handleCustomCommand ctx messageText
      else
        modify (with_history (addToChatHistory chatId messageText)) ;;
        telegram (SendChatAction chatId "typing") ;;
        try_catch
          (response <- generateResponse chatId messageText ;;
           match delay with
           | Some d => record (Sleep d)
           | None => ret tt
           end ;;
           reply response ;;
           modify (with_history (addToChatHistory chatId response)))
          (fun error =>
             logger (LlmService.LogError
                       ("Error handling message: " +:+ message error)) ;;
             reply apology)
  end.

End Service.

(** The sender is turned away by the allow-list: one is configured, it is
    not empty, and the sender is not on it. *)
Definition denied_by_allow_list (settings : Config.Settings)
    (userId : string) : Prop :=
  exists l, Config.allowedUsers settings = Some l /\ l <> [] /\ userId ∉ l.

(** The sender is on the configured block-list. *)
Definition on_block_list (settings : Config.Settings)
    (userId : string) : Prop :=
  exists l, Config.blacklistedUsers settings = Some l /\ userId ∈ l.

(** A run of appends, oldest first. *)
Definition appendAll (ops : list (string * string))
    (h : gmap string (list string)) : gmap string (list string) :=
  fold_left (fun acc op => addToChatHistory (fst op) (snd op) acc) ops h.

(** The texts appended to one chat in a run, in order. *)
Definition appended (chatId : string) (ops : list (string * string)) : list string :=
  map snd (filter (fun op => fst op = chatId) ops).

(** The last [n] entries of a list. *)
Definition lastn {A} (n : nat) (l : list A) : list A :=
  drop (length l - n)%nat l.

End BotService.

(** ** Logger lines of the services added below *)

Module Logger.

Inductive Level : Type := Log | Warn | Err | Debug.

Definition Entry : Type := (Level * string)%type.

End Logger.

(** ** ConfigService (config.service.ts) *)

Module ConfigService.

(** The sections as the YAML document has them: every member may be
    missing, whatever the interface declares. *)
Record Webhook : Type := {
  enabled : option bool;
  url : option string;
  port : option Z
}.

Module Polling.
Record t : Type := { enabled : option bool }.
End Polling.

Record Bot : Type := {
  token : option string;
  webhook : option Webhook;
  polling : option Polling.t
}.

Record Channel : Type := {
  id : string;
  name : option string;
  autoJoin : bool
}.

Record Llm : Type := {
  provider : option string;
  apiKey : option string;
  model : option string;
  endpoint : option string;
  maxTokens : option Z;
  temperature : option Q;
  systemPrompt : option string
}.

Record BotConfig : Type := {
  bot : option Bot;
  personality : option Config.Personality;
  channels : option (list Channel);
  llm : option Llm;
  settings : option Config.Settings
}.

(** What [yaml.load] returns: nothing for an empty document, [null], or a
    mapping.  A document that is no mapping reads as a mapping without
    members. *)
Inductive Loaded : Type :=
| Undefined
| Null
| Document (c : BotConfig).

Record State : Type := {
  config : Loaded;
  log : list Logger.Entry
}.

Definition logger (level : Logger.Level) (line : string) : M State unit :=
  modify (fun s => {| config := config s; log := log s ++ [(level, line)] |}).

(** Truthiness of an optional string, number and flag. *)
Definition present (o : option string) : bool :=
  match o with
  | Some s => negb (String.eqb s EmptyString)
  | None => false
  end.

Definition nonzero (o : option Z) : bool :=
  match o with
  | Some n => negb (n =? 0)
  | None => false
  end.

Definition on (o : option bool) : bool := default false o.

Definition given {A} (o : option A) : bool :=
  match o with
  | Some _ => true
  | None => false
  end.

(** [c.bot?.token] *)
Definition bot_token (c : BotConfig) : option string :=
  match bot c with
  | Some b => token b
  | None => None
  end.

(** [c.llm?.provider] and [c.llm?.apiKey] *)
Definition llm_provider (c : BotConfig) : option string :=
  match llm c with
  | Some l => provider l
  | None => None
  end.

Definition llm_apiKey (c : BotConfig) : option string :=
  match llm c with
  | Some l => apiKey l
  | None => None
  end.

(** [b.webhook?.enabled] and [b.polling?.enabled] *)
Definition webhook_enabled (b : Bot) : bool :=
  match webhook b with
  | Some w => on (enabled w)
  | None => false
  end.

Definition polling_enabled (b : Bot) : bool :=
  match polling b with
  | Some p => on (Polling.enabled p)
  | None => false
  end.

(** [b.polling.enabled = false] *)
Definition disable_polling (b : Bot) : Bot :=
  {| token := token b;
     webhook := webhook b;
     polling := match polling b with
                | Some _ => Some {| Polling.enabled := Some false |}
                | None => None
                end |}.

Definition with_bot (c : BotConfig) (b : Bot) : BotConfig :=
  {| bot := Some b; personality := personality c; channels := channels c;
     llm := llm c; settings := settings c |}.

(** [!b.webhook.url || !b.webhook.port], read when the webhook is enabled. *)
Definition webhook_incomplete (b : Bot) : bool :=
  match webhook b with
  | Some w => negb (present (url w)) || negb (nonzero (port w))
  | None => true
  end.

(** private validateConfig() *)
Definition validateConfig : M State unit :=
  fun s =>
    match config s with
    | Undefined =>
        (Throw (JS.cannot_read JS.VUndefined "bot"), s)
    | Null =>
        (Throw (JS.cannot_read JS.VNull "bot"), s)
    | Document c =>
        if negb (present (bot_token c)) then
          (Throw (Error "Bot token is required in configuration"), s)
        else if negb (given (personality c)) then
          (Throw (Error "Personality configuration is required"), s)
        else if negb (present (llm_provider c)) || negb (present (llm_apiKey c)) then
          (Throw (Error "LLM provider and API key are required in configuration"), s)
        else
          match bot c with
          | None => throw (JS.cannot_read JS.VUndefined "webhook")
          | Some b =>
              (if webhook_enabled b && polling_enabled b then
                 logger Logger.Warn
                   "Both webhook and polling are enabled. Using webhook mode." ;;
                 modify (fun s1 =>
                           {| config := Document (with_bot c (disable_polling b));
                              log := log s1 |})
               else ret tt) ;;
              (if webhook_enabled b && webhook_incomplete b then
                 throw (Error "Webhook URL and port are required when webhook is enabled")
               else
                 logger Logger.Log "Configuration validation successful")
          end s
    end.

Section Loading.

(** [process.env.CONFIG_PATH], [fs.readFileSync(path, 'utf8')] and
    [yaml.load(contents)]. *)
Variable CONFIG_PATH : option string.
Variable readFileSync : string -> Result string.
Variable yaml_load : string -> Result Loaded.

Definition configPath : string :=
  JS.or_string CONFIG_PATH "config/bot-config.yaml".

(** private loadConfig() *)
Definition loadConfig : M State unit :=
  try_catch
    (fileContents <- lift_result (readFileSync configPath) ;;
     doc <- lift_result (yaml_load fileContents) ;;
     modify (fun s => {| config := doc; log := log s |}) ;;
     logger Logger.Log ("Configuration loaded from " +:+ configPath) ;;
     validateConfig)
    (fun error =>
       logger Logger.Err ("Failed to load configuration: " +:+ message error) ;;
       throw error).

(** constructor() *)
Definition constructor : Result unit * State :=
  loadConfig {| config := Undefined; log := [] |}.

End Loading.

(** getBotConfig() and getSettingsConfig() on a loaded document *)
Definition getBotConfig (s : State) : option Bot :=
  match config s with
  | Document c => bot c
  | _ => None
  end.

Definition getSettingsConfig (s : State) : option Config.Settings :=
  match config s with
  | Document c => settings c
  | _ => None
  end.

(** The document a successful validation leaves for [c]. *)
Definition normalised (c : BotConfig) : BotConfig :=
  match bot c with
  | Some b =>
      if webhook_enabled b && polling_enabled b
      then with_bot c (disable_polling b)
      else c
  | None => c
  end.

(** Webhook and polling are both enabled in [c]. *)
Definition both_enabled (c : BotConfig) : bool :=
  match bot c with
  | Some b => webhook_enabled b && polling_enabled b
  | None => false
  end.

(** What a successful validation adds to the log. *)
Definition validation_lines (c : BotConfig) : list Logger.Entry :=
  (if both_enabled c
   then [(Logger.Warn, "Both webhook and polling are enabled. Using webhook mode.")]
   else [])
  ++ [(Logger.Log, "Configuration validation successful")].

(** The conditions that [validateConfig] checks. *)
Definition acceptable (c : BotConfig) : Prop :=
  present (bot_token c) = true
  /\ given (personality c) = true
  /\ present (llm_provider c) = true
  /\ present (llm_apiKey c) = true
  /\ (forall b, bot c = Some b -> webhook_enabled b = true ->
                webhook_incomplete b = false).

End ConfigService.

(** ** TelegramService (telegram.service.ts) *)

Module TelegramService.

(** Calls made on the Telegraf instance. *)
Inductive Call : Type :=
| SetWebhook (url : option string)
| Launch
| SendMessage (chatId text : string).

Record State : Type := {
  calls : list Call;
  log : list Logger.Entry
}.

Definition logger (level : Logger.Level) (line : string) : M State unit :=
  modify (fun s => {| calls := calls s; log := log s ++ [(level, line)] |}).

Section Handlers.

(** The handlers are functions of the update context; what they act on is
    left open. *)
Variables (Ctx S : Type).

Definition Handler : Type := Ctx -> M S unit.

(** registerMessageHandler(handler): [this.messageHandlers.push(handler)] *)
Definition registerMessageHandler (handler : Handler)
    (messageHandlers : list Handler) : list Handler :=
  messageHandlers ++ [handler].

(** The handler of text messages set up by setupBaseHandlers:
    [for (const handler of this.messageHandlers) await handler(ctx)] *)
Fixpoint on_text (messageHandlers : list Handler) (ctx : Ctx) : M S unit :=
  match messageHandlers with
  | [] => ret tt
  | handler :: rest => handler ctx ;; on_text rest ctx
  end.

End Handlers.

Section Service.

Variable botConfig : ConfigService.Bot.

(** The Telegraf instance: given the calls made before and the present
    one, the promise resolves ([None]) or rejects. *)
Variable telegraf : list Call -> Call -> option exn.

Definition bot_call (c : Call) : M State unit :=
  fun s =>
    (match telegraf (calls s) c with
     | None => Ok tt
     | Some e => Throw e
     end,
     {| calls := calls s ++ [c]; log := log s |}).

(** [`${port}`] for a port that may be missing *)
Definition show_port (o : option Z) : string :=
  match o with
  | Some n => pretty n
  | None => "undefined"
  end.

(** private async startBot() *)
Definition startBot : M State unit :=
  match ConfigService.webhook botConfig with
  | Some w =>
      if ConfigService.on (ConfigService.enabled w) then
        logger Logger.Log ("Starting bot in webhook mode on port " +:+
                           show_port (ConfigService.port w)) ;;
        bot_call (SetWebhook (ConfigService.url w))
      else
        logger Logger.Log "Starting bot in polling mode" ;;
        bot_call Launch
  | None =>
      logger Logger.Log "Starting bot in polling mode" ;;
      bot_call Launch
  end.

(** async sendMessage(chatId, text) *)
Definition sendMessage (chatId text : string) : M State unit :=
  try_catch
    (bot_call (SendMessage chatId text))
    (fun error =>
       logger Logger.Err ("Failed to send message to " +:+ chatId +:+ ": " +:+
                          message error)).

(** The loop of joinConfiguredChannels over the configured channels. *)
Fixpoint announce (channels : list ConfigService.Channel) : M State unit :=
  match channels with
  | [] => ret tt
  | channel :: rest =>
      (if ConfigService.autoJoin channel then
         logger Logger.Log
           ("Bot should be added to channel: " +:+
            JS.or_string (ConfigService.name channel) (ConfigService.id channel))
       else ret tt) ;;
      announce rest
  end.

(** private async joinConfiguredChannels() *)
Definition joinConfiguredChannels
    (channels : option (list ConfigService.Channel)) : M State unit :=
  match channels with
  | None | Some [] => logger Logger.Log "No channels configured to join"
  | Some l => announce l
  end.

End Service.

End TelegramService.

(** ** TelegramController (telegram.controller.ts) *)

Module TelegramController.

(** What the controller does to the outside: the responses it sends
    (status and body), its log, and the state [S] that processing an
    update acts on. *)
Record State (S : Type) : Type := {
  responses : list (Z * string);
  log : list Logger.Entry;
  service : S
}.
Arguments responses {S} _.
Arguments log {S} _.
Arguments service {S} _.

(** The [webhookEnabled] flag the constructor computes.  [configService]
    is [None] when the service or its [getBotConfig] is not there;
    otherwise it is what [getBotConfig()] returns or throws. *)
Definition constructor
    (configService : option (Result (option ConfigService.Bot)))
    : bool * list Logger.Entry :=
  match configService with
  | None => (false, [])
  | Some (Throw error) =>
      (false,
       [(Logger.Warn,
         "Failed to load bot config from config service: " +:+ message error)])
  | Some (Ok None) => (false, [])
  | Some (Ok (Some botConfig)) =>
      (match ConfigService.webhook botConfig with
       | Some w => ConfigService.on (ConfigService.enabled w) || false
       | None => false
       end, [])
  end.

Section Controller.

Variable S : Type.
Variable webhookEnabled : bool.

(** [this.telegramService.handleWebhookUpdate(update)] for the update at
    hand. *)
Variable handleWebhookUpdate : M S unit.

Definition logger (level : Logger.Level) (line : string) : M (State S) unit :=
  modify (fun s => {| responses := responses s; log := log s ++ [(level, line)];
                      service := service s |}).

(** [res.status(code).send(body)] *)
Definition send (code : Z) (body : string) : M (State S) unit :=
  modify (fun s => {| responses := responses s ++ [(code, body)]; log := log s;
                      service := service s |}).

Definition process (c : M S unit) : M (State S) unit :=
  fun s =>
    match c (service s) with
    | (r, s') => (r, {| responses := responses s; log := log s; service := s' |})
    end.

(** async handleWebhook(update, req, res) *)
Definition handleWebhook : M (State S) unit :=
  if negb webhookEnabled then
    logger Logger.Warn "Received webhook request but webhook mode is disabled" ;;
    send 403 "Webhook mode is disabled"
  else
    try_catch
      (process handleWebhookUpdate ;;
       send 200 "OK")
      (fun error =>
         logger Logger.Err ("Error handling webhook: " +:+ message error) ;;
         send 500 "Internal Server Error").

(** async healthCheck(): the [mode] member of the answer *)
Definition healthCheck : string :=
  if webhookEnabled then "webhook" else "polling".

End Controller.

End TelegramController.

(** ** BotService: construction and start-up *)

Module BotServiceInit.

Definition default_settings : Config.Settings :=
  {| Config.logLevel := "info";
     Config.allowedUsers := Some [];
     Config.blacklistedUsers := Some [];
     Config.commandPrefix := Some "/";
     Config.responseDelay := Some 0 |}.

(** The [settings] the constructor of BotService keeps.  [configService]
    is [None] when the service or its [getSettingsConfig] is not there;
    otherwise it is what [getSettingsConfig()] returns or throws. *)
Definition constructor
    (configService : option (Result (option Config.Settings)))
    : Config.Settings * list Logger.Entry :=
  match configService with
  | None => (default_settings, [])
  | Some (Throw error) =>
      (default_settings,
       [(Logger.Warn,
         "Failed to load settings from config service: " +:+ message error)])
  | Some (Ok None) => (default_settings, [])
  | Some (Ok (Some configSettings)) => (configSettings, [])
  end.

Section Init.

Variables (Ctx S : Type).

(** What start-up acts on: the handlers registered with the Telegram
    service and the log. *)
Record State : Type := {
  messageHandlers : list (TelegramService.Handler Ctx S);
  log : list Logger.Entry
}.

Definition logger (level : Logger.Level) (line : string) : M State unit :=
  modify (fun s => {| messageHandlers := messageHandlers s;
                      log := log s ++ [(level, line)] |}).

(** The Telegram service at hand: [None] when it or its
    [registerMessageHandler] is not there, otherwise that method. *)
Variable telegramService :
  option (TelegramService.Handler Ctx S -> M State unit).

(** [this.handleMessage.bind(this)] *)
Variable handleMessage : TelegramService.Handler Ctx S.

(** async onModuleInit() *)
Definition onModuleInit : M State unit :=
  logger Logger.Log "Initializing bot service" ;;
  try_catch
    (match telegramService with
     | Some register => register handleMessage
     | None =>
         logger Logger.Warn
           "TelegramService not available or missing registerMessageHandler method"
     end)
    (fun error =>
       logger Logger.Err ("Error registering message handler: " +:+ message error)) ;;
  logger Logger.Log "Bot service initialized".

(** The method of the real Telegram service. *)
Definition register_with_service (handler : TelegramService.Handler Ctx S)
    : M State unit :=
  modify (fun s =>
            {| messageHandlers :=
                 TelegramService.registerMessageHandler Ctx S handler
                   (messageHandlers s);
               log := log s |}).

End Init.

End BotServiceInit.

(** ** Sample configurations, states and collaborators *)

Module Samples.

Import BotService.

Definition personality : Config.Personality :=
  {| Config.name := "Grok Bot";
     Config.description := "A helpful AI assistant powered by Grok 3";
     Config.traits := ["Friendly"; "Knowledgeable"; "Witty"; "Helpful"];
     Config.tone := "conversational";
     Config.responseStyle := "concise yet informative" |}.

Definition llm_of (provider : string) (endpoint : option string) : Config.Llm :=
  {| Config.provider := provider;
     Config.apiKey := "test-api-key";
     Config.model := None;
     Config.endpoint := endpoint;
     Config.maxTokens := None;
     Config.temperature := None;
     Config.systemPrompt := Some "You are a helpful assistant" |}.

(** Everyone admitted, commands start with a slash. *)
Definition open_settings : Config.Settings :=
  {| Config.logLevel := "info";
     Config.allowedUsers := Some [];
     Config.blacklistedUsers := Some [];
     Config.commandPrefix := Some "/";
     Config.responseDelay := Some 0 |}.

Definition guarded_settings : Config.Settings :=
  {| Config.logLevel := "info";
     Config.allowedUsers := Some ["123456"; "654321"];
     Config.blacklistedUsers := Some ["654321"];
     Config.commandPrefix := Some "/";
     Config.responseDelay := None |}.

Definition fresh : State :=
  {| chatHistory := ∅; calls := []; log := [];
     llm := {| LlmService.requests := []; LlmService.log := [] |} |}.

Definition msg (text : string) (from : Z) : Context :=
  {| message_text := Some text; chat_id := 12; from_id := from |}.

Definition answering (reply : string) : string -> list string -> M LlmService.State string :=
  fun _ _ => ret reply.

Definition failing : string -> list string -> M LlmService.State string :=
  fun _ _ => throw (Error "LLM error").

Definition delivering : list Call -> Call -> option exn := fun _ _ => None.

(** A transport on which the typing indicator is refused. *)
Definition no_typing : list Call -> Call -> option exn :=
  fun _ c =>
    match c with
    | SendChatAction _ _ => Some (Error "403: Forbidden: bot was blocked by the user")
    | _ => None
    end.

(** A transport on which every reply is refused. *)
Definition no_reply : list Call -> Call -> option exn :=
  fun _ c =>
    match c with
    | Reply _ => Some (Error "403: Forbidden: bot was blocked by the user")
    | _ => None
    end.

(** A text handler that leaves its name in the state, and one that
    throws. *)
Definition mark (name : string) : TelegramService.Handler unit (list string) :=
  fun _ => modify (fun seen => seen ++ [name]).

Definition boom : TelegramService.Handler unit (list string) :=
  fun _ => throw (Error "handler failed").

(** U+00A0, the no-break space, in UTF-8. *)
Definition nbsp : string :=
  String (ascii_of_nat 194) (String (ascii_of_nat 160) EmptyString).

(** A transport on which the reply with [text] is refused, and nothing
    else. *)
Definition refusing (text : string) : list Call -> Call -> option exn :=
  fun _ c =>
    match c with
    | Reply t =>
        if String.eqb t text
        then Some (Error "403: Forbidden: bot was blocked by the user")
        else None
    | _ => None
    end.

(** Twenty-one texts appended to chat 42, one to another chat before
    them. *)
Definition sample_run : list (string * string) :=
  ("7", "other") ::
  map (fun i => ("42", pretty (Z.of_nat i))) (seq 0 21).

Definition idle : LlmService.State :=
  {| LlmService.requests := []; LlmService.log := [] |}.

(** A backend that answers every request with [d]. *)
Definition answer (d : JS.value)
    : list LlmService.HttpRequest -> LlmService.HttpRequest -> Result JS.value :=
  fun _ _ => Ok d.

(** A backend that rejects every request. *)
Definition rejecting
    : list LlmService.HttpRequest -> LlmService.HttpRequest -> Result JS.value :=
  fun _ _ => Throw (AxiosError "Request failed with status code 500").

Definition anthropic_data (usage : list (string * JS.value)) : JS.value :=
  JS.VObj (("content",
            JS.VArr [JS.VObj [("text", JS.VStr "This is a response from Anthropic")]])
           :: usage).

Definition custom_url : string := "https://custom-api.example.com".

(** A configuration with both limits set to zero. *)
Definition zero_limits (provider : string) : Config.Llm :=
  {| Config.provider := provider;
     Config.apiKey := "test-api-key";
     Config.model := Some "test-model";
     Config.endpoint := Some custom_url;
     Config.maxTokens := Some 0;
     Config.temperature := Some 0%Q;
     Config.systemPrompt := None |}.

(** A document with webhook and polling both enabled. *)
Definition both_modes : ConfigService.BotConfig :=
  {| ConfigService.bot :=
       Some {| ConfigService.token := Some "YOUR_TELEGRAM_BOT_TOKEN";
               ConfigService.webhook :=
                 Some {| ConfigService.enabled := Some true;
                         ConfigService.url := Some "https://your-domain.com/telegram/webhook";
                         ConfigService.port := Some 3000 |};
               ConfigService.polling :=
                 Some {| ConfigService.Polling.enabled := Some true |} |};
     ConfigService.personality := Some personality;
     ConfigService.channels :=
       Some [{| ConfigService.id := "@your_channel";
                ConfigService.name := Some "Your Channel";
                ConfigService.autoJoin := true |};
             {| ConfigService.id := "-1001234567890";
                ConfigService.name := None;
                ConfigService.autoJoin := true |};
             {| ConfigService.id := "@muted";
                ConfigService.name := Some "Muted";
                ConfigService.autoJoin := false |}];
     ConfigService.llm :=
       Some {| ConfigService.provider := Some "grok";
               ConfigService.apiKey := Some "YOUR_API_KEY";
               ConfigService.model := Some "grok-3";
               ConfigService.endpoint := None;
               ConfigService.maxTokens := Some 1000;
               ConfigService.temperature := Some 0.7%Q;
               ConfigService.systemPrompt := None |};
     ConfigService.settings := None |}.

(** The state of the configuration service holding that document. *)
Definition loaded : ConfigService.State :=
  {| ConfigService.config := ConfigService.Document both_modes;
     ConfigService.log := [] |}.

(** A file system with one file, at the default path. *)
Definition reading (contents : string) : string -> Result string :=
  fun path =>
    if String.eqb path "config/bot-config.yaml"
    then Ok contents
    else Throw (Error "File not found").

End Samples.

(** * Properties *)

(** ** The conversation store *)

Section ConversationStore.

Import BotService.

Implicit Types (h : gmap string (list string)) (c chatId : string).

Lemma lastn_short {A} (n : nat) (l : list A) :
  (length l <= n)%nat -> lastn n l = l.
Proof.
  intros Hle. unfold lastn.
  replace (length l - n)%nat with 0%nat by lia. reflexivity.
Qed.

Lemma lastn_length {A} (n : nat) (l : list A) :
  length (lastn n l) = Nat.min n (length l).
Proof. unfold lastn. rewrite length_drop. lia. Qed.

Lemma lastn_app_lastn {A} (n : nat) (x y : list A) :
  lastn n (lastn n x ++ y) = lastn n (x ++ y).
Proof.
  destruct (Nat.le_gt_cases (length x) n) as [Hle | Hgt].
  - rewrite (lastn_short n x Hle). reflexivity.
  - unfold lastn at 1 3.
    rewrite !length_app, lastn_length.
    replace (Nat.min n (length x)) with n by lia.
    unfold lastn.
    replace (length x + length y - n)%nat
      with ((length x - n) + (n + length y - n))%nat by lia.
    rewrite <- drop_drop.
    rewrite (drop_app_le x y (length x - n)) by lia.
    reflexivity.
Qed.

(** [slice(-n)] keeps the last [n] entries. *)
Lemma slice_neg_lastn {A} (n : nat) (l : list A) :
  (0 < n)%nat -> JS.slice (- Z.of_nat n) l = lastn n l.
Proof.
  intros Hn. unfold JS.slice, lastn.
  destruct (- Z.of_nat n <? 0) eqn:E; [| apply Z.ltb_ge in E; lia].
  f_equal. lia.
Qed.

(** The array stored for [chatId] after an append is the old one with the
    text pushed, cut to its last 20 entries. *)
Lemma getChatHistory_add_same chatId m h :
  getChatHistory chatId (addToChatHistory chatId m h)
  = lastn 20 (getChatHistory chatId h ++ [m]).
Proof.
  unfold getChatHistory, addToChatHistory.
  set (h1 := match h !! chatId with
             | None => <[chatId := []]> h
             | Some _ => h
             end).
  assert (H1 : h1 !! chatId = Some (default [] (h !! chatId))).
  { subst h1. destruct (h !! chatId) eqn:E; simpl.
    - exact E.
    - apply lookup_insert_eq. }
  rewrite lookup_alter_eq, H1. simpl.
  set (l := default [] (h !! chatId) ++ [m]).
  destruct (Z.of_nat (length l) >? maxHistoryLength * 2) eqn:E.
  - rewrite lookup_insert_eq. simpl.
    change (- maxHistoryLength * 2) with (- Z.of_nat 20).
    apply slice_neg_lastn. lia.
  - rewrite lookup_alter_eq, H1. simpl. fold l.
    symmetry. apply lastn_short.
    unfold maxHistoryLength in E. lia.
Qed.

(** An append leaves the arrays of the other chats alone. *)
Lemma getChatHistory_add_other c chatId m h :
  c <> chatId ->
  getChatHistory c (addToChatHistory chatId m h) = getChatHistory c h.
Proof.
  intros Hne. unfold getChatHistory, addToChatHistory.
  set (h1 := match h !! chatId with
             | None => <[chatId := []]> h
             | Some _ => h
             end).
  assert (H1 : h1 !! c = h !! c).
  { subst h1. destruct (h !! chatId); [reflexivity |].
    apply lookup_insert_ne. congruence. }
  set (h2 := alter (fun l => (l ++ [m])%list) chatId h1).
  assert (H2 : h2 !! c = h !! c).
  { subst h2. rewrite lookup_alter_ne by congruence. exact H1. }
  destruct (h2 !! chatId) as [l |]; [| now rewrite H2].
  destruct (Z.of_nat (length l) >? maxHistoryLength * 2).
  - rewrite lookup_insert_ne by congruence. now rewrite H2.
  - now rewrite H2.
Qed.

Lemma lastn_snoc {A} (n : nat) (l : list A) (x : A) :
  lastn (S n) (l ++ [x]) = lastn n l ++ [x].
Proof.
  unfold lastn. rewrite length_app. simpl.
  replace (length l + 1 - S n)%nat with (length l - n)%nat by lia.
  apply drop_app_le. lia.
Qed.

(** The text just appended is the last entry of the stored array. *)
Lemma getChatHistory_add_snoc chatId m h :
  getChatHistory chatId (addToChatHistory chatId m h)
  = lastn 19 (getChatHistory chatId h) ++ [m].
Proof. rewrite getChatHistory_add_same. apply lastn_snoc. Qed.

Lemma appended_cons_same c m ops :
  appended c ((c, m) :: ops) = m :: appended c ops.
Proof.
  unfold appended. rewrite filter_cons_True by reflexivity. reflexivity.
Qed.

Lemma appended_cons_other c c' m ops :
  c' <> c -> appended c ((c', m) :: ops) = appended c ops.
Proof.
  intros Hne. unfold appended. now rewrite filter_cons_False.
Qed.

(** What [get] returns after a run of appends on a table whose array for
    [c] is within the bound. *)
Lemma getChatHistory_appendAll c ops : forall h,
  (length (getChatHistory c h) <= 20)%nat ->
  getChatHistory c (appendAll ops h)
  = lastn 20 (getChatHistory c h ++ appended c ops).
Proof.
  induction ops as [| [c' m] ops IH]; intros h Hb.
  - simpl. unfold appended. simpl. rewrite app_nil_r.
    symmetry. now apply lastn_short.
  - change (appendAll ((c', m) :: ops) h)
      with (appendAll ops (addToChatHistory c' m h)).
    destruct (decide (c' = c)) as [-> | Hne].
    + rewrite IH.
      * rewrite getChatHistory_add_same, lastn_app_lastn.
        rewrite appended_cons_same, <- app_assoc. reflexivity.
      * rewrite getChatHistory_add_same, lastn_length. lia.
    + rewrite IH.
      * rewrite getChatHistory_add_other by congruence.
        now rewrite appended_cons_other.
      * now rewrite getChatHistory_add_other by congruence.
Qed.

(** C3.  Starting from the empty table, after any run of appends (to any
    chats, interleaved) the array stored for a chat has at most
    2 * maxHistoryLength = 20 entries; and once more than 20 texts have
    been appended to that chat, [getChatHistory] returns exactly the 20
    most recently appended ones, in the order they were appended. *)
Theorem history_bounded_keeps_most_recent (ops : list (string * string)) c :
  Z.of_nat (length (getChatHistory c (appendAll ops ∅))) <= 2 * maxHistoryLength
  /\ (2 * maxHistoryLength < Z.of_nat (length (appended c ops)) ->
      getChatHistory c (appendAll ops ∅) = lastn 20 (appended c ops)
      /\ length (getChatHistory c (appendAll ops ∅)) = 20%nat).
Proof.
  assert (E : getChatHistory c (appendAll ops ∅) = lastn 20 (appended c ops)).
  { rewrite getChatHistory_appendAll.
    - unfold getChatHistory. rewrite lookup_empty. reflexivity.
    - unfold getChatHistory. rewrite lookup_empty. simpl. lia. }
  unfold maxHistoryLength. split.
  - rewrite E, lastn_length. lia.
  - intros Hgt. split; [exact E |].
    rewrite E, lastn_length. lia.
Qed.

Lemma history_bounded_keeps_most_recent_witness :
  let sample_run := Samples.sample_run in
  2 * maxHistoryLength < Z.of_nat (length (appended "42" sample_run))
  /\ getChatHistory "42" (appendAll sample_run ∅)
     = map (fun i => pretty (Z.of_nat i)) (seq 1 20).
Proof.
  intros sample_run.
  assert (Hgt : 2 * maxHistoryLength
                < Z.of_nat (length (appended "42" sample_run)))
    by (vm_compute; reflexivity).
  split; [exact Hgt |].
  destruct (history_bounded_keeps_most_recent sample_run "42") as [_ H].
  destruct (H Hgt) as [E _].
  rewrite E. vm_compute. reflexivity.
Defined.

End ConversationStore.

(** ** The message router *)

Section Router.

Import BotService.

Variable settings : Config.Settings.
Variable personalityConfig : Config.Personality.
Variable llmConfig : Config.Llm.
Variable llmService : string -> list string -> M LlmService.State string.
Variable transport : list Call -> Call -> option exn.

Local Abbreviation handleMessage :=
  (BotService.handleMessage settings personalityConfig llmConfig llmService transport).
Local Abbreviation handleCustomCommand :=
  (BotService.handleCustomCommand settings personalityConfig llmConfig transport).

Lemma eqb_string_true (a b : string) : String.eqb a b = true <-> a = b.
Proof. apply String.eqb_eq. Qed.

Lemma includes_elem_of (l : list string) (x : string) :
  JS.includes l x = true <-> x ∈ l.
Proof.
  unfold JS.includes. rewrite existsb_exists. split.
  - intros (y & Hin & Heq). apply String.eqb_eq in Heq. subst y.
    now apply list_elem_of_In.
  - intros Hin. exists x. split; [now apply list_elem_of_In |].
    apply String.eqb_refl.
Qed.

Lemma unauthorized_spec (userId : string) :
  unauthorized settings userId = true <-> denied_by_allow_list settings userId.
Proof.
  unfold unauthorized, denied_by_allow_list. split.
  - destruct (Config.allowedUsers settings) as [l |]; [| discriminate].
    intros H. apply andb_true_iff in H as [Hlen Hinc].
    exists l. split; [reflexivity |]. split.
    + intros ->. discriminate Hlen.
    + intros Hin. apply includes_elem_of in Hin.
      rewrite Hin in Hinc. discriminate.
  - intros (l & -> & Hne & Hnin). apply andb_true_iff. split.
    + destruct l; [contradiction | reflexivity].
    + destruct (JS.includes l userId) eqn:E; [| reflexivity].
      apply includes_elem_of in E. contradiction.
Qed.

Lemma blacklisted_spec (userId : string) :
  blacklisted settings userId = true <-> on_block_list settings userId.
Proof.
  unfold blacklisted, on_block_list. split.
  - destruct (Config.blacklistedUsers settings) as [l |]; [| discriminate].
    intros H. exists l. split; [reflexivity |]. now apply includes_elem_of.
  - intros (l & -> & Hin). now apply includes_elem_of.
Qed.

(** C4.  Access control of a text message, in order.  A sender turned
    away by the allow-list is dropped with the "unauthorized" warning;
    otherwise a sender on the block-list is dropped with the
    "blacklisted" warning.  Either way the router returns normally,
    makes no call at all (no reply, no typing indicator, no generation)
    and leaves the conversation table as it was; so a sender on the
    block-list gets no reply whatever the allow-list is. *)
Theorem access_control_drops_silently (ctx : Context) (text : string) (st : State) :
  message_text ctx = Some text ->
  let userId := toString (from_id ctx) in
  let warned line :=
    (Ok tt, {| chatHistory := chatHistory st; calls := calls st;
               log := log st ++ [LlmService.LogWarn (line +:+ userId)];
               llm := llm st |}) in
  (denied_by_allow_list settings userId ->
   handleMessage ctx st = warned "Blocked message from unauthorized user: ")
  /\ (~ denied_by_allow_list settings userId ->
      on_block_list settings userId ->
      handleMessage ctx st = warned "Blocked message from blacklisted user: ")
  /\ (on_block_list settings userId ->
      fst (handleMessage ctx st) = Ok tt
      /\ calls (snd (handleMessage ctx st)) = calls st
      /\ chatHistory (snd (handleMessage ctx st)) = chatHistory st).
Proof.
  intros Htext userId warned.
  assert (Hallow : denied_by_allow_list settings userId ->
                   handleMessage ctx st
                   = warned "Blocked message from unauthorized user: ").
  { intros Hd. apply unauthorized_spec in Hd.
    unfold BotService.handleMessage. rewrite Htext.
    fold userId. rewrite Hd. reflexivity. }
  assert (Hblock : ~ denied_by_allow_list settings userId ->
                   on_block_list settings userId ->
                   handleMessage ctx st
                   = warned "Blocked message from blacklisted user: ").
  { intros Hnd Hb. apply blacklisted_spec in Hb.
    unfold BotService.handleMessage. rewrite Htext. fold userId.
    destruct (unauthorized settings userId) eqn:E.
    - apply unauthorized_spec in E. contradiction.
    - rewrite Hb. reflexivity. }
  split; [exact Hallow |]. split; [exact Hblock |].
  intros Hb.
  destruct (unauthorized settings userId) eqn:E.
  - apply unauthorized_spec in E. rewrite (Hallow E). simpl. auto.
  - assert (Hnd : ~ denied_by_allow_list settings userId).
    { intros Hd. apply unauthorized_spec in Hd. congruence. }
    rewrite (Hblock Hnd Hb). simpl. auto.
Qed.

Lemma is_command_true (text prefix : string) :
  Config.commandPrefix settings = Some prefix ->
  prefix <> EmptyString ->
  JS.startsWith text prefix = true ->
  is_command settings text = true.
Proof.
  intros Hp Hne Hs. unfold is_command. rewrite Hp, Hs.
  destruct (String.eqb prefix EmptyString) eqn:E; [| reflexivity].
  apply String.eqb_eq in E. contradiction.
Qed.

Lemma admitted_unauthorized (userId : string) :
  ~ denied_by_allow_list settings userId -> unauthorized settings userId = false.
Proof.
  intros H. destruct (unauthorized settings userId) eqn:E; [| reflexivity].
  apply unauthorized_spec in E. contradiction.
Qed.

Lemma admitted_blacklisted (userId : string) :
  ~ on_block_list settings userId -> blacklisted settings userId = false.
Proof.
  intros H. destruct (blacklisted settings userId) eqn:E; [| reflexivity].
  apply blacklisted_spec in E. contradiction.
Qed.

(** C5.  With a command prefix configured, a text whose remainder after
    the prefix, trimmed and lower-cased, is "reset" makes the command
    handler set the chat's array to the empty one and make exactly one
    call, the reply "I've reset our conversation history."; the Response
    Generator is not invoked and its state is untouched.  The router
    reaches the handler for every such text that starts with the
    (non-empty) prefix and comes from an admitted sender. *)
Theorem reset_command_clears_history
    (ctx : Context) (text prefix : string) (st : State) :
  Config.commandPrefix settings = Some prefix ->
  JS.toLowerCase (JS.trim (JS.substring (String.length prefix) text)) = "reset" ->
  let chatId := toString (chat_id ctx) in
  let confirmation := Reply "I've reset our conversation history." in
  let out := handleCustomCommand ctx text st in
  chatHistory (snd out) = <[chatId := []]> (chatHistory st)
  /\ getChatHistory chatId (chatHistory (snd out)) = []
  /\ calls (snd out) = calls st ++ [confirmation]
  /\ llm (snd out) = llm st
  /\ fst out = match transport (calls st) confirmation with
               | None => Ok tt
               | Some e => Throw e
               end
  /\ (message_text ctx = Some text ->
      prefix <> EmptyString ->
      JS.startsWith text prefix = true ->
      ~ denied_by_allow_list settings (toString (from_id ctx)) ->
      ~ on_block_list settings (toString (from_id ctx)) ->
      handleMessage ctx st = out).
Proof.
  intros Hp Hreset chatId confirmation out.
  assert (Hout : out =
                 (match transport (calls st) confirmation with
                  | None => Ok tt
                  | Some e => Throw e
                  end,
                  {| chatHistory := <[chatId := []]> (chatHistory st);
                     calls := calls st ++ [confirmation];
                     log := log st; llm := llm st |})).
  { subst out. unfold BotService.handleCustomCommand.
    rewrite Hp, Hreset. reflexivity. }
  rewrite Hout. simpl.
  repeat split.
  - unfold getChatHistory. now rewrite lookup_insert_eq.
  - intros Htext Hne Hstarts Hallow Hblock.
    rewrite <- Hout. subst out.
    unfold BotService.handleMessage. rewrite Htext.
    rewrite (admitted_unauthorized _ Hallow), (admitted_blacklisted _ Hblock).
    now rewrite (is_command_true text prefix Hp Hne Hstarts).
Qed.

Lemma delay_spec :
  delay settings
  = match Config.responseDelay settings with
    | Some d => if 0 <? d then Some d else None
    | None => None
    end.
Proof.
  unfold delay. destruct (Config.responseDelay settings) as [d |]; [| reflexivity].
  destruct (Z.ltb_spec 0 d) as [Hd | Hd].
  - replace (d =? 0) with false by (symmetry; apply Z.eqb_neq; lia).
    replace (d >? 0) with true by (symmetry; apply Z.gtb_lt; lia). reflexivity.
  - destruct (d >? 0) eqn:E; [apply Z.gtb_lt in E; lia |].
    now rewrite andb_false_r.
Qed.

(** C2, as the code has it.  For a text message of an admitted sender
    that is not a command, once the typing indicator has been sent, every
    error raised inside the [try] is caught in the router, be it thrown by
    the Response Generator or by the reply that carries the generated text
    (the pause and the appends do not throw).  The error is logged, the
    apology is the last reply and the only one that follows the failure,
    the user's text stays the last entry of the chat's history (a response
    that was generated is not appended), and the router returns whatever
    the apology reply returns, so normally when that reply is delivered. *)
Theorem generation_error_is_caught
    (ctx : Context) (text : string) (st : State)
    (e : exn) (l' : LlmService.State) :
  message_text ctx = Some text ->
  ~ denied_by_allow_list settings (toString (from_id ctx)) ->
  ~ on_block_list settings (toString (from_id ctx)) ->
  is_command settings text = false ->
  let chatId := toString (chat_id ctx) in
  let table := addToChatHistory chatId text (chatHistory st) in
  let history := getChatHistory chatId table in
  let typing := SendChatAction chatId "typing" in
  let apologise :=
    Reply "I'm sorry, I encountered an error while processing your message." in
  let pause := match Config.responseDelay settings with
               | Some d => if 0 <? d then [Sleep d] else []
               | None => []
               end in
  transport (calls st) typing = None ->
  (llmService text history (llm st) = (Throw e, l')
   \/ exists response,
        llmService text history (llm st) = (Ok response, l')
        /\ transport (calls st ++ [typing; Generate text history] ++ pause)
                     (Reply response) = Some e) ->
  let attempted := match fst (llmService text history (llm st)) with
                   | Ok response => pause ++ [Reply response]
                   | Throw _ => []
                   end in
  let out := handleMessage ctx st in
  calls (snd out)
  = calls st ++ [typing; Generate text history] ++ attempted ++ [apologise]
  /\ chatHistory (snd out) = table
  /\ last (getChatHistory chatId (chatHistory (snd out))) = Some text
  /\ log (snd out)
     = log st ++ [LlmService.LogError ("Error handling message: " +:+ message e)]
  /\ fst out
     = match transport (calls st ++ [typing; Generate text history] ++ attempted)
                       apologise with
       | None => Ok tt
       | Some e' => Throw e'
       end.
Proof.
  intros Htext Hallow Hblock Hcmd chatId table history typing apologise pause
    Htyping Hfail attempted out.
  assert (Hout : out =
                 (match transport (calls st ++ [typing; Generate text history]
                                     ++ attempted) apologise with
                  | None => Ok tt
                  | Some e' => Throw e'
                  end,
                  {| chatHistory := table;
                     calls := calls st ++ [typing; Generate text history]
                                ++ attempted ++ [apologise];
                     log := log st ++ [LlmService.LogError
                                         ("Error handling message: " +:+ message e)];
                     llm := l' |})).
  { subst out. unfold BotService.handleMessage. rewrite Htext.
    rewrite (admitted_unauthorized _ Hallow), (admitted_blacklisted _ Hblock), Hcmd.
    fold chatId. rewrite delay_spec.
    unfold bind, try_catch, modify, telegram, with_history,
      BotService.generateResponse, bind, gets, record, modify, lift_llm,
      BotService.logger, reply, telegram, modify, bind.
    simpl. fold table. fold typing. rewrite Htyping. simpl.
    fold history. subst attempted.
    destruct Hfail as [Hllm | (response & Hllm & Hreply)]; rewrite Hllm; simpl.
    - rewrite <- !app_assoc. reflexivity.
    - subst pause. simpl in Hreply.
      destruct (Config.responseDelay settings) as [d |]; simpl in *.
      + destruct (0 <? d); simpl in *; rewrite <- ?app_assoc; simpl;
          rewrite Hreply; simpl; rewrite <- ?app_assoc; reflexivity.
      + rewrite <- ?app_assoc; simpl.
        rewrite Hreply; simpl; rewrite <- ?app_assoc; reflexivity. }
  rewrite Hout. simpl. repeat split.
  subst table. rewrite getChatHistory_add_snoc. apply last_snoc.
Qed.

(** On a transport that delivers every call, the router returns normally
    on every update, whatever the generator does. *)
Lemma handleMessage_returns_when_transport_delivers (ctx : Context) (st : State) :
  (forall tr c, transport tr c = None) ->
  fst (handleMessage ctx st) = Ok tt.
Proof.
  intros Hdeliver. unfold BotService.handleMessage.
  destruct (message_text ctx) as [text |]; [| reflexivity].
  destruct (unauthorized settings _); [reflexivity |].
  destruct (blacklisted settings _); [reflexivity |].
  destruct (is_command settings text) eqn:Hcmd.
  - unfold BotService.handleCustomCommand. unfold is_command in Hcmd.
    destruct (Config.commandPrefix settings) as [prefix |]; [| discriminate].
    destruct (String.eqb _ "reset"); [| destruct (String.eqb _ "debug")];
      unfold bind, modify, gets, reply, telegram; simpl;
      rewrite Hdeliver; reflexivity.
  - unfold bind, try_catch, modify, telegram, with_history,
      BotService.generateResponse, bind, gets, record, modify, lift_llm,
      BotService.logger, reply, telegram, modify, bind.
    simpl. rewrite Hdeliver. simpl.
    destruct (llmService text _ (llm st)) as [[response | e] l']; simpl.
    + destruct (delay settings); simpl; rewrite Hdeliver; reflexivity.
    + rewrite Hdeliver. reflexivity.
Qed.

End Router.

(** ** The router on concrete inputs *)

Section RouterSamples.

Import BotService Samples.

(** Sender 654321 is on both lists: no call, no history. *)
Lemma access_control_drops_silently_witness :
  let out := handleMessage guarded_settings personality (llm_of "grok" None)
               (answering "Bot response") delivering (msg "hello" 654321) fresh in
  fst out = Ok tt /\ calls (snd out) = [] /\ chatHistory (snd out) = ∅.
Proof.
  pose proof (access_control_drops_silently guarded_settings personality
                (llm_of "grok" None) (answering "Bot response") delivering
                (msg "hello" 654321) "hello" fresh eq_refl) as H.
  destruct H as (_ & _ & H). apply H.
  exists ["654321"]. split; [reflexivity |]. apply list_elem_of_here.
Defined.

Lemma reset_command_clears_history_witness :
  let st := with_history (addToChatHistory "12" "earlier") fresh in
  let out := handleMessage open_settings personality (llm_of "grok" None)
               (answering "Bot response") delivering (msg "/ ReSeT " 5) st in
  getChatHistory "12" (chatHistory st) = ["earlier"]
  /\ fst out = Ok tt
  /\ getChatHistory "12" (chatHistory (snd out)) = []
  /\ calls (snd out) = [Reply "I've reset our conversation history."].
Proof.
  intros st out.
  pose proof (reset_command_clears_history open_settings personality
                (llm_of "grok" None) (answering "Bot response") delivering
                (msg "/ ReSeT " 5) "/ ReSeT " "/" st eq_refl eq_refl) as H.
  destruct H as (_ & Hget & Hcalls & _ & Hfst & Hroute).
  assert (Hout : out = handleCustomCommand open_settings personality
                         (llm_of "grok" None) delivering (msg "/ ReSeT " 5)
                         "/ ReSeT " st).
  { apply Hroute.
    - reflexivity.
    - discriminate.
    - reflexivity.
    - intros (l & Hl & Hne & _). inversion Hl. subst l. now apply Hne.
    - intros (l & Hl & Hin). inversion Hl. subst l. inversion Hin. }
  rewrite Hout. split; [reflexivity |]. split; [exact Hfst |].
  split; [exact Hget | exact Hcalls].
Defined.

Lemma generation_error_is_caught_witness :
  let apologise :=
    Reply "I'm sorry, I encountered an error while processing your message." in
  let out1 := handleMessage open_settings personality (llm_of "grok" None)
                failing delivering (msg "hello" 5) fresh in
  let out2 := handleMessage open_settings personality (llm_of "grok" None)
                (answering "Bot response") (refusing "Bot response")
                (msg "hello" 5) fresh in
  (fst out1 = Ok tt
   /\ calls (snd out1)
      = [SendChatAction "12" "typing"; Generate "hello" ["hello"]; apologise]
   /\ getChatHistory "12" (chatHistory (snd out1)) = ["hello"])
  /\ (fst out2 = Ok tt
      /\ calls (snd out2)
         = [SendChatAction "12" "typing"; Generate "hello" ["hello"];
            Reply "Bot response"; apologise]
      /\ getChatHistory "12" (chatHistory (snd out2)) = ["hello"]).
Proof.
  intros apologise out1 out2. split.
  - pose proof (generation_error_is_caught open_settings personality
                  (llm_of "grok" None) failing delivering (msg "hello" 5) "hello"
                  fresh (Error "LLM error") (llm fresh) eq_refl) as H.
    destruct H as (Hcalls & Htable & _ & _ & Hfst).
    + intros (l & Hl & Hne & _). inversion Hl. subst l. now apply Hne.
    + intros (l & Hl & Hin). inversion Hl. subst l. inversion Hin.
    + reflexivity.
    + reflexivity.
    + left. reflexivity.
    + split; [exact Hfst |]. split; [exact Hcalls |].
      subst out1. rewrite Htable. vm_compute. reflexivity.
  - pose proof (generation_error_is_caught open_settings personality
                  (llm_of "grok" None) (answering "Bot response")
                  (refusing "Bot response") (msg "hello" 5) "hello" fresh
                  (Error "403: Forbidden: bot was blocked by the user")
                  (llm fresh) eq_refl) as H.
    destruct H as (Hcalls & Htable & _ & _ & Hfst).
    + intros (l & Hl & Hne & _). inversion Hl. subst l. now apply Hne.
    + intros (l & Hl & Hin). inversion Hl. subst l. inversion Hin.
    + reflexivity.
    + reflexivity.
    + right. exists "Bot response". split; reflexivity.
    + split; [exact Hfst |]. split; [exact Hcalls |].
      subst out2. rewrite Htable. vm_compute. reflexivity.
Defined.

(** C2 fails as stated.  When the transport refuses the typing indicator,
    which is sent outside the [try], the error leaves [handleMessage] and
    no apology is sent; when the generator throws and the transport
    refuses the apology reply, which is sent inside the [catch], the
    error of the reply leaves [handleMessage]. *)
Lemma generation_branch_error_escapes :
  let refused := Error "403: Forbidden: bot was blocked by the user" in
  let out1 := handleMessage open_settings personality (llm_of "grok" None)
                (answering "Bot response") no_typing (msg "hello" 5) fresh in
  let out2 := handleMessage open_settings personality (llm_of "grok" None)
                failing no_reply (msg "hello" 5) fresh in
  (fst out1 = Throw refused
   /\ calls (snd out1) = [SendChatAction "12" "typing"])
  /\ fst out2 = Throw refused.
Proof. vm_compute. repeat split. Qed.

End RouterSamples.

(** ** The response generator and its adapters *)

Section Generator.

Import LlmService.

Variable llmConfig : Config.Llm.
Variable personalityConfig : Config.Personality.
Variable backend : list HttpRequest -> HttpRequest -> Result JS.value.

Local Abbreviation dispatch := (LlmService.dispatch llmConfig backend).
Local Abbreviation generateResponse :=
  (LlmService.generateResponse llmConfig personalityConfig backend).
Local Abbreviation callCustomApi := (LlmService.callCustomApi llmConfig backend).
Local Abbreviation callAnthropicApi := (LlmService.callAnthropicApi llmConfig backend).
Local Abbreviation system_prompt :=
  (JS.or_string (Config.systemPrompt llmConfig)
                (generateSystemPrompt personalityConfig)).

Lemma adapter_shape (req : HttpRequest) (build : JS.value -> Result LlmResponse)
    (tag : string) (st : State) :
  try_catch
    (data <- axios_post backend req ;; lift_result (build data))
    (fun error => logger (LogError (tag +:+ message error)) ;; throw error) st
  = adapter_outcome backend req build tag st.
Proof.
  unfold try_catch, bind, axios_post, lift_result, adapter_outcome, and_then.
  destruct (backend (requests st) req) as [data | e]; simpl.
  - destruct (build data); reflexivity.
  - reflexivity.
Qed.

(** The request of each chat-completions adapter carries the system
    prompt, the formatted history and the user message, with the defaults
    written with [||]. *)
Lemma dispatch_chat (sp um : string) (h : list string) (st : State) :
  chat_provider (Config.provider llmConfig) ->
  exists req m build tag,
    body req = ChatBody m (chat_messages sp um h)
                 (JS.or_int (Config.maxTokens llmConfig) 1000)
                 (JS.or_rat (Config.temperature llmConfig) 0.7%Q)
    /\ (Config.provider llmConfig = "anthropic" -> build = anthropic_response)
    /\ (Config.provider llmConfig <> "anthropic" -> build = chat_response)
    /\ dispatch sp um h st = adapter_outcome backend req build tag st.
Proof.
  intros [Hp | [Hp | Hp]]; unfold LlmService.dispatch; rewrite Hp; simpl.
  - eexists _, _, chat_response, _. split; [| split; [| split]].
    4: { unfold callGrokApi. apply adapter_shape. }
    + reflexivity.
    + discriminate.
    + reflexivity.
  - eexists _, _, chat_response, _. split; [| split; [| split]].
    4: { unfold callOpenAiApi. apply adapter_shape. }
    + reflexivity.
    + discriminate.
    + reflexivity.
  - eexists _, _, anthropic_response, _. split; [| split; [| split]].
    4: { unfold LlmService.callAnthropicApi. apply adapter_shape. }
    + reflexivity.
    + reflexivity.
    + congruence.
Qed.

Lemma callCustomApi_with_endpoint (e sp um : string) (h : list string) (st : State) :
  Config.endpoint llmConfig = Some e -> e <> EmptyString ->
  callCustomApi sp um h st
  = adapter_outcome backend
      {| url := e;
         body := CustomBody (Config.model llmConfig) sp um h
                   (JS.or_int (Config.maxTokens llmConfig) 1000)
                   (JS.or_rat (Config.temperature llmConfig) 0.7%Q);
         headers := bearer_headers llmConfig |}
      custom_response "Custom API error: " st.
Proof.
  intros He Hne. unfold LlmService.callCustomApi. rewrite He.
  destruct (String.eqb e EmptyString) eqn:E.
  - apply String.eqb_eq in E. contradiction.
  - apply adapter_shape.
Qed.

Lemma callCustomApi_without_endpoint (sp um : string) (h : list string) (st : State) :
  JS.or_string (Config.endpoint llmConfig) EmptyString = EmptyString ->
  callCustomApi sp um h st
  = (Throw (Error "Custom API endpoint is required but not provided"),
     logged st (LogError "Custom API error: Custom API endpoint is required but not provided")).
Proof.
  intros He. unfold LlmService.callCustomApi.
  destruct (Config.endpoint llmConfig) as [e |]; simpl in He.
  - destruct (String.eqb e EmptyString) eqn:E; [reflexivity |].
    subst e. discriminate E.
  - reflexivity.
Qed.

Lemma dispatch_custom (sp um : string) (h : list string) (st : State) :
  Config.provider llmConfig = "custom" ->
  dispatch sp um h st = callCustomApi sp um h st.
Proof. intros Hp. unfold LlmService.dispatch. now rewrite Hp. Qed.

Lemma dispatch_unsupported (sp um : string) (h : list string) (st : State) :
  ~ supported (Config.provider llmConfig) ->
  dispatch sp um h st
  = (Throw (Error ("Unsupported LLM provider: " +:+ Config.provider llmConfig)), st).
Proof.
  intros Hn. unfold LlmService.dispatch.
  assert (Hne : forall p, (p = "grok" \/ p = "openai" \/ p = "anthropic" \/ p = "custom")
                          -> String.eqb (Config.provider llmConfig) p = false).
  { intros p Hp. destruct (String.eqb (Config.provider llmConfig) p) eqn:E;
      [| reflexivity].
    apply String.eqb_eq in E. exfalso. apply Hn. unfold supported, chat_provider.
    rewrite E. tauto. }
  rewrite !Hne by tauto. reflexivity.
Qed.

(** [generateResponse] in terms of the outcome of its [switch]. *)
Lemma generateResponse_outcome (um : string) (h : list string) (st : State) :
  generateResponse um h st
  = match dispatch system_prompt um h st with
    | (Ok r, st1) =>
        (Ok (text r),
         if JS.truthy (usage r)
         then logged st1 (LogDebug ("Token usage: " +:+
                                    JS.interpolate (JS.stringify (usage r))))
         else st1)
    | (Throw e, st1) =>
        (Ok (JS.VStr fallback),
         logged st1 (LogError ("Error generating response: " +:+ message e)))
    end.
Proof.
  unfold LlmService.generateResponse, try_catch, bind.
  destruct (dispatch system_prompt um h st) as [[r | e] st1]; simpl.
  - destruct (JS.truthy (usage r)); reflexivity.
  - reflexivity.
Qed.

Lemma adapter_outcome_throws (req : HttpRequest)
    (build : JS.value -> Result LlmResponse) (tag : string) (st : State) :
  is_ok (and_then (backend (requests st) req) build) = false ->
  exists e st1, adapter_outcome backend req build tag st = (Throw e, st1).
Proof.
  unfold adapter_outcome.
  destruct (and_then (backend (requests st) req) build); [discriminate |].
  eauto.
Qed.

Lemma classic_provider (c : Config.Llm) :
  chat_provider (Config.provider c)
  \/ Config.provider c = "custom"
  \/ ~ supported (Config.provider c).
Proof.
  unfold supported, chat_provider.
  destruct (decide (Config.provider c = "grok")); [tauto |].
  destruct (decide (Config.provider c = "openai")); [tauto |].
  destruct (decide (Config.provider c = "anthropic")); [tauto |].
  destruct (decide (Config.provider c = "custom")); tauto.
Qed.

Lemma get_of_present (v : JS.value) (k : string) :
  JS.nullish v = false -> JS.get v k = Ok (JS.opt_get v k).
Proof. destruct v; simpl; intros H; try discriminate H; reflexivity. Qed.

Lemma get_of_nullish (v : JS.value) (k : string) :
  JS.nullish v = true -> is_ok (JS.get v k) = false.
Proof. destruct v; simpl; intros H; try discriminate H; reflexivity. Qed.

Lemma at_index_of_present (v : JS.value) (i : nat) :
  JS.nullish v = false -> JS.at_index v i = Ok (element v i).
Proof. destruct v; simpl; intros H; try discriminate H; reflexivity. Qed.

Lemma at_index_of_nullish (v : JS.value) (i : nat) :
  JS.nullish v = true -> is_ok (JS.at_index v i) = false.
Proof. destruct v; simpl; intros H; try discriminate H; reflexivity. Qed.

Lemma and_then_of_throw {A B} (r : Result A) (f : A -> Result B) :
  is_ok r = false -> is_ok (and_then r f) = false.
Proof. destruct r; simpl; intros H; [discriminate H | reflexivity]. Qed.

(** Following the path through a missing container throws. *)
Lemma path_broken_unreadable (c : Config.Llm) (d : JS.value) :
  path_broken c d -> unreadable c d.
Proof.
  intros [[Hp Hb] | [[Hp Hb] | [Hp Hb]]]; [left | right; left | right; right];
    (split; [exact Hp |]).
  - unfold choices_content.
    destruct (JS.nullish d) eqn:E0;
      [now apply and_then_of_throw, get_of_nullish |].
    rewrite (get_of_present _ _ E0). simpl.
    destruct (JS.nullish (JS.opt_get d "choices")) eqn:E1;
      [now apply and_then_of_throw, at_index_of_nullish |].
    rewrite (at_index_of_present _ _ E1). simpl.
    destruct (JS.nullish (element (JS.opt_get d "choices") 0)) eqn:E2;
      [now apply and_then_of_throw, get_of_nullish |].
    rewrite (get_of_present _ _ E2). simpl.
    simpl in Hb. now apply get_of_nullish.
  - unfold content_text.
    destruct (JS.nullish d) eqn:E0;
      [now apply and_then_of_throw, get_of_nullish |].
    rewrite (get_of_present _ _ E0). simpl.
    destruct (JS.nullish (JS.opt_get d "content")) eqn:E1;
      [now apply and_then_of_throw, at_index_of_nullish |].
    rewrite (at_index_of_present _ _ E1). simpl.
    simpl in Hb. now apply get_of_nullish.
  - unfold first_present. now apply and_then_of_throw, get_of_nullish.
Qed.

(** C1, as the code has it.  [generateResponse] always returns a value, for
    every configuration, backend, message and history.  Whenever its
    dispatch throws, the value is the fallback string (and the error is
    logged): so it is for a provider name that is not supported, for a
    backend that rejects the request, and for a response in which the text
    path of the provider cannot be followed, the response or a container on
    the path being [undefined] or [null]. *)
Theorem generateResponse_never_throws (um : string) (h : list string) (st : State) :
  let out := generateResponse um h st in
  let fallback_text :=
    JS.VStr "I'm sorry, I'm having trouble processing your request right now. Please try again later." in
  (exists v, fst out = Ok v)
  /\ (forall e st1,
        dispatch system_prompt um h st = (Throw e, st1) ->
        out = (Ok fallback_text,
               logged st1 (LogError ("Error generating response: " +:+ message e))))
  /\ (~ supported (Config.provider llmConfig) -> fst out = Ok fallback_text)
  /\ ((forall req, is_ok (backend (requests st) req) = false) ->
      fst out = Ok fallback_text)
  /\ (forall d, (forall req, backend (requests st) req = Ok d) ->
                unreadable llmConfig d -> fst out = Ok fallback_text)
  /\ (forall d, (forall req, backend (requests st) req = Ok d) ->
                path_broken llmConfig d -> fst out = Ok fallback_text).
Proof.
  intros out fallback_text.
  assert (Hthrow : forall e st1,
             dispatch system_prompt um h st = (Throw e, st1) ->
             out = (Ok fallback_text,
                    logged st1 (LogError ("Error generating response: " +:+ message e)))).
  { intros e st1 Hd. subst out. rewrite generateResponse_outcome, Hd. reflexivity. }
  assert (Hfst : (exists e st1, dispatch system_prompt um h st = (Throw e, st1)) ->
                 fst out = Ok fallback_text).
  { intros (e & st1 & Hd). now rewrite (Hthrow e st1 Hd). }
  assert (Hunreadable : forall d, (forall req, backend (requests st) req = Ok d) ->
                          unreadable llmConfig d -> fst out = Ok fallback_text).
  { intros d Hd Hbad. apply Hfst.
    destruct Hbad as [[Hp Hbad] | [[Hp Hbad] | [Hp Hbad]]].
    + assert (Hchat : chat_provider (Config.provider llmConfig))
        by (unfold chat_provider; tauto).
      destruct (dispatch_chat system_prompt um h st Hchat)
        as (req & m & build & tag & _ & _ & Hb & ->).
      rewrite Hb by (destruct Hp as [-> | ->]; discriminate).
      apply adapter_outcome_throws. rewrite Hd. simpl.
      unfold chat_response. now destruct (choices_content d).
    + assert (Hchat : chat_provider (Config.provider llmConfig))
        by (unfold chat_provider; tauto).
      destruct (dispatch_chat system_prompt um h st Hchat)
        as (req & m & build & tag & _ & Hb & _ & ->).
      rewrite (Hb Hp).
      apply adapter_outcome_throws. rewrite Hd. simpl.
      unfold anthropic_response. now destruct (content_text d).
    + rewrite dispatch_custom by exact Hp.
      destruct (Config.endpoint llmConfig) as [e |] eqn:He.
      * destruct (String.eqb e EmptyString) eqn:E.
        -- apply String.eqb_eq in E. subst e.
           rewrite callCustomApi_without_endpoint by now rewrite He. eauto.
        -- rewrite (callCustomApi_with_endpoint e) by
             (try exact He; intros ->; discriminate E).
           apply adapter_outcome_throws. rewrite Hd. simpl.
           unfold custom_response. now destruct (first_present d).
      * rewrite callCustomApi_without_endpoint by now rewrite He. eauto. }
  split; [| split; [exact Hthrow | split; [| split; [| split]]]].
  - subst out. rewrite generateResponse_outcome.
    destruct (dispatch system_prompt um h st) as [[r | e] st1]; simpl; eauto.
  - intros Hn. apply Hfst. rewrite dispatch_unsupported by exact Hn. eauto.
  - intros Hrej. apply Hfst.
    destruct (classic_provider llmConfig) as [Hchat | [Hcustom | Hother]].
    + destruct (dispatch_chat system_prompt um h st Hchat)
        as (req & m & build & tag & _ & _ & _ & ->).
      apply adapter_outcome_throws.
      specialize (Hrej req). now destruct (backend (requests st) req).
    + rewrite dispatch_custom by exact Hcustom.
      destruct (Config.endpoint llmConfig) as [e |] eqn:He.
      * destruct (String.eqb e EmptyString) eqn:E.
        -- apply String.eqb_eq in E. subst e.
           rewrite callCustomApi_without_endpoint by now rewrite He. eauto.
        -- rewrite (callCustomApi_with_endpoint e) by
             (try exact He; intros ->; discriminate E).
           apply adapter_outcome_throws.
           match goal with |- is_ok (and_then (backend _ ?r) _) = _ =>
             specialize (Hrej r); now destruct (backend (requests st) r) end.
      * rewrite callCustomApi_without_endpoint by now rewrite He. eauto.
    + rewrite dispatch_unsupported by exact Hother. eauto.
  - exact Hunreadable.
  - intros d Hd Hbroken. apply (Hunreadable d Hd).
    apply path_broken_unreadable, Hbroken.
Qed.

Lemma adapter_outcome_requests (req : HttpRequest)
    (build : JS.value -> Result LlmResponse) (tag : string) (st : State) :
  requests (snd (adapter_outcome backend req build tag st)) = requests st ++ [req].
Proof.
  unfold adapter_outcome.
  destruct (and_then (backend (requests st) req) build); reflexivity.
Qed.

(** C9.  With no endpoint configured the custom adapter throws
    "Custom API endpoint is required but not provided" and the list of
    requests is what it was: no request is issued, whatever the prompt, the
    message and the history.  Under provider "custom" the generator then
    returns its fallback, again without a request. *)
Theorem custom_without_endpoint_makes_no_request
    (sp um : string) (h : list string) (st : State) :
  Config.endpoint llmConfig = None ->
  let out := callCustomApi sp um h st in
  fst out = Throw (Error "Custom API endpoint is required but not provided")
  /\ requests (snd out) = requests st
  /\ (Config.provider llmConfig = "custom" ->
      fst (generateResponse um h st) = Ok (JS.VStr fallback)
      /\ requests (snd (generateResponse um h st)) = requests st).
Proof.
  intros He out.
  assert (Hout : out = (Throw (Error "Custom API endpoint is required but not provided"),
                        logged st (LogError "Custom API error: Custom API endpoint is required but not provided"))).
  { subst out. apply callCustomApi_without_endpoint. now rewrite He. }
  rewrite Hout. simpl. repeat split.
  - rewrite generateResponse_outcome, dispatch_custom by assumption.
    rewrite callCustomApi_without_endpoint by now rewrite He. reflexivity.
  - rewrite generateResponse_outcome, dispatch_custom by assumption.
    rewrite callCustomApi_without_endpoint by now rewrite He. reflexivity.
Qed.

(** The request of every adapter carries [maxTokens || 1000] and
    [temperature || 0.7]. *)
Lemma request_limits (sp um : string) (h : list string) (st : State) :
  chat_provider (Config.provider llmConfig) \/ custom_provider llmConfig ->
  exists req,
    requests (snd (dispatch sp um h st)) = requests st ++ [req]
    /\ payload_max_tokens (body req) = JS.or_int (Config.maxTokens llmConfig) 1000
    /\ payload_temperature (body req)
       = JS.or_rat (Config.temperature llmConfig) 0.7%Q.
Proof.
  intros [Hchat | (Hp & e & He & Hne)].
  - destruct (dispatch_chat sp um h st Hchat)
      as (req & m & build & tag & Hbody & _ & _ & ->).
    exists req. rewrite adapter_outcome_requests, Hbody. auto.
  - rewrite dispatch_custom, (callCustomApi_with_endpoint e) by assumption.
    eexists. rewrite adapter_outcome_requests. simpl. auto.
Qed.

(** Absent settings give the defaults, and settings other than zero are
    sent as configured. *)
Lemma request_limits_configured (sp um : string) (h : list string) (st : State) :
  chat_provider (Config.provider llmConfig) \/ custom_provider llmConfig ->
  exists req,
    requests (snd (dispatch sp um h st)) = requests st ++ [req]
    /\ (Config.maxTokens llmConfig = None -> payload_max_tokens (body req) = 1000)
    /\ (Config.temperature llmConfig = None ->
        payload_temperature (body req) = 0.7%Q)
    /\ (forall n, Config.maxTokens llmConfig = Some n -> n <> 0 ->
                  payload_max_tokens (body req) = n)
    /\ (forall t, Config.temperature llmConfig = Some t -> ~ (t == 0)%Q ->
                  payload_temperature (body req) = t).
Proof.
  intros Hp. destruct (request_limits sp um h st Hp) as (req & Hreq & Hn & Ht).
  exists req. split; [exact Hreq |]. rewrite Hn, Ht.
  repeat split.
  - now intros ->.
  - now intros ->.
  - intros n -> Hne. simpl. destruct (n =? 0) eqn:E; [lia | reflexivity].
  - intros t -> Hne. simpl. destruct (Qnum t =? 0) eqn:E; [| reflexivity].
    exfalso. apply Hne. unfold Qeq. simpl. lia.
Qed.

Lemma formatFrom_lookup (h : list string) : forall (i k : nat),
  formatFrom i h !! k
  = (fun c => {| role := if ((i + k) mod 2 =? 0)%nat then "user" else "assistant";
                 content := c |}) <$> h !! k.
Proof.
  induction h as [| c h IH]; intros i k; [reflexivity |].
  destruct k as [| k]; simpl.
  - now rewrite Nat.add_0_r.
  - rewrite IH. now replace (S i + k)%nat with (i + S k)%nat by lia.
Qed.

Lemma formatFrom_content (h : list string) : forall i : nat,
  map content (formatFrom i h) = h.
Proof. induction h as [| c h IH]; intros i; simpl; [| rewrite IH]; reflexivity. Qed.

Lemma formatFrom_app (a b : list string) : forall i : nat,
  formatFrom i (a ++ b) = formatFrom i a ++ formatFrom (i + length a) b.
Proof.
  induction a as [| c a IH]; intros i; simpl.
  - now rewrite Nat.add_0_r.
  - rewrite IH. now replace (S i + length a)%nat with (i + S (length a))%nat by lia.
Qed.

(** C6, as the code has it.  [formatChatHistory] gives the entry at index
    [k] the role "user" when [k] is even and "assistant" when it is odd,
    and keeps the contents in their order.  The grok, openai and anthropic
    adapters send the system prompt, then the formatted history, then the
    new user message as a last entry of role "user"; the custom adapter
    sends the history as it is, with the user message in a member of its
    own and no [messages] array. *)
Theorem history_roles_by_parity (h : list string) :
  (forall k : nat,
     formatChatHistory h !! k
     = (fun c => {| role := if (k mod 2 =? 0)%nat then "user" else "assistant";
                    content := c |}) <$> h !! k)
  /\ map content (formatChatHistory h) = h
  /\ formatChatHistory ["a"; "b"; "c"]
     = [{| role := "user"; content := "a" |};
        {| role := "assistant"; content := "b" |};
        {| role := "user"; content := "c" |}]
  /\ (forall (sp um : string) (st : State),
        chat_provider (Config.provider llmConfig) ->
        exists req,
          requests (snd (dispatch sp um h st)) = requests st ++ [req]
          /\ payload_messages (body req)
             = Some ([{| role := "system"; content := sp |}]
                       ++ formatChatHistory h
                       ++ [{| role := "user"; content := um |}]))
  /\ (forall (sp um : string) (st : State),
        custom_provider llmConfig ->
        exists req,
          requests (snd (dispatch sp um h st)) = requests st ++ [req]
          /\ body req
             = CustomBody (Config.model llmConfig) sp um h
                 (JS.or_int (Config.maxTokens llmConfig) 1000)
                 (JS.or_rat (Config.temperature llmConfig) 0.7%Q)
          /\ payload_messages (body req) = None).
Proof.
  split; [| split; [| split; [| split]]].
  - intros k. unfold formatChatHistory. now rewrite formatFrom_lookup.
  - apply formatFrom_content.
  - reflexivity.
  - intros sp um st Hchat.
    destruct (dispatch_chat sp um h st Hchat)
      as (req & m & build & tag & Hbody & _ & _ & ->).
    exists req. rewrite adapter_outcome_requests, Hbody. auto.
  - intros sp um st (Hp & e & He & Hne).
    rewrite dispatch_custom, (callCustomApi_with_endpoint e) by assumption.
    eexists. rewrite adapter_outcome_requests. simpl. auto.
Qed.

Lemma to_double_safe (z : Z) : JS.safe_integer z -> JS.to_double z = z.
Proof.
  unfold JS.safe_integer, JS.MAX_SAFE_INTEGER, JS.to_double. intros Hz.
  destruct (Z.leb_spec (Z.abs z) (2 ^ 53)) as [_ | Hgt]; [reflexivity | lia].
Qed.

Lemma add_counts (a b : option Z) :
  JS.safe_integer (default 0 a + default 0 b) ->
  JS.add (JS.or (count a) (JS.VNum 0)) (JS.or (count b) (JS.VNum 0))
  = JS.VNum (default 0 a + default 0 b).
Proof.
  intros Hsafe.
  transitivity (JS.VNum (JS.to_double (default 0 a + default 0 b)));
    [clear Hsafe | now rewrite to_double_safe].
  destruct a as [x |], b as [y |]; unfold JS.or; simpl;
    repeat match goal with
           | |- context [?n =? 0] => destruct (Z.eqb_spec n 0); subst; simpl
           end; reflexivity.
Qed.

(** C8.  When the backend answers with [data] and the text [t] can be read
    at [data.content[0].text], the Anthropic adapter returns [t] with the
    usage object whose promptTokens is [data.usage?.input_tokens], whose
    completionTokens is [data.usage?.output_tokens] and whose totalTokens
    is [(input_tokens || 0) + (output_tokens || 0)]; for token counts that
    are safe integers or missing, and whose sum is a safe integer, that
    total is their sum with 0 for a missing one. *)
Theorem anthropic_usage_mapping
    (sp um : string) (h : list string) (st : State) (data t : JS.value) :
  (forall req, backend (requests st) req = Ok data) ->
  content_text data = Ok t ->
  exists u input_tokens output_tokens total,
    JS.get data "usage" = Ok u
    /\ input_tokens = JS.opt_get u "input_tokens"
    /\ output_tokens = JS.opt_get u "output_tokens"
    /\ total = JS.add (JS.or input_tokens (JS.VNum 0))
                      (JS.or output_tokens (JS.VNum 0))
    /\ fst (callAnthropicApi sp um h st)
       = Ok {| text := t;
               usage := JS.VObj [("promptTokens", input_tokens);
                                 ("completionTokens", output_tokens);
                                 ("totalTokens", total)] |}
    /\ (forall a b : option Z,
          input_tokens = count a -> output_tokens = count b ->
          JS.safe_integer (default 0 a) -> JS.safe_integer (default 0 b) ->
          JS.safe_integer (default 0 a + default 0 b) ->
          total = JS.VNum (default 0 a + default 0 b)).
Proof.
  intros Hdata Htext.
  assert (Hu : exists u, JS.get data "usage" = Ok u).
  { unfold content_text, and_then in Htext.
    destruct data; simpl in *; try discriminate; eauto. }
  destruct Hu as [u Hu].
  exists u, (JS.opt_get u "input_tokens"), (JS.opt_get u "output_tokens").
  eexists. repeat split; try reflexivity.
  - exact Hu.
  - unfold LlmService.callAnthropicApi. rewrite adapter_shape.
    unfold adapter_outcome. rewrite Hdata. simpl.
    unfold anthropic_response, anthropic_usage. rewrite Htext, Hu. reflexivity.
  - intros a b -> -> _ _ Hsafe. apply add_counts, Hsafe.
Qed.

End Generator.

(** ** From the router to the payload *)

Section RouterToPayload.

Import BotService.

Variable settings : Config.Settings.
Variable personalityConfig : Config.Personality.
Variable llmConfig : Config.Llm.
Variable llmService : string -> list string -> M LlmService.State string.
Variable transport : list Call -> Call -> option exn.
Variable backend :
  list LlmService.HttpRequest -> LlmService.HttpRequest -> Result JS.value.

Local Abbreviation handleMessage :=
  (BotService.handleMessage settings personalityConfig llmConfig llmService transport).
Local Abbreviation dispatch := (LlmService.dispatch llmConfig backend).

(** In the generation branch the calls of the router start with the typing
    indicator and the call of the generator on the history read after the
    append. *)
Lemma generation_branch_calls (ctx : Context) (text : string) (st : State) :
  message_text ctx = Some text ->
  unauthorized settings (toString (from_id ctx)) = false ->
  blacklisted settings (toString (from_id ctx)) = false ->
  is_command settings text = false ->
  let chatId := toString (chat_id ctx) in
  let history :=
    getChatHistory chatId (addToChatHistory chatId text (chatHistory st)) in
  transport (calls st) (SendChatAction chatId "typing") = None ->
  exists rest,
    calls (snd (handleMessage ctx st))
    = calls st ++ [SendChatAction chatId "typing"; Generate text history] ++ rest.
Proof.
  intros Htext Hallow Hblock Hcmd chatId history Htyping.
  unfold BotService.handleMessage. rewrite Htext, Hallow, Hblock, Hcmd.
  fold chatId.
  unfold bind, try_catch, modify, telegram, with_history,
    BotService.generateResponse, bind, gets, record, modify, lift_llm,
    BotService.logger, reply, telegram, modify, bind.
  simpl. rewrite Htyping. simpl. fold history.
  destruct (llmService text history (llm st)) as [[response | e] l']; simpl.
  - destruct (delay settings) as [d |]; simpl.
    + destruct (transport _ (Reply response)); simpl;
        rewrite <- !app_assoc; simpl; eauto.
    + destruct (transport _ (Reply response)); simpl;
        rewrite <- !app_assoc; simpl; eauto.
  - rewrite <- !app_assoc. simpl. eauto.
Qed.

(** C7, as the code has it.  For a text message that reaches the call of
    the generator, the generator is called with the history read after the
    user's text was appended, whose last entry is that text.  With that
    history the grok, openai and anthropic adapters send the text twice at
    the end of [messages]: as the last entry formatted from the history
    (its role decided by its index) and as the final entry of role "user";
    the custom adapter sends it as [user_message] beside a [chat_history]
    that ends with it. *)
Theorem user_message_sent_twice (ctx : Context) (text : string) (st : State) :
  message_text ctx = Some text ->
  ~ denied_by_allow_list settings (toString (from_id ctx)) ->
  ~ on_block_list settings (toString (from_id ctx)) ->
  is_command settings text = false ->
  let chatId := toString (chat_id ctx) in
  let history :=
    getChatHistory chatId (addToChatHistory chatId text (chatHistory st)) in
  let earlier := lastn 19 (getChatHistory chatId (chatHistory st)) in
  transport (calls st) (SendChatAction chatId "typing") = None ->
  history = earlier ++ [text]
  /\ (exists rest,
        calls (snd (handleMessage ctx st))
        = calls st ++ [SendChatAction chatId "typing"; Generate text history] ++ rest)
  /\ (forall (sp : string) (ls : LlmService.State),
        LlmService.chat_provider (Config.provider llmConfig) ->
        exists req,
          LlmService.requests (snd (dispatch sp text history ls))
          = LlmService.requests ls ++ [req]
          /\ LlmService.payload_messages (LlmService.body req)
             = Some ([{| LlmService.role := "system"; LlmService.content := sp |}]
                       ++ LlmService.formatChatHistory earlier
                       ++ [{| LlmService.role :=
                                if (length earlier mod 2 =? 0)%nat
                                then "user" else "assistant";
                              LlmService.content := text |};
                           {| LlmService.role := "user";
                              LlmService.content := text |}]))
  /\ (forall (sp : string) (ls : LlmService.State),
        LlmService.custom_provider llmConfig ->
        exists req,
          LlmService.requests (snd (dispatch sp text history ls))
          = LlmService.requests ls ++ [req]
          /\ LlmService.body req
             = LlmService.CustomBody (Config.model llmConfig) sp text
                 (earlier ++ [text])
                 (JS.or_int (Config.maxTokens llmConfig) 1000)
                 (JS.or_rat (Config.temperature llmConfig) 0.7%Q)).
Proof.
  intros Htext Hallow Hblock Hcmd chatId history earlier Htyping.
  assert (Hhist : history = earlier ++ [text])
    by apply getChatHistory_add_snoc.
  split; [exact Hhist |]. split; [| split].
  - apply generation_branch_calls; auto using admitted_unauthorized, admitted_blacklisted.
  - intros sp ls Hchat.
    destruct (dispatch_chat llmConfig backend sp text history ls Hchat)
      as (req & m & build & tag & Hbody & _ & _ & ->).
    exists req. rewrite adapter_outcome_requests, Hbody. split; [reflexivity |].
    simpl. unfold LlmService.chat_messages, LlmService.formatChatHistory.
    rewrite Hhist, formatFrom_app. simpl. rewrite <- app_assoc. reflexivity.
  - intros sp ls (Hp & e & He & Hne).
    rewrite dispatch_custom, (callCustomApi_with_endpoint _ _ e) by assumption.
    eexists. rewrite adapter_outcome_requests. split; [reflexivity |].
    simpl. now rewrite Hhist.
Qed.

End RouterToPayload.

(** ** The generator and the adapters on concrete inputs *)

Section GeneratorSamples.

Import LlmService Samples.

(** An unsupported provider name, a rejecting backend and a response
    without [choices] all end in the fallback string. *)
Lemma generateResponse_never_throws_witness :
  let fallback_text :=
    JS.VStr "I'm sorry, I'm having trouble processing your request right now. Please try again later." in
  fst (generateResponse (llm_of "unsupported" None) personality rejecting
         "Hello" ["Previous message"] idle) = Ok fallback_text
  /\ fst (generateResponse (llm_of "openai" None) personality rejecting
            "Hello" ["Previous message"] idle) = Ok fallback_text
  /\ fst (generateResponse (llm_of "grok" None) personality (answer (JS.VObj []))
            "Hello" ["Previous message"] idle) = Ok fallback_text.
Proof.
  intros fallback_text. split; [| split].
  - destruct (generateResponse_never_throws (llm_of "unsupported" None)
                personality rejecting "Hello" ["Previous message"] idle)
      as (_ & _ & H & _).
    apply H. unfold supported, chat_provider. simpl.
    intros [[H1 | [H1 | H1]] | H1]; discriminate H1.
  - destruct (generateResponse_never_throws (llm_of "openai" None)
                personality rejecting "Hello" ["Previous message"] idle)
      as (_ & _ & _ & H & _).
    apply H. intros req. reflexivity.
  - destruct (generateResponse_never_throws (llm_of "grok" None)
                personality (answer (JS.VObj [])) "Hello" ["Previous message"] idle)
      as (_ & _ & _ & _ & _ & H).
    apply (H (JS.VObj [])).
    + intros req. reflexivity.
    + left. split; [left; reflexivity | reflexivity].
Defined.

(** C1 on responses that lack the text itself: the message of a chat
    completion without [content], or with [content: null]; a content block
    of Anthropic without [text]; an answer of the custom endpoint with none
    of its three members.  The generator returns [undefined] or [null], not
    its fallback. *)
Lemma missing_text_is_not_replaced_by_fallback :
  let fallback_text :=
    JS.VStr "I'm sorry, I'm having trouble processing your request right now. Please try again later." in
  let reply provider data :=
    fst (generateResponse (llm_of provider (Some custom_url)) personality
           (answer data) "Hello" ["Previous message"] idle) in
  let chat message := JS.VObj [("choices", JS.VArr [JS.VObj [("message", message)]])] in
  reply "grok" (chat (JS.VObj [])) = Ok JS.VUndefined
  /\ reply "openai" (chat (JS.VObj [("content", JS.VNull)])) = Ok JS.VNull
  /\ reply "anthropic" (JS.VObj [("content", JS.VArr [JS.VObj []])]) = Ok JS.VUndefined
  /\ reply "custom" (JS.VObj []) = Ok JS.VUndefined
  /\ Ok JS.VUndefined <> Ok fallback_text
  /\ Ok JS.VNull <> Ok fallback_text.
Proof. vm_compute. repeat split; discriminate. Qed.

Lemma custom_without_endpoint_makes_no_request_witness :
  let out := callCustomApi (llm_of "custom" None) (answer (JS.VObj []))
               "You are a helpful assistant" "Hello, how are you?"
               ["Previous message"] idle in
  fst out = Throw (Error "Custom API endpoint is required but not provided")
  /\ requests (snd out) = [].
Proof.
  destruct (custom_without_endpoint_makes_no_request (llm_of "custom" None)
              personality (answer (JS.VObj [])) "You are a helpful assistant"
              "Hello, how are you?" ["Previous message"] idle eq_refl)
    as (Hfst & Hreq & _).
  split; [exact Hfst | exact Hreq].
Defined.

Lemma history_roles_by_parity_witness :
  exists req,
    requests (snd (dispatch (llm_of "grok" None) (answer (JS.VObj []))
                     "sys" "d" ["a"; "b"; "c"] idle)) = [req]
    /\ payload_messages (body req)
       = Some [{| role := "system"; content := "sys" |};
               {| role := "user"; content := "a" |};
               {| role := "assistant"; content := "b" |};
               {| role := "user"; content := "c" |};
               {| role := "user"; content := "d" |}].
Proof.
  destruct (history_roles_by_parity (llm_of "grok" None) (answer (JS.VObj []))
              ["a"; "b"; "c"]) as (_ & _ & _ & H & _).
  destruct (H "sys" "d" idle) as (req & Hreq & Hmsg).
  - left. reflexivity.
  - exists req. split; [exact Hreq | exact Hmsg].
Defined.

(** C6 fails as stated for the custom adapter: its body has no [messages]
    member; the history goes out as the bare array and the user message as
    [user_message], with no role on either. *)
Lemma custom_adapter_sends_flat_history :
  let out := dispatch (llm_of "custom" (Some custom_url)) (answer (JS.VObj []))
               "sys" "d" ["a"; "b"; "c"] idle in
  map body (requests (snd out))
  = [CustomBody None "sys" "d" ["a"; "b"; "c"] 1000 0.7%Q]
  /\ map (fun req => payload_messages (body req)) (requests (snd out)) = [None].
Proof. vm_compute. split; reflexivity. Qed.

Lemma anthropic_usage_mapping_witness :
  let with_usage :=
    anthropic_data [("usage", JS.VObj [("input_tokens", JS.VNum 10);
                                       ("output_tokens", JS.VNum 20)])] in
  let call data :=
    fst (callAnthropicApi (llm_of "anthropic" None) (answer data)
           "You are a helpful assistant" "Hello, how are you?"
           ["Previous message"] idle) in
  call with_usage
  = Ok {| text := JS.VStr "This is a response from Anthropic";
          usage := JS.VObj [("promptTokens", JS.VNum 10);
                            ("completionTokens", JS.VNum 20);
                            ("totalTokens", JS.VNum 30)] |}
  /\ call (anthropic_data [])
     = Ok {| text := JS.VStr "This is a response from Anthropic";
             usage := JS.VObj [("promptTokens", JS.VUndefined);
                               ("completionTokens", JS.VUndefined);
                               ("totalTokens", JS.VNum 0)] |}.
Proof.
  intros with_usage call. split.
  - destruct (anthropic_usage_mapping (llm_of "anthropic" None) (answer with_usage)
                "You are a helpful assistant" "Hello, how are you?"
                ["Previous message"] idle with_usage
                (JS.VStr "This is a response from Anthropic"))
      as (u & i & o & total & Hu & Hi & Ho & _ & Hcall & Htotal).
    + intros req. reflexivity.
    + reflexivity.
    + injection Hu as <-. simpl in Hi, Ho. subst i o.
      assert (Hsum : total = JS.VNum 30).
      { apply (Htotal (Some 10) (Some 20)); try reflexivity;
          vm_compute; discriminate. }
      rewrite Hsum in Hcall. exact Hcall.
  - destruct (anthropic_usage_mapping (llm_of "anthropic" None)
                (answer (anthropic_data []))
                "You are a helpful assistant" "Hello, how are you?"
                ["Previous message"] idle (anthropic_data [])
                (JS.VStr "This is a response from Anthropic"))
      as (u & i & o & total & Hu & Hi & Ho & _ & Hcall & Htotal).
    + intros req. reflexivity.
    + reflexivity.
    + injection Hu as <-. simpl in Hi, Ho. subst i o.
      assert (Hsum : total = JS.VNum 0).
      { apply (Htotal None None); try reflexivity; vm_compute; discriminate. }
      rewrite Hsum in Hcall. exact Hcall.
Defined.

(** C10 on a configuration with [temperature: 0] and [maxTokens: 0]: every
    adapter sends 0.7 and 1000. *)
Lemma zero_limits_are_replaced_by_defaults :
  let sent provider :=
    map (fun req => (payload_max_tokens (body req), payload_temperature (body req)))
        (requests (snd (dispatch (zero_limits provider) (answer (JS.VObj []))
                          "sys" "Hello" [] idle))) in
  sent "grok" = [(1000, 0.7%Q)]
  /\ sent "openai" = [(1000, 0.7%Q)]
  /\ sent "anthropic" = [(1000, 0.7%Q)]
  /\ sent "custom" = [(1000, 0.7%Q)].
Proof. vm_compute. repeat split. Qed.

End GeneratorSamples.

(** ** The router and the adapters together on concrete inputs *)

Section PayloadSamples.

Import BotService Samples.

Lemma user_message_sent_twice_witness :
  let st := with_history (addToChatHistory "12" "earlier") fresh in
  exists req,
    LlmService.requests
      (snd (LlmService.dispatch (llm_of "openai" None) (answer (JS.VObj []))
              "sys" "hello"
              (getChatHistory "12" (addToChatHistory "12" "hello" (chatHistory st)))
              idle)) = [req]
    /\ LlmService.payload_messages (LlmService.body req)
       = Some [{| LlmService.role := "system"; LlmService.content := "sys" |};
               {| LlmService.role := "user"; LlmService.content := "earlier" |};
               {| LlmService.role := "assistant"; LlmService.content := "hello" |};
               {| LlmService.role := "user"; LlmService.content := "hello" |}].
Proof.
  intros st.
  destruct (user_message_sent_twice open_settings personality (llm_of "openai" None)
              (answering "Bot response") delivering (answer (JS.VObj []))
              (msg "hello" 5) "hello" st eq_refl) as (_ & _ & H & _).
  - intros (l & Hl & Hne & _). inversion Hl. subst l. now apply Hne.
  - intros (l & Hl & Hin). inversion Hl. subst l. inversion Hin.
  - reflexivity.
  - reflexivity.
  - destruct (H "sys" idle) as (req & Hreq & Hmsg).
    + right. left. reflexivity.
    + exists req. split; [exact Hreq | exact Hmsg].
Defined.

(** C7 fails as stated for the custom adapter: the router hands the
    generator the text and a history that ends with it, and the body the
    custom adapter sends for them has no [messages] member, so no final
    entry of role "user"; the text goes out as [user_message] and at the end
    of [chat_history]. *)
Lemma custom_payload_has_no_user_entry :
  let out := handleMessage open_settings personality (llm_of "custom" (Some custom_url))
               (answering "Bot response") delivering (msg "hello" 5) fresh in
  let posted := LlmService.dispatch (llm_of "custom" (Some custom_url))
                  (answer (JS.VObj [])) "sys" "hello" ["hello"] idle in
  calls (snd out)
  = [SendChatAction "12" "typing"; Generate "hello" ["hello"]; Reply "Bot response"]
  /\ map LlmService.body (LlmService.requests (snd posted))
     = [LlmService.CustomBody None "sys" "hello" ["hello"] 1000 0.7%Q]
  /\ map (fun req => LlmService.payload_messages (LlmService.body req))
         (LlmService.requests (snd posted)) = [None].
Proof. vm_compute. repeat split. Qed.

End PayloadSamples.

(** * Further properties *)

(** ** The conversation store, beyond the bound *)

Section StoreExtras.

Import BotService.

Implicit Types (h : gmap string (list string)) (c chatId : string).

(** What the table holds under each key after an append. *)
Lemma lookup_addToChatHistory chatId m h (k : string) :
  addToChatHistory chatId m h !! k
  = if decide (k = chatId)
    then Some (lastn 20 (getChatHistory chatId h ++ [m]))
    else h !! k.
Proof.
  destruct (decide (k = chatId)) as [-> | Hne].
  - pose proof (getChatHistory_add_same chatId m h) as Hget.
    unfold getChatHistory at 1 in Hget.
    destruct (addToChatHistory chatId m h !! chatId) as [l |] eqn:E.
    + simpl in Hget. now rewrite Hget.
    + exfalso. unfold addToChatHistory in E.
      set (h1 := match h !! chatId with
                 | None => <[chatId := []]> h
                 | Some _ => h
                 end) in E.
      assert (H1 : is_Some (h1 !! chatId)).
      { subst h1. destruct (h !! chatId) eqn:E'; [now rewrite E' |].
        rewrite lookup_insert_eq. eauto. }
      destruct H1 as [l1 H1].
      rewrite lookup_alter_eq, H1 in E. simpl in E.
      destruct (Z.of_nat (length (l1 ++ [m])) >? maxHistoryLength * 2).
      * rewrite lookup_insert_eq in E. discriminate.
      * rewrite lookup_alter_eq, H1 in E. discriminate.
  - unfold addToChatHistory.
    set (h1 := match h !! chatId with
               | None => <[chatId := []]> h
               | Some _ => h
               end).
    assert (H1 : h1 !! k = h !! k).
    { subst h1. destruct (h !! chatId); [reflexivity |].
      apply lookup_insert_ne. congruence. }
    set (h2 := alter (fun l => (l ++ [m])%list) chatId h1).
    assert (H2 : h2 !! k = h !! k).
    { subst h2. rewrite lookup_alter_ne by congruence. exact H1. }
    destruct (h2 !! chatId) as [l |]; [| exact H2].
    destruct (Z.of_nat (length l) >? maxHistoryLength * 2); [| exact H2].
    rewrite lookup_insert_ne by congruence. exact H2.
Qed.

(** X1.  While a chat holds fewer than 20 entries an append only adds:
    [get] afterwards is the earlier sequence followed by the new text.  A
    chat that was never seen counts as empty. *)
Theorem append_below_bound_only_adds chatId m h :
  (length (getChatHistory chatId h) < 20)%nat ->
  getChatHistory chatId (addToChatHistory chatId m h)
  = getChatHistory chatId h ++ [m].
Proof.
  intros Hlt. rewrite getChatHistory_add_same.
  apply lastn_short. rewrite length_app. simpl. lia.
Qed.

Lemma append_below_bound_only_adds_witness :
  getChatHistory "12" (addToChatHistory "12" "Hello" ∅) = ["Hello"].
Proof.
  rewrite (append_below_bound_only_adds "12" "Hello" ∅).
  - vm_compute. reflexivity.
  - vm_compute. lia.
Defined.

(** X2.  Once a chat holds 20 entries the store is a sliding window: an
    append drops exactly the oldest entry and puts the new text last. *)
Theorem full_history_slides chatId m h :
  length (getChatHistory chatId h) = 20%nat ->
  getChatHistory chatId (addToChatHistory chatId m h)
  = drop 1 (getChatHistory chatId h) ++ [m].
Proof.
  intros Hlen. rewrite getChatHistory_add_snoc. f_equal.
  unfold lastn. now rewrite Hlen.
Qed.

Lemma full_history_slides_witness :
  let h := appendAll Samples.sample_run ∅ in
  getChatHistory "42" (addToChatHistory "42" "new" h)
  = drop 1 (getChatHistory "42" h) ++ ["new"].
Proof.
  intros h. apply (full_history_slides "42" "new" h).
  vm_compute. reflexivity.
Defined.

(** X3.  Appends to different chats commute: the table after both does not
    depend on which came first. *)
Theorem appends_to_different_chats_commute c1 c2 (m1 m2 : string) h :
  c1 <> c2 ->
  addToChatHistory c1 m1 (addToChatHistory c2 m2 h)
  = addToChatHistory c2 m2 (addToChatHistory c1 m1 h).
Proof.
  intros Hne. apply map_eq. intros k.
  rewrite !lookup_addToChatHistory.
  rewrite (getChatHistory_add_other c1 c2) by exact Hne.
  rewrite (getChatHistory_add_other c2 c1) by congruence.
  repeat case_decide; subst; congruence.
Qed.

Lemma appends_to_different_chats_commute_witness :
  addToChatHistory "12" "a" (addToChatHistory "34" "b" ∅)
  = addToChatHistory "34" "b" (addToChatHistory "12" "a" ∅).
Proof.
  apply (appends_to_different_chats_commute "12" "34" "a" "b" ∅).
  discriminate.
Defined.

End StoreExtras.

(** ** The router, branch by branch *)

Section RouterExtras.

Import BotService.

Variable settings : Config.Settings.
Variable personalityConfig : Config.Personality.
Variable llmConfig : Config.Llm.
Variable llmService : string -> list string -> M LlmService.State string.
Variable transport : list Call -> Call -> option exn.

Local Abbreviation handleMessage :=
  (BotService.handleMessage settings personalityConfig llmConfig llmService transport).
Local Abbreviation handleCustomCommand :=
  (BotService.handleCustomCommand settings personalityConfig llmConfig transport).

Ltac run_router :=
  unfold bind, try_catch, modify, telegram, with_history,
    BotService.generateResponse, bind, gets, record, modify, lift_llm,
    BotService.logger, reply, telegram, modify, bind, ret; simpl.

(** The table after one update is the table before, or that with the
    chat's array emptied, or that with one or two texts appended to the
    chat. *)
Lemma handleMessage_history_cases (ctx : Context) (st : State) :
  let c := toString (chat_id ctx) in
  let h := chatHistory st in
  let h' := chatHistory (snd (handleMessage ctx st)) in
  h' = h
  \/ h' = <[c := []]> h
  \/ (exists t, h' = addToChatHistory c t h)
  \/ (exists t r, h' = addToChatHistory c r (addToChatHistory c t h)).
Proof.
  intros c h h'. subst h'. unfold BotService.handleMessage.
  destruct (message_text ctx) as [text |]; [| now left].
  destruct (unauthorized settings _); [now left |].
  destruct (blacklisted settings _); [now left |].
  destruct (is_command settings text).
  - unfold BotService.handleCustomCommand.
    destruct (Config.commandPrefix settings) as [prefix |]; [| now left].
    destruct (String.eqb _ "reset"); [right; left; reflexivity |].
    destruct (String.eqb _ "debug"); now left.
  - fold c. run_router.
    destruct (transport (calls st) (SendChatAction c "typing")); simpl;
      [right; right; left; eauto |].
    destruct (llmService text _ (llm st)) as [[response | e] l']; simpl.
    + destruct (delay settings); simpl;
        destruct (transport _ (Reply response)); simpl;
        solve [right; right; left; eauto | right; right; right; eauto].
    + right; right; left; eauto.
Qed.

(** X4.  The bound of the store is an invariant of the router: if every
    chat holds at most 20 entries before an update is handled, so it does
    afterwards, whatever the update, the generator and the transport do. *)
Theorem handleMessage_keeps_history_bound (ctx : Context) (st : State) :
  (forall c, (length (getChatHistory c (chatHistory st)) <= 20)%nat) ->
  forall c,
    (length (getChatHistory c (chatHistory (snd (handleMessage ctx st)))) <= 20)%nat.
Proof.
  intros Hb c.
  assert (Hadd : forall k t h,
             (length (getChatHistory c h) <= 20)%nat ->
             (length (getChatHistory c (addToChatHistory k t h)) <= 20)%nat).
  { intros k t h Hh. destruct (decide (c = k)) as [-> | Hne].
    - rewrite getChatHistory_add_same, lastn_length. lia.
    - now rewrite getChatHistory_add_other. }
  destruct (handleMessage_history_cases ctx st)
    as [-> | [-> | [[t ->] | (t & r & ->)]]]; auto.
  unfold getChatHistory.
  destruct (decide (toString (chat_id ctx) = c)) as [-> | Hne].
  - rewrite lookup_insert_eq. simpl. lia.
  - rewrite lookup_insert_ne by exact Hne. apply Hb.
Qed.

(** X5.  Handling an update of one chat never changes what is stored for
    another chat. *)
Theorem handleMessage_touches_one_chat (ctx : Context) (st : State) (c : string) :
  c <> toString (chat_id ctx) ->
  chatHistory (snd (handleMessage ctx st)) !! c = chatHistory st !! c.
Proof.
  intros Hne.
  destruct (handleMessage_history_cases ctx st)
    as [-> | [-> | [[t ->] | (t & r & ->)]]].
  - reflexivity.
  - apply lookup_insert_ne. congruence.
  - rewrite lookup_addToChatHistory. now case_decide.
  - rewrite !lookup_addToChatHistory. now case_decide.
Qed.

(** X6.  A complete exchange.  For a text of an admitted sender that is no
    command, with a transport that delivers and a generator that returns
    [response]: the router returns normally; its calls are the typing
    indicator, the generation, the pause when a positive delay is
    configured, and the reply of [response]; and the chat's history is the
    last 20 of the earlier entries followed by the text and the response. *)
Theorem exchange_is_recorded
    (ctx : Context) (text response : string) (st : State) (l' : LlmService.State) :
  message_text ctx = Some text ->
  ~ denied_by_allow_list settings (toString (from_id ctx)) ->
  ~ on_block_list settings (toString (from_id ctx)) ->
  is_command settings text = false ->
  (forall tr c, transport tr c = None) ->
  let chatId := toString (chat_id ctx) in
  let earlier := getChatHistory chatId (chatHistory st) in
  let history := getChatHistory chatId (addToChatHistory chatId text (chatHistory st)) in
  llmService text history (llm st) = (Ok response, l') ->
  let out := handleMessage ctx st in
  fst out = Ok tt
  /\ calls (snd out)
     = calls st ++ [SendChatAction chatId "typing"; Generate text history]
         ++ match Config.responseDelay settings with
            | Some d => if 0 <? d then [Sleep d] else []
            | None => []
            end
         ++ [Reply response]
  /\ getChatHistory chatId (chatHistory (snd out))
     = lastn 20 (earlier ++ [text; response])
  /\ llm (snd out) = l'.
Proof.
  intros Htext Hallow Hblock Hcmd Hdeliver chatId earlier history Hllm out.
  subst out. unfold BotService.handleMessage. rewrite Htext.
  rewrite (admitted_unauthorized _ _ Hallow), (admitted_blacklisted _ _ Hblock), Hcmd.
  fold chatId. run_router. rewrite Hdeliver. simpl. fold history.
  rewrite Hllm. simpl.
  assert (Hhist : forall h0,
             h0 = addToChatHistory chatId response
                    (addToChatHistory chatId text (chatHistory st)) ->
             getChatHistory chatId h0 = lastn 20 (earlier ++ [text; response])).
  { intros h0 ->. rewrite !getChatHistory_add_same, lastn_app_lastn.
    fold earlier. now rewrite <- app_assoc. }
  unfold delay. destruct (Config.responseDelay settings) as [d |]; simpl.
  - destruct (0 <? d) eqn:Hd.
    + assert (Hpos : negb (d =? 0) && (d >? 0) = true).
      { apply Z.ltb_lt in Hd. apply andb_true_iff. split.
        - apply negb_true_iff, Z.eqb_neq. lia.
        - apply Z.gtb_lt. lia. }
      rewrite Hpos. simpl. rewrite Hdeliver. simpl.
      repeat split; [now rewrite <- !app_assoc | now apply Hhist].
    + assert (Hnon : negb (d =? 0) && (d >? 0) = false).
      { apply Z.ltb_ge in Hd. apply andb_false_iff. right.
        destruct (d >? 0) eqn:E; [| reflexivity]. apply Z.gtb_lt in E. lia. }
      rewrite Hnon. simpl. rewrite Hdeliver. simpl.
      repeat split; [now rewrite <- !app_assoc | now apply Hhist].
  - rewrite Hdeliver. simpl.
    repeat split; [now rewrite <- !app_assoc | now apply Hhist].
Qed.

(** X7.  A response that could not be sent is not recorded.  When the
    transport rejects the reply of the generated text, the router still
    tries the apology, and the chat's history ends with the user's text:
    the response is not appended. *)
Theorem undelivered_response_is_not_stored
    (ctx : Context) (text response : string) (st : State)
    (l' : LlmService.State) (e : exn) :
  message_text ctx = Some text ->
  ~ denied_by_allow_list settings (toString (from_id ctx)) ->
  ~ on_block_list settings (toString (from_id ctx)) ->
  is_command settings text = false ->
  let chatId := toString (chat_id ctx) in
  let history := getChatHistory chatId (addToChatHistory chatId text (chatHistory st)) in
  let typing := SendChatAction chatId "typing" in
  transport (calls st) typing = None ->
  llmService text history (llm st) = (Ok response, l') ->
  (forall tr, transport tr (Reply response) = Some e) ->
  let out := handleMessage ctx st in
  chatHistory (snd out) = addToChatHistory chatId text (chatHistory st)
  /\ calls (snd out)
     = calls st ++ [typing; Generate text history]
         ++ match Config.responseDelay settings with
            | Some d => if 0 <? d then [Sleep d] else []
            | None => []
            end
         ++ [Reply response; Reply apology]
  /\ log (snd out)
     = log st ++ [LlmService.LogError ("Error handling message: " +:+ message e)].
Proof.
  intros Htext Hallow Hblock Hcmd chatId history typing Htyping Hllm Hreply out.
  subst out. unfold BotService.handleMessage. rewrite Htext.
  rewrite (admitted_unauthorized _ _ Hallow), (admitted_blacklisted _ _ Hblock), Hcmd.
  fold chatId. run_router. fold typing. rewrite Htyping. simpl. fold history.
  rewrite Hllm. simpl. unfold delay.
  destruct (Config.responseDelay settings) as [d |]; simpl.
  - destruct (0 <? d) eqn:Hd.
    + assert (Hpos : negb (d =? 0) && (d >? 0) = true).
      { apply Z.ltb_lt in Hd. apply andb_true_iff. split.
        - apply negb_true_iff, Z.eqb_neq. lia.
        - apply Z.gtb_lt. lia. }
      rewrite Hpos. simpl. rewrite Hreply. simpl.
      repeat split. now rewrite <- !app_assoc.
    + assert (Hnon : negb (d =? 0) && (d >? 0) = false).
      { apply Z.ltb_ge in Hd. apply andb_false_iff. right.
        destruct (d >? 0) eqn:E; [| reflexivity]. apply Z.gtb_lt in E. lia. }
      rewrite Hnon. simpl. rewrite Hreply. simpl.
      repeat split. now rewrite <- !app_assoc.
  - rewrite Hreply. simpl. repeat split. now rewrite <- !app_assoc.
Qed.

(** X8.  A text that starts with the prefix and whose command is neither
    reset nor debug is answered with "Unknown command: " followed by the
    command as typed (prefix removed, white space of any kind trimmed at
    both ends, case kept); that reply is the only effect of the handler,
    and of the router when such a text arrives from an admitted sender. *)
Theorem unknown_command_is_echoed
    (ctx : Context) (text prefix : string) (st : State) :
  Config.commandPrefix settings = Some prefix ->
  JS.startsWith text prefix = true ->
  let command := JS.trim (JS.substring (String.length prefix) text) in
  JS.toLowerCase command <> "reset" ->
  JS.toLowerCase command <> "debug" ->
  let answered :=
    {| chatHistory := chatHistory st;
       calls := calls st ++ [Reply ("Unknown command: " +:+ command)];
       log := log st;
       llm := llm st |} in
  snd (handleCustomCommand ctx text st) = answered
  /\ (message_text ctx = Some text ->
      prefix <> EmptyString ->
      ~ denied_by_allow_list settings (toString (from_id ctx)) ->
      ~ on_block_list settings (toString (from_id ctx)) ->
      snd (handleMessage ctx st) = answered).
Proof.
  intros Hp Hstarts command Hreset Hdebug answered.
  assert (Hhandler : snd (handleCustomCommand ctx text st) = answered).
  { unfold BotService.handleCustomCommand. rewrite Hp. fold command.
    destruct (String.eqb (JS.toLowerCase command) "reset") eqn:E1;
      [apply String.eqb_eq in E1; contradiction |].
    destruct (String.eqb (JS.toLowerCase command) "debug") eqn:E2;
      [apply String.eqb_eq in E2; contradiction |].
    reflexivity. }
  split; [exact Hhandler |].
  intros Htext Hne Hallow Hblock. rewrite <- Hhandler.
  unfold BotService.handleMessage. rewrite Htext.
  rewrite (admitted_unauthorized _ _ Hallow), (admitted_blacklisted _ _ Hblock).
  now rewrite (is_command_true _ text prefix Hp Hne Hstarts).
Qed.

(** X9.  A command never reaches the generator.  For a text of an admitted
    sender that starts with the configured prefix, the router makes exactly
    one call, a reply; it sends no typing indicator, does not call the
    generator, logs nothing, and leaves the table as it was unless it
    empties the chat's array. *)
Theorem commands_never_reach_generator
    (ctx : Context) (text : string) (st : State) :
  message_text ctx = Some text ->
  ~ denied_by_allow_list settings (toString (from_id ctx)) ->
  ~ on_block_list settings (toString (from_id ctx)) ->
  is_command settings text = true ->
  let out := handleMessage ctx st in
  (exists answer, calls (snd out) = calls st ++ [Reply answer])
  /\ llm (snd out) = llm st
  /\ log (snd out) = log st
  /\ (chatHistory (snd out) = chatHistory st
      \/ chatHistory (snd out) = <[toString (chat_id ctx) := []]> (chatHistory st)).
Proof.
  intros Htext Hallow Hblock Hcmd out. subst out.
  unfold BotService.handleMessage. rewrite Htext.
  rewrite (admitted_unauthorized _ _ Hallow), (admitted_blacklisted _ _ Hblock), Hcmd.
  unfold BotService.handleCustomCommand. unfold is_command in Hcmd.
  destruct (Config.commandPrefix settings) as [prefix |]; [| discriminate].
  destruct (String.eqb _ "reset"); [| destruct (String.eqb _ "debug")];
    run_router; eauto 6.
Qed.



Lemma even_index (n : nat) : Nat.even n = true -> (n mod 2 =? 0)%nat = true.
Proof.
  intros H. apply Nat.even_spec in H. destruct H as [k ->].
  replace (2 * k)%nat with (k * 2)%nat by lia.
  now rewrite Nat.Div0.mod_mul.
Qed.

Lemma odd_index (n : nat) : Nat.even n = true -> (S n mod 2 =? 0)%nat = false.
Proof.
  intros H. apply Nat.even_spec in H. destruct H as [k ->].
  replace (S (2 * k))%nat with (1 + k * 2)%nat by lia.
  now rewrite Nat.Div0.mod_add.
Qed.

(** X11.  After a caught generator error the roles shift.  The failed
    exchange leaves the user's text in the history without an answer, so on
    a history of even length the next text of the user sits at an odd index:
    the generator is called with a history in which [formatChatHistory]
    marks that next text "assistant". *)
Theorem caught_error_shifts_roles
    (ctx1 ctx2 : Context) (m1 m2 : string) (st : State)
    (e : exn) (l1 : LlmService.State) :
  message_text ctx1 = Some m1 ->
  message_text ctx2 = Some m2 ->
  chat_id ctx2 = chat_id ctx1 ->
  (forall userId, unauthorized settings userId = false) ->
  (forall userId, blacklisted settings userId = false) ->
  is_command settings m1 = false ->
  is_command settings m2 = false ->
  (forall tr c, transport tr c = None) ->
  let chatId := toString (chat_id ctx1) in
  let earlier := getChatHistory chatId (chatHistory st) in
  Nat.even (length earlier) = true ->
  (length earlier + 2 <= 20)%nat ->
  llmService m1 (getChatHistory chatId (addToChatHistory chatId m1 (chatHistory st)))
    (llm st) = (Throw e, l1) ->
  let st1 := snd (handleMessage ctx1 st) in
  let history := earlier ++ [m1; m2] in
  getChatHistory chatId (chatHistory st1) = earlier ++ [m1]
  /\ (exists rest,
        calls (snd (handleMessage ctx2 st1))
        = calls st1 ++ [SendChatAction chatId "typing"; Generate m2 history] ++ rest)
  /\ LlmService.formatChatHistory history !! length earlier
     = Some {| LlmService.role := "user"; LlmService.content := m1 |}
  /\ LlmService.formatChatHistory history !! S (length earlier)
     = Some {| LlmService.role := "assistant"; LlmService.content := m2 |}.
Proof.
  intros Ht1 Ht2 Hchat Hallow Hblock Hc1 Hc2 Hdeliver chatId earlier Heven Hlen Hllm
    st1 history.
  assert (Hst1 : chatHistory st1 = addToChatHistory chatId m1 (chatHistory st)).
  { subst st1. unfold BotService.handleMessage.
    rewrite Ht1, Hallow, Hblock, Hc1. fold chatId. run_router.
    rewrite Hdeliver. simpl. rewrite Hllm. reflexivity. }
  assert (Hh1 : getChatHistory chatId (chatHistory st1) = earlier ++ [m1]).
  { rewrite Hst1, getChatHistory_add_same. apply lastn_short.
    rewrite length_app. fold earlier. simpl. lia. }
  assert (Hh2 : getChatHistory chatId (addToChatHistory chatId m2 (chatHistory st1))
                = history).
  { rewrite getChatHistory_add_same, Hh1, lastn_short.
    - subst history. now rewrite <- app_assoc.
    - rewrite !length_app. simpl. lia. }
  split; [exact Hh1 |]. split; [| split].
  - destruct (generation_branch_calls settings personalityConfig llmConfig
                llmService transport ctx2 m2 st1 Ht2 (Hallow _) (Hblock _) Hc2)
      as [rest Hrest].
    + apply Hdeliver.
    + exists rest. rewrite Hrest, Hchat. fold chatId. now rewrite Hh2.
  - unfold LlmService.formatChatHistory. rewrite formatFrom_lookup.
    rewrite Nat.add_0_l, (even_index _ Heven).
    subst history. rewrite lookup_app_r by lia.
    now replace (length earlier - length earlier)%nat with 0%nat by lia.
  - unfold LlmService.formatChatHistory. rewrite formatFrom_lookup.
    rewrite Nat.add_0_l, (odd_index _ Heven).
    subst history. rewrite lookup_app_r by lia.
    now replace (S (length earlier) - length earlier)%nat with 1%nat by lia.
Qed.

End RouterExtras.

(** ** The branches of the router on concrete inputs *)

Section RouterExtrasSamples.

Import BotService Samples.

Local Abbreviation run llmService transport ctx st :=
  (handleMessage open_settings personality (llm_of "grok" None)
     llmService transport ctx st).

Lemma open_settings_allow (userId : string) :
  ~ denied_by_allow_list open_settings userId.
Proof. intros (l & Hl & Hne & _). inversion Hl. subst l. now apply Hne. Qed.

Lemma open_settings_block (userId : string) :
  ~ on_block_list open_settings userId.
Proof. intros (l & Hl & Hin). inversion Hl. subst l. inversion Hin. Qed.

Lemma handleMessage_keeps_history_bound_witness :
  (length (getChatHistory "12"
             (chatHistory (snd (run (answering "Bot response") delivering
                                  (msg "hello" 5) fresh)))) <= 20)%nat.
Proof.
  apply (handleMessage_keeps_history_bound open_settings personality
           (llm_of "grok" None) (answering "Bot response") delivering
           (msg "hello" 5) fresh).
  intros c. unfold getChatHistory. simpl. rewrite lookup_empty. simpl. lia.
Defined.

Lemma handleMessage_touches_one_chat_witness :
  let st := with_history (addToChatHistory "34" "theirs") fresh in
  chatHistory (snd (run (answering "Bot response") delivering (msg "hello" 5) st)) !! "34"
  = Some ["theirs"].
Proof.
  intros st.
  rewrite (handleMessage_touches_one_chat open_settings personality
             (llm_of "grok" None) (answering "Bot response") delivering
             (msg "hello" 5) st "34").
  - vm_compute. reflexivity.
  - vm_compute. discriminate.
Defined.

Lemma exchange_is_recorded_witness :
  let out := run (answering "Bot response") delivering (msg "hello" 5) fresh in
  fst out = Ok tt
  /\ calls (snd out)
     = [SendChatAction "12" "typing"; Generate "hello" ["hello"]; Reply "Bot response"]
  /\ getChatHistory "12" (chatHistory (snd out)) = ["hello"; "Bot response"].
Proof.
  intros out.
  destruct (exchange_is_recorded open_settings personality (llm_of "grok" None)
              (answering "Bot response") delivering (msg "hello" 5) "hello"
              "Bot response" fresh (llm fresh) eq_refl
              (open_settings_allow _) (open_settings_block _) eq_refl
              (fun _ _ => eq_refl) eq_refl)
    as (Hfst & Hcalls & Hhist & _).
  split; [exact Hfst |]. split; [exact Hcalls |].
  etransitivity; [exact Hhist |]. vm_compute. reflexivity.
Defined.

Lemma undelivered_response_is_not_stored_witness :
  let out := run (answering "Bot response") no_reply (msg "hello" 5) fresh in
  getChatHistory "12" (chatHistory (snd out)) = ["hello"]
  /\ calls (snd out)
     = [SendChatAction "12" "typing"; Generate "hello" ["hello"];
        Reply "Bot response"; Reply apology].
Proof.
  intros out.
  destruct (undelivered_response_is_not_stored open_settings personality
              (llm_of "grok" None) (answering "Bot response") no_reply
              (msg "hello" 5) "hello" "Bot response" fresh (llm fresh)
              (Error "403: Forbidden: bot was blocked by the user") eq_refl
              (open_settings_allow _) (open_settings_block _) eq_refl
              eq_refl eq_refl (fun _ => eq_refl))
    as (Hhist & Hcalls & _).
  split; [| exact Hcalls].
  subst out. rewrite Hhist. vm_compute. reflexivity.
Defined.

Lemma unknown_command_is_echoed_witness :
  let answer text :=
    calls (snd (handleMessage open_settings personality (llm_of "grok" None)
                  failing delivering (msg text 5) fresh)) in
  answer "/ UnKnown " = [Reply "Unknown command: UnKnown"]
  /\ answer ("/" +:+ nbsp +:+ "resets" +:+ nbsp) = [Reply "Unknown command: resets"].
Proof.
  intros answer. split.
  - destruct (unknown_command_is_echoed open_settings personality (llm_of "grok" None)
                failing delivering (msg "/ UnKnown " 5) "/ UnKnown " "/" fresh
                eq_refl eq_refl) as [_ Hroute].
    + vm_compute. discriminate.
    + vm_compute. discriminate.
    + unfold answer. rewrite Hroute.
      * reflexivity.
      * reflexivity.
      * discriminate.
      * apply open_settings_allow.
      * apply open_settings_block.
  - destruct (unknown_command_is_echoed open_settings personality (llm_of "grok" None)
                failing delivering (msg ("/" +:+ nbsp +:+ "resets" +:+ nbsp) 5)
                ("/" +:+ nbsp +:+ "resets" +:+ nbsp) "/" fresh
                eq_refl eq_refl) as [_ Hroute].
    + vm_compute. discriminate.
    + vm_compute. discriminate.
    + unfold answer. rewrite Hroute.
      * reflexivity.
      * reflexivity.
      * discriminate.
      * apply open_settings_allow.
      * apply open_settings_block.
Defined.

Lemma commands_never_reach_generator_witness :
  let out := run failing delivering (msg "/debug" 5) fresh in
  (exists answer, calls (snd out) = [Reply answer]) /\ llm (snd out) = llm fresh.
Proof.
  intros out.
  destruct (commands_never_reach_generator open_settings personality
              (llm_of "grok" None) failing delivering (msg "/debug" 5) "/debug"
              fresh eq_refl (open_settings_allow _) (open_settings_block _) eq_refl)
    as (Hcalls & Hllm & _).
  split; [exact Hcalls | exact Hllm].
Defined.


Lemma caught_error_shifts_roles_witness :
  let st1 := snd (run failing delivering (msg "first" 5) fresh) in
  getChatHistory "12" (chatHistory st1) = ["first"]
  /\ LlmService.formatChatHistory ["first"; "second"] !! 1%nat
     = Some {| LlmService.role := "assistant"; LlmService.content := "second" |}.
Proof.
  intros st1.
  destruct (caught_error_shifts_roles open_settings personality (llm_of "grok" None)
              failing delivering (msg "first" 5) (msg "second" 5) "first" "second"
              fresh (Error "LLM error") (llm fresh) eq_refl eq_refl eq_refl
              (fun _ => eq_refl) (fun _ => eq_refl) eq_refl eq_refl
              (fun _ _ => eq_refl))
    as (Hh1 & _ & _ & Hrole).
  - vm_compute. reflexivity.
  - vm_compute. lia.
  - reflexivity.
  - split; [exact Hh1 | exact Hrole].
Defined.

End RouterExtrasSamples.

(** ** The generator: requests, results and log *)

Section GeneratorExtras.

Import LlmService.

Variable llmConfig : Config.Llm.
Variable personalityConfig : Config.Personality.
Variable backend : list HttpRequest -> HttpRequest -> Result JS.value.

Local Abbreviation dispatch := (LlmService.dispatch llmConfig backend).
Local Abbreviation generateResponse :=
  (LlmService.generateResponse llmConfig personalityConfig backend).
Local Abbreviation system_prompt :=
  (JS.or_string (Config.systemPrompt llmConfig)
                (generateSystemPrompt personalityConfig)).

Lemma generateResponse_requests (um : string) (h : list string) (st : State) :
  requests (snd (generateResponse um h st))
  = requests (snd (dispatch system_prompt um h st)).
Proof.
  rewrite generateResponse_outcome.
  destruct (dispatch system_prompt um h st) as [[r | e] st1]; simpl;
    [destruct (JS.truthy (usage r)) |]; reflexivity.
Qed.

(** The requests after a dispatch, provider by provider. *)
Lemma dispatch_requests (sp um : string) (h : list string) (st : State) :
  (chat_provider (Config.provider llmConfig) \/ custom_provider llmConfig ->
   exists req, requests (snd (dispatch sp um h st)) = requests st ++ [req])
  /\ (~ (chat_provider (Config.provider llmConfig) \/ custom_provider llmConfig) ->
      requests (snd (dispatch sp um h st)) = requests st).
Proof.
  split.
  - intros [Hchat | (Hp & e & He & Hne)].
    + destruct (dispatch_chat llmConfig backend sp um h st Hchat)
        as (req & m & build & tag & _ & _ & _ & ->).
      exists req. apply adapter_outcome_requests.
    + rewrite dispatch_custom, (callCustomApi_with_endpoint _ _ e) by assumption.
      eexists. apply adapter_outcome_requests.
  - intros Hn.
    destruct (classic_provider llmConfig) as [Hchat | [Hcustom | Hother]].
    + tauto.
    + rewrite dispatch_custom by exact Hcustom.
      rewrite callCustomApi_without_endpoint; [reflexivity |].
      destruct (Config.endpoint llmConfig) as [e |] eqn:He; [| reflexivity].
      simpl. destruct (String.eqb e EmptyString) eqn:E; [reflexivity |].
      exfalso. apply Hn. right. split; [exact Hcustom |].
      exists e. split; [exact He |]. intros ->. discriminate E.
    + now rewrite dispatch_unsupported.
Qed.

(** X12.  One call of the generator issues at most one request, after the
    earlier ones: exactly one when the provider is grok, openai, anthropic
    or custom with an endpoint, and none otherwise. *)
Theorem at_most_one_request (um : string) (h : list string) (st : State) :
  exists new,
    requests (snd (generateResponse um h st)) = requests st ++ new
    /\ (length new <= 1)%nat
    /\ (chat_provider (Config.provider llmConfig) \/ custom_provider llmConfig ->
        length new = 1%nat)
    /\ (~ (chat_provider (Config.provider llmConfig) \/ custom_provider llmConfig) ->
        new = []).
Proof.
  rewrite generateResponse_requests.
  destruct (dispatch_requests system_prompt um h st) as [Hone Hnone].
  destruct (classic_provider llmConfig) as [Hchat | [Hcustom | Hother]].
  - destruct Hone as [req ->]; [tauto |]. exists [req]. simpl.
    repeat split; auto. tauto.
  - destruct (Config.endpoint llmConfig) as [e |] eqn:He.
    + destruct (String.eqb e EmptyString) eqn:E.
      * apply String.eqb_eq in E. subst e.
        assert (Hn : ~ (chat_provider (Config.provider llmConfig)
                        \/ custom_provider llmConfig)).
        { intros [Hc | (_ & e' & He' & Hne)].
          - unfold chat_provider in Hc. rewrite Hcustom in Hc.
            destruct Hc as [Hc | [Hc | Hc]]; discriminate Hc.
          - rewrite He in He'. inversion He'. subst e'. now apply Hne. }
        rewrite (Hnone Hn). exists []. rewrite app_nil_r. simpl.
        repeat split; auto. tauto.
      * assert (Hy : custom_provider llmConfig).
        { split; [exact Hcustom |]. exists e. split; [exact He |].
          intros ->. discriminate E. }
        destruct Hone as [req ->]; [tauto |]. exists [req]. simpl.
        repeat split; auto. tauto.
    + assert (Hn : ~ (chat_provider (Config.provider llmConfig)
                      \/ custom_provider llmConfig)).
      { intros [Hc | (_ & e' & He' & _)].
        - unfold chat_provider in Hc. rewrite Hcustom in Hc.
          destruct Hc as [Hc | [Hc | Hc]]; discriminate Hc.
        - rewrite He in He'. discriminate He'. }
      rewrite (Hnone Hn). exists []. rewrite app_nil_r. simpl.
      repeat split; auto. tauto.
  - assert (Hn : ~ (chat_provider (Config.provider llmConfig)
                    \/ custom_provider llmConfig)).
    { intros [Hc | (Hp & _)]; apply Hother; unfold supported; tauto. }
    rewrite (Hnone Hn). exists []. rewrite app_nil_r. simpl.
    repeat split; auto. tauto.
Qed.

Lemma readable_data_has_members (d : JS.value) (k : string) :
  JS.nullish d = false -> exists u, JS.get d k = Ok u.
Proof. destruct d; simpl; try discriminate; eauto. Qed.

Lemma choices_content_not_nullish (d t : JS.value) :
  choices_content d = Ok t -> JS.nullish d = false.
Proof. unfold choices_content. destruct d; simpl; try discriminate; reflexivity. Qed.

Lemma content_text_not_nullish (d t : JS.value) :
  content_text d = Ok t -> JS.nullish d = false.
Proof. unfold content_text. destruct d; simpl; try discriminate; reflexivity. Qed.

Lemma first_present_not_nullish (d t : JS.value) :
  first_present d = Ok t -> JS.nullish d = false.
Proof. unfold first_present. destruct d; simpl; try discriminate; reflexivity. Qed.

(** X13.  What can be read at the text path is returned as it is.  When the
    backend answers with [d] and the text path of the provider reads [t] in
    it, the generator returns [t], whatever it is: a string, but also
    [undefined] or [null] when the last member of the path is missing or
    empty; the fallback is not substituted. *)
Theorem text_path_value_is_returned
    (um : string) (h : list string) (st : State) (d t : JS.value) :
  (forall req, backend (requests st) req = Ok d) ->
  ((Config.provider llmConfig = "grok" \/ Config.provider llmConfig = "openai")
   /\ choices_content d = Ok t)
  \/ (Config.provider llmConfig = "anthropic" /\ content_text d = Ok t)
  \/ (custom_provider llmConfig /\ first_present d = Ok t) ->
  fst (generateResponse um h st) = Ok t.
Proof.
  intros Hd Hread. rewrite generateResponse_outcome.
  assert (Hok : exists r st1,
             dispatch system_prompt um h st = (Ok r, st1) /\ text r = t).
  { destruct Hread as [[Hp Ht] | [[Hp Ht] | [(Hp & e & He & Hne) Ht]]].
    - assert (Hchat : chat_provider (Config.provider llmConfig))
        by (unfold chat_provider; tauto).
      destruct (dispatch_chat llmConfig backend system_prompt um h st Hchat)
        as (req & m & build & tag & _ & _ & Hb & ->).
      rewrite Hb by (destruct Hp as [-> | ->]; discriminate).
      destruct (readable_data_has_members d "usage"
                  (choices_content_not_nullish d t Ht)) as [u Hu].
      unfold adapter_outcome. rewrite Hd. simpl.
      unfold chat_response. rewrite Ht. simpl. rewrite Hu. simpl. eauto.
    - assert (Hchat : chat_provider (Config.provider llmConfig))
        by (unfold chat_provider; tauto).
      destruct (dispatch_chat llmConfig backend system_prompt um h st Hchat)
        as (req & m & build & tag & _ & Hb & _ & ->).
      rewrite (Hb Hp).
      destruct (readable_data_has_members d "usage"
                  (content_text_not_nullish d t Ht)) as [u Hu].
      unfold adapter_outcome. rewrite Hd. simpl.
      unfold anthropic_response, anthropic_usage. rewrite Ht. simpl.
      rewrite Hu. simpl. eauto.
    - rewrite dispatch_custom, (callCustomApi_with_endpoint _ _ e) by assumption.
      destruct (readable_data_has_members d "usage"
                  (first_present_not_nullish d t Ht)) as [u Hu].
      unfold adapter_outcome. rewrite Hd. simpl.
      unfold custom_response. rewrite Ht. simpl. rewrite Hu. simpl. eauto. }
  destruct Hok as (r & st1 & -> & <-). reflexivity.
Qed.

(** X14.  A rejected request is logged twice and nothing else: first by
    the adapter, with the tag of the provider, then by the generator, both
    lines with the message of the error. *)
Theorem rejection_is_logged_twice
    (um : string) (h : list string) (st : State) (e : exn) :
  (forall req, backend (requests st) req = Throw e) ->
  chat_provider (Config.provider llmConfig) \/ custom_provider llmConfig ->
  exists tag,
    log (snd (generateResponse um h st))
    = log st ++ [LogError (tag +:+ message e);
                 LogError ("Error generating response: " +:+ message e)]
    /\ (Config.provider llmConfig = "grok" -> tag = "Grok API error: ")
    /\ (Config.provider llmConfig = "openai" -> tag = "OpenAI API error: ")
    /\ (Config.provider llmConfig = "anthropic" -> tag = "Anthropic API error: ")
    /\ (Config.provider llmConfig = "custom" -> tag = "Custom API error: ").
Proof.
  intros Hrej Hp. rewrite generateResponse_outcome.
  destruct Hp as [[Hp | [Hp | Hp]] | (Hp & e' & He & Hne)].
  - unfold LlmService.dispatch. rewrite Hp. simpl.
    unfold callGrokApi. rewrite adapter_shape.
    unfold adapter_outcome. rewrite Hrej. simpl.
    exists "Grok API error: ". rewrite <- app_assoc.
    repeat split; auto; intros; congruence.
  - unfold LlmService.dispatch. rewrite Hp. simpl.
    unfold callOpenAiApi. rewrite adapter_shape.
    unfold adapter_outcome. rewrite Hrej. simpl.
    exists "OpenAI API error: ". rewrite <- app_assoc.
    repeat split; auto; intros; congruence.
  - unfold LlmService.dispatch. rewrite Hp. simpl.
    unfold callAnthropicApi. rewrite adapter_shape.
    unfold adapter_outcome. rewrite Hrej. simpl.
    exists "Anthropic API error: ". rewrite <- app_assoc.
    repeat split; auto; intros; congruence.
  - rewrite dispatch_custom, (callCustomApi_with_endpoint _ _ e') by assumption.
    unfold adapter_outcome. rewrite Hrej. simpl.
    exists "Custom API error: ". rewrite <- app_assoc.
    repeat split; auto; intros; congruence.
Qed.

(** X15.  Under the anthropic provider every successful call logs a usage
    line, also when the response has no usage at all: the adapter always
    builds a usage object, and an object is truthy. *)
Theorem anthropic_always_logs_usage
    (um : string) (h : list string) (st : State) (d t : JS.value) :
  Config.provider llmConfig = "anthropic" ->
  (forall req, backend (requests st) req = Ok d) ->
  content_text d = Ok t ->
  exists line,
    log (snd (generateResponse um h st))
    = log st ++ [LogDebug ("Token usage: " +:+ line)].
Proof.
  intros Hp Hd Ht. rewrite generateResponse_outcome.
  assert (Hchat : chat_provider (Config.provider llmConfig))
    by (unfold chat_provider; tauto).
  destruct (dispatch_chat llmConfig backend system_prompt um h st Hchat)
    as (req & m & build & tag & _ & Hb & _ & ->).
  rewrite (Hb Hp).
  destruct (readable_data_has_members d "usage"
              (content_text_not_nullish d t Ht)) as [u Hu].
  unfold adapter_outcome. rewrite Hd. simpl.
  unfold anthropic_response, anthropic_usage. rewrite Ht. simpl.
  rewrite Hu. simpl. eauto.
Qed.

(** X16.  The formatted history alternates: its first entry has role
    "user", and two neighbours never have the same role. *)
Theorem formatted_roles_alternate (h : list string) :
  (forall m, formatChatHistory h !! 0%nat = Some m -> role m = "user")
  /\ (forall (k : nat) m1 m2,
        formatChatHistory h !! k = Some m1 ->
        formatChatHistory h !! S k = Some m2 ->
        role m1 <> role m2).
Proof.
  unfold formatChatHistory. split.
  - intros m. rewrite formatFrom_lookup.
    destruct (h !! 0%nat); simpl; [| discriminate].
    intros Hm. inversion Hm. reflexivity.
  - intros k m1 m2. rewrite !formatFrom_lookup, !Nat.add_0_l.
    assert (Hflip : (S k mod 2 =? 0)%nat = negb (k mod 2 =? 0)%nat).
    { destruct (Nat.even k) eqn:E.
      - now rewrite (even_index k E), (odd_index k E).
      - assert (Eo : Nat.even (S k) = true)
          by (rewrite Nat.even_succ; unfold Nat.odd; now rewrite E).
        rewrite (even_index (S k) Eo).
        destruct ((k mod 2 =? 0)%nat) eqn:Ek; [| reflexivity].
        apply Nat.eqb_eq in Ek.
        assert (Hk : Nat.even k = true).
        { apply Nat.even_spec. exists (k / 2)%nat.
          pose proof (Nat.div_mod_eq k 2). lia. }
        congruence. }
    rewrite Hflip.
    generalize ((k mod 2 =? 0)%nat). intros b.
    destruct (h !! k); simpl; [| discriminate].
    destruct (h !! S k); simpl; [| discriminate].
    intros H1 H2. inversion H1. inversion H2. subst. simpl.
    destruct b; discriminate.
Qed.

End GeneratorExtras.

(** X17.  Falsy settings behave as absent ones.  A configuration with an
    empty endpoint or system prompt, or with [maxTokens] or [temperature]
    zero, makes the generator do exactly what it does when those settings
    are left out: same result, same requests, same log. *)
Theorem blank_settings_count_as_absent
    (c : Config.Llm) (personalityConfig : Config.Personality)
    (backend : list LlmService.HttpRequest -> LlmService.HttpRequest -> Result JS.value)
    (um : string) (h : list string) (st : LlmService.State) :
  LlmService.generateResponse c personalityConfig backend um h st
  = LlmService.generateResponse (LlmService.without_blanks c) personalityConfig
      backend um h st.
Proof.
  destruct c as [p k m e mt t sp].
  unfold LlmService.generateResponse, LlmService.dispatch, LlmService.callGrokApi,
    LlmService.callOpenAiApi, LlmService.callAnthropicApi, LlmService.callCustomApi,
    LlmService.bearer_headers, LlmService.without_blanks.
  simpl.
  destruct sp as [sp |]; [destruct (String.eqb sp EmptyString) eqn:Esp |];
    destruct e as [e |]; try destruct (String.eqb e EmptyString) eqn:Ee;
    destruct mt as [n |]; try destruct (n =? 0) eqn:En;
    destruct t as [t |]; try destruct (Qnum t =? 0) eqn:Et;
    simpl; rewrite ?Esp, ?Ee, ?En, ?Et; reflexivity.
Qed.

(** ** The generator's requests, results and log on concrete inputs *)

Section GeneratorExtrasSamples.

Import LlmService Samples.

Lemma at_most_one_request_witness :
  length (requests (snd (generateResponse (llm_of "grok" None) personality
                           rejecting "Hello" ["Previous message"] idle))) = 1%nat.
Proof.
  destruct (at_most_one_request (llm_of "grok" None) personality rejecting
              "Hello" ["Previous message"] idle) as (new & -> & _ & Hone & _).
  rewrite length_app. simpl. apply Hone. left. left. reflexivity.
Defined.

(** A response whose message has no content: the generator returns
    [undefined]. *)
Lemma text_path_value_is_returned_witness :
  let d := JS.VObj [("choices", JS.VArr [JS.VObj [("message", JS.VObj [])]])] in
  fst (generateResponse (llm_of "grok" None) personality (answer d)
         "Hello" ["Previous message"] idle) = Ok JS.VUndefined.
Proof.
  intros d.
  apply (text_path_value_is_returned (llm_of "grok" None) personality (answer d)
           "Hello" ["Previous message"] idle d JS.VUndefined).
  - intros req. reflexivity.
  - left. split; [left; reflexivity | reflexivity].
Defined.

Lemma rejection_is_logged_twice_witness :
  log (snd (generateResponse (llm_of "openai" None) personality rejecting
              "Hello" ["Previous message"] idle))
  = [LogError "OpenAI API error: Request failed with status code 500";
     LogError "Error generating response: Request failed with status code 500"].
Proof.
  destruct (rejection_is_logged_twice (llm_of "openai" None) personality rejecting
              "Hello" ["Previous message"] idle
              (AxiosError "Request failed with status code 500"))
    as (tag & Hlog & _ & Htag & _).
  - intros req. reflexivity.
  - left. right. left. reflexivity.
  - rewrite Hlog, (Htag eq_refl). reflexivity.
Defined.

Lemma anthropic_always_logs_usage_witness :
  exists line,
    log (snd (generateResponse (llm_of "anthropic" None) personality
                (answer (anthropic_data [])) "Hello" ["Previous message"] idle))
    = [LogDebug ("Token usage: " +:+ line)].
Proof.
  apply (anthropic_always_logs_usage (llm_of "anthropic" None) personality
           (answer (anthropic_data [])) "Hello" ["Previous message"] idle
           (anthropic_data []) (JS.VStr "This is a response from Anthropic")).
  - reflexivity.
  - intros req. reflexivity.
  - reflexivity.
Defined.

Lemma formatted_roles_alternate_witness :
  let m1 := {| role := "assistant"; content := "b" |} in
  let m2 := {| role := "user"; content := "c" |} in
  formatChatHistory ["a"; "b"; "c"] !! 1%nat = Some m1
  /\ formatChatHistory ["a"; "b"; "c"] !! 2%nat = Some m2
  /\ role m1 <> role m2.
Proof.
  intros m1 m2.
  destruct (formatted_roles_alternate ["a"; "b"; "c"]) as [_ H].
  split; [reflexivity |]. split; [reflexivity |].
  apply (H 1%nat m1 m2); reflexivity.
Defined.

End GeneratorExtrasSamples.

(** ** Loading and validating the configuration *)

Section ConfigExtras.

Import ConfigService.

Lemma token_present_bot (c : BotConfig) :
  present (bot_token c) = true -> exists b, bot c = Some b.
Proof. unfold bot_token. destruct (bot c); [eauto | discriminate]. Qed.

(** X18.  [validateConfig] accepts a document exactly when the bot token,
    the personality section, the LLM provider and the API key are there
    (a token, provider or key that is the empty string counts as missing)
    and, if the webhook is enabled, its URL is not empty and its port not
    zero. *)
Theorem validateConfig_accepts_exactly (c : BotConfig) (lg : list Logger.Entry) :
  fst (validateConfig {| config := Document c; log := lg |}) = Ok tt
  <-> acceptable c.
Proof.
  unfold validateConfig, acceptable. simpl.
  destruct (present (bot_token c)) eqn:Et; simpl;
    [| split; [discriminate | intros (H & _); discriminate]].
  destruct (given (personality c)) eqn:Ep; simpl;
    [| split; [discriminate | intros (_ & H & _); discriminate]].
  destruct (present (llm_provider c)) eqn:El; simpl;
    [| split; [discriminate | intros (_ & _ & H & _); discriminate]].
  destruct (present (llm_apiKey c)) eqn:Ek; simpl;
    [| split; [discriminate | intros (_ & _ & _ & H & _); discriminate]].
  destruct (token_present_bot c Et) as [b Hb]. rewrite Hb.
  unfold bind, logger, modify, throw, ret.
  destruct (webhook_enabled b) eqn:Ew, (polling_enabled b) eqn:Epo,
    (webhook_incomplete b) eqn:Ei; simpl; split; intros H;
    try discriminate; try reflexivity;
    try (repeat split; auto; intros b' Hb' Hw'; inversion Hb'; subst b';
         congruence);
    destruct H as (_ & _ & _ & _ & H); specialize (H b eq_refl Ew); congruence.
Qed.

Lemma validateConfig_accepts_exactly_witness :
  fst (validateConfig {| config := Document Samples.both_modes; log := [] |}) = Ok tt.
Proof.
  apply (validateConfig_accepts_exactly Samples.both_modes []).
  repeat split; try reflexivity.
  intros b Hb _. inversion Hb. reflexivity.
Defined.

Lemma validateConfig_accepted (c : BotConfig) (lg : list Logger.Entry) :
  acceptable c ->
  validateConfig {| config := Document c; log := lg |}
  = (Ok tt, {| config := Document (normalised c);
               log := lg ++ validation_lines c |}).
Proof.
  intros (Et & Ep & El & Ek & Hw).
  unfold validateConfig, normalised, validation_lines, both_enabled. simpl.
  rewrite Et, Ep, El, Ek. simpl.
  destruct (token_present_bot c Et) as [b Hb]. rewrite Hb.
  specialize (Hw b Hb).
  unfold bind, logger, modify, throw, ret. simpl.
  destruct (webhook_enabled b) eqn:Ew; simpl.
  - rewrite (Hw eq_refl).
    destruct (polling_enabled b); simpl; [now rewrite <- app_assoc | reflexivity].
  - reflexivity.
Qed.

Lemma validateConfig_ok (st st' : State) :
  validateConfig st = (Ok tt, st') ->
  exists c, config st = Document c /\ acceptable c.
Proof.
  unfold validateConfig. destruct (config st) as [| | c]; try discriminate.
  intros H. exists c. split; [reflexivity |].
  destruct (present (bot_token c)) eqn:Et; simpl in H; [| discriminate].
  destruct (given (personality c)) eqn:Ep; simpl in H; [| discriminate].
  destruct (present (llm_provider c)) eqn:El; simpl in H; [| discriminate].
  destruct (present (llm_apiKey c)) eqn:Ek; simpl in H; [| discriminate].
  repeat split; auto. intros b Hb Hw. rewrite Hb in H.
  unfold bind, logger, modify, throw, ret in H. rewrite Hw in H. simpl in H.
  destruct (polling_enabled b); simpl in H;
    destruct (webhook_incomplete b); simpl in H; congruence.
Qed.

Lemma disable_polling_modes (b : Bot) :
  polling_enabled b = true ->
  webhook_enabled (disable_polling b) = webhook_enabled b
  /\ polling_enabled (disable_polling b) = false
  /\ webhook_incomplete (disable_polling b) = webhook_incomplete b.
Proof.
  unfold polling_enabled, webhook_enabled, webhook_incomplete, disable_polling.
  simpl. destruct (polling b); [| discriminate]. auto.
Qed.

Lemma normalised_acceptable (c : BotConfig) :
  acceptable c -> acceptable (normalised c) /\ both_enabled (normalised c) = false.
Proof.
  intros (Et & Ep & El & Ek & Hw).
  destruct (token_present_bot c Et) as [b Hb].
  unfold normalised, both_enabled. rewrite Hb.
  destruct (webhook_enabled b && polling_enabled b) eqn:E.
  - apply andb_true_iff in E as [Ew Epo].
    destruct (disable_polling_modes b Epo) as (Hw' & Hp' & Hi').
    split.
    + unfold acceptable, bot_token, llm_provider, llm_apiKey in *. simpl.
      rewrite Hb in Et. repeat split; auto.
      intros b' Hb' _. inversion Hb'. subst b'. rewrite Hi'. now apply Hw.
    + simpl. rewrite Hp'. apply andb_false_r.
  - split; [repeat split; auto |]. now rewrite Hb.
Qed.

(** X19.  What a successful validation leaves.  The document kept is the
    one loaded, except that polling is switched off when webhook and
    polling were both enabled (a warning is logged then); it passes the
    checks again, and webhook and polling are never both enabled in it. *)
Theorem validated_document_is_consistent (st st' : State) :
  validateConfig st = (Ok tt, st') ->
  exists c,
    config st = Document c
    /\ config st' = Document (normalised c)
    /\ log st' = log st ++ validation_lines c
    /\ acceptable (normalised c)
    /\ both_enabled (normalised c) = false.
Proof.
  intros Hok. destruct (validateConfig_ok st st' Hok) as (c & Hc & Hacc).
  exists c. destruct st as [cfg lg]. simpl in Hc. subst cfg.
  rewrite (validateConfig_accepted c lg Hacc) in Hok. inversion Hok. simpl.
  destruct (normalised_acceptable c Hacc). auto.
Qed.

(** X20.  Validation is idempotent: validating again what a successful
    validation left succeeds, keeps the document and logs the success line
    only, with no further warning. *)
Theorem validateConfig_idempotent (st st' : State) :
  validateConfig st = (Ok tt, st') ->
  validateConfig st'
  = (Ok tt, {| config := config st';
               log := log st' ++ [(Logger.Log, "Configuration validation successful")] |}).
Proof.
  intros Hok. destruct (validateConfig_ok st st' Hok) as (c & Hc & Hacc).
  destruct st as [cfg lg]. simpl in Hc. subst cfg.
  rewrite (validateConfig_accepted c lg Hacc) in Hok. inversion Hok. subst st'.
  destruct (normalised_acceptable c Hacc) as [Hacc' Hboth].
  rewrite (validateConfig_accepted _ _ Hacc'). simpl.
  unfold validation_lines. rewrite Hboth. simpl.
  f_equal. f_equal. f_equal.
  unfold normalised at 1. unfold both_enabled in Hboth.
  destruct (bot (normalised c)); [now rewrite Hboth | reflexivity].
Qed.

Lemma validateConfig_result_ignores_log (doc : Loaded) (l1 l2 : list Logger.Entry) :
  fst (validateConfig {| config := doc; log := l1 |})
  = fst (validateConfig {| config := doc; log := l2 |}).
Proof.
  unfold validateConfig. simpl. destruct doc as [| | c]; try reflexivity.
  destruct (present (bot_token c)); simpl; [| reflexivity].
  destruct (given (personality c)); simpl; [| reflexivity].
  destruct (present (llm_provider c)); simpl; [| reflexivity].
  destruct (present (llm_apiKey c)); simpl; [| reflexivity].
  destruct (bot c) as [b |]; [| reflexivity].
  unfold bind, logger, modify, throw, ret.
  destruct (webhook_enabled b), (polling_enabled b), (webhook_incomplete b);
    reflexivity.
Qed.

Section Loading.

Variable CONFIG_PATH : option string.
Variable readFileSync : string -> Result string.
Variable yaml_load : string -> Result Loaded.

Local Abbreviation loadConfig := (ConfigService.loadConfig CONFIG_PATH readFileSync yaml_load).
Local Abbreviation path := (configPath CONFIG_PATH).

(** X21.  Loading succeeds exactly when the file at the configured path
    (the environment's, or config/bot-config.yaml when that is unset or
    empty) can be read, parses to a mapping, and the mapping passes
    validation. *)
Theorem loadConfig_succeeds_exactly (st : State) :
  fst (loadConfig st) = Ok tt
  <-> exists contents c,
        readFileSync path = Ok contents
        /\ yaml_load contents = Ok (Document c)
        /\ acceptable c.
Proof.
  unfold ConfigService.loadConfig, try_catch, bind, lift_result, modify, logger,
    modify, throw. simpl.
  destruct (readFileSync path) as [contents | e1] eqn:Hr; simpl.
  - destruct (yaml_load contents) as [doc | e2] eqn:Hy; simpl.
    + destruct doc as [| | c]; simpl.
      * split; [discriminate | intros (x & c & Hx & Hc & _)].
        inversion Hx. subst x. congruence.
      * split; [discriminate | intros (x & c & Hx & Hc & _)].
        inversion Hx. subst x. congruence.
      * match goal with |- context [validateConfig ?s] =>
          destruct (validateConfig s) as [[[] | e] s'] eqn:Hv end; simpl.
        -- split; [intros _ | reflexivity].
           destruct (validateConfig_ok _ _ Hv) as (c' & Hc' & Hacc).
           simpl in Hc'. inversion Hc'. subst c'. eauto.
        -- split; [discriminate | intros (x & c' & Hx & Hc' & Hacc)].
           inversion Hx. subst x. rewrite Hy in Hc'. inversion Hc'. subst c'.
           rewrite (validateConfig_accepted c _ Hacc) in Hv. discriminate.
    + split; [discriminate | intros (x & c & Hx & Hc & _)].
      inversion Hx. subst x. congruence.
  - split; [discriminate | intros (x & c & Hx & _)]. discriminate.
Qed.

(** X22.  A failed load is logged and passed on.  Whatever fails (reading
    the file, parsing it, validating the document), the constructor throws
    that same error, and the last line of the log is
    "Failed to load configuration: " followed by its message. *)
Theorem loadConfig_failure_is_logged (st st' : State) (e : exn) :
  loadConfig st = (Throw e, st') ->
  last (log st')
  = Some (Logger.Err, "Failed to load configuration: " +:+ message e)
  /\ (readFileSync path = Throw e
      \/ (exists contents, readFileSync path = Ok contents
                           /\ yaml_load contents = Throw e)
      \/ (exists contents doc,
            readFileSync path = Ok contents
            /\ yaml_load contents = Ok doc
            /\ fst (validateConfig {| config := doc; log := [] |}) = Throw e)).
Proof.
  unfold ConfigService.loadConfig, try_catch, bind, lift_result, modify, logger,
    modify, throw. simpl.
  destruct (readFileSync path) as [contents | e1] eqn:Hr; simpl.
  - destruct (yaml_load contents) as [doc | e2] eqn:Hy; simpl.
    + match goal with |- context [validateConfig ?s] =>
        destruct (validateConfig s) as [[[] | e3] s'0] eqn:Hv end; simpl.
      * discriminate.
      * intros H. inversion H. subst. simpl. split; [apply last_snoc |].
        right. right. exists contents, doc.
        split; [reflexivity |]. split; [exact Hy |].
        erewrite validateConfig_result_ignores_log. now rewrite Hv.
    + intros H. inversion H. subst. simpl. split; [apply last_snoc |].
      right. left. eauto.
  - intros H. inversion H. subst. simpl. split; [apply last_snoc |]. now left.
Qed.

End Loading.

End ConfigExtras.

(** ** Start-up, text dispatch and the webhook endpoint *)

Section TransportExtras.

(** X23.  The text handlers run in the order they were registered, each
    on the state the previous one left, and the first one that throws ends
    the dispatch: later handlers do not run and the error is passed on.
    With one handler the dispatch is that handler; a handler registered
    after others runs when they have all returned, on the state they left;
    when the handlers before [h] return and [h] throws, the dispatch ends
    with the error and the state of [h], whatever is registered behind it;
    when [h] returns, the dispatch goes on behind it. *)
Theorem on_text_runs_until_failure {Ctx S : Type}
    (hs1 hs2 : list (TelegramService.Handler Ctx S))
    (h : TelegramService.Handler Ctx S) (ctx : Ctx) (s : S) :
  TelegramService.on_text Ctx S [h] ctx s = h ctx s
  /\ TelegramService.on_text Ctx S
       (TelegramService.registerMessageHandler Ctx S h hs1) ctx s
     = match TelegramService.on_text Ctx S hs1 ctx s with
       | (Ok _, s1) => h ctx s1
       | (Throw e, s1) => (Throw e, s1)
       end
  /\ TelegramService.on_text Ctx S (hs1 ++ hs2) ctx s
     = match TelegramService.on_text Ctx S hs1 ctx s with
       | (Ok _, s1) => TelegramService.on_text Ctx S hs2 ctx s1
       | (Throw e, s1) => (Throw e, s1)
       end
  /\ (forall s1 e s2,
        TelegramService.on_text Ctx S hs1 ctx s = (Ok tt, s1) ->
        h ctx s1 = (Throw e, s2) ->
        TelegramService.on_text Ctx S (hs1 ++ h :: hs2) ctx s = (Throw e, s2))
  /\ (forall s1 s2,
        TelegramService.on_text Ctx S hs1 ctx s = (Ok tt, s1) ->
        h ctx s1 = (Ok tt, s2) ->
        TelegramService.on_text Ctx S (hs1 ++ h :: hs2) ctx s
        = TelegramService.on_text Ctx S hs2 ctx s2).
Proof.
  assert (Hone : forall s0, TelegramService.on_text Ctx S [h] ctx s0 = h ctx s0).
  { intros s0. simpl. unfold bind, ret.
    now destruct (h ctx s0) as [[[] | e] s1]. }
  assert (Happ : forall hs hs' s0,
             TelegramService.on_text Ctx S (hs ++ hs') ctx s0
             = match TelegramService.on_text Ctx S hs ctx s0 with
               | (Ok _, s1) => TelegramService.on_text Ctx S hs' ctx s1
               | (Throw e, s1) => (Throw e, s1)
               end).
  { induction hs as [| handler hs IH]; intros hs' s0; simpl.
    - reflexivity.
    - unfold bind. destruct (handler ctx s0) as [[[] | e] s1].
      + apply IH.
      + reflexivity. }
  split; [apply Hone |]. split; [| split; [apply Happ | split]].
  - unfold TelegramService.registerMessageHandler. rewrite Happ.
    destruct (TelegramService.on_text Ctx S hs1 ctx s) as [[[] | e] s1];
      [apply Hone | reflexivity].
  - intros s1 e s2 H1 Hh. rewrite Happ, H1. simpl. unfold bind. now rewrite Hh.
  - intros s1 s2 H1 Hh. rewrite Happ, H1. simpl. unfold bind. now rewrite Hh.
Qed.

(** X24.  Start-up of the bot service never throws, whatever the Telegram
    service does.  With the Telegram service in place it registers the
    router once, after the handlers already there; from no handlers, a text
    update is then handled by the router alone, with the router's result. *)
Theorem router_is_registered_once {Ctx S : Type}
    (handleMessage : TelegramService.Handler Ctx S) :
  (forall telegramService st,
     fst (BotServiceInit.onModuleInit Ctx S telegramService handleMessage st) = Ok tt)
  /\ (forall st,
        BotServiceInit.messageHandlers Ctx S
          (snd (BotServiceInit.onModuleInit Ctx S
                  (Some (BotServiceInit.register_with_service Ctx S))
                  handleMessage st))
        = BotServiceInit.messageHandlers Ctx S st ++ [handleMessage])
  /\ (forall lg ctx s,
        let started :=
          snd (BotServiceInit.onModuleInit Ctx S
                 (Some (BotServiceInit.register_with_service Ctx S))
                 handleMessage
                 {| BotServiceInit.messageHandlers := [];
                    BotServiceInit.log := lg |}) in
        TelegramService.on_text Ctx S
          (BotServiceInit.messageHandlers Ctx S started) ctx s
        = handleMessage ctx s).
Proof.
  split; [| split].
  - intros telegramService st.
    unfold BotServiceInit.onModuleInit, bind, try_catch, BotServiceInit.logger,
      modify. simpl.
    destruct telegramService as [register |]; simpl; [| reflexivity].
    destruct (register handleMessage _) as [[[] | e] s1]; reflexivity.
  - intros st. reflexivity.
  - intros lg ctx s. simpl. unfold bind, ret.
    destruct (handleMessage ctx s) as [[[] | e] s1]; reflexivity.
Qed.

(** X25.  joinConfiguredChannels only logs: one line for every channel
    with autoJoin set, in the configured order, naming the channel by its
    name or, when that is missing or empty, by its id; with no channels
    configured, the one line saying so.  It never throws and makes no call
    on the bot. *)
Theorem channels_are_announced
    (channels : option (list ConfigService.Channel)) (st : TelegramService.State) :
  TelegramService.joinConfiguredChannels channels st
  = (Ok tt,
     {| TelegramService.calls := TelegramService.calls st;
        TelegramService.log :=
          TelegramService.log st ++
          match channels with
          | None | Some [] => [(Logger.Log, "No channels configured to join")]
          | Some l =>
              map (fun channel =>
                     (Logger.Log,
                      "Bot should be added to channel: " +:+
                      JS.or_string (ConfigService.name channel)
                                   (ConfigService.id channel)))
                  (List.filter ConfigService.autoJoin l)
          end |}).
Proof.
  assert (Hloop : forall l s,
             TelegramService.announce l s
             = (Ok tt,
                {| TelegramService.calls := TelegramService.calls s;
                   TelegramService.log :=
                     TelegramService.log s ++
                     map (fun channel =>
                            (Logger.Log,
                             "Bot should be added to channel: " +:+
                             JS.or_string (ConfigService.name channel)
                                          (ConfigService.id channel)))
                         (List.filter ConfigService.autoJoin l) |})).
  { induction l as [| channel l IH]; intros s; simpl.
    - rewrite app_nil_r. now destruct s.
    - unfold bind. destruct (ConfigService.autoJoin channel); simpl.
      + rewrite IH. simpl. now rewrite <- app_assoc.
      + apply IH. }
  unfold TelegramService.joinConfiguredChannels.
  destruct channels as [[| channel l] |]; try reflexivity.
  apply Hloop.
Qed.

(** X26.  The endpoint and the bot agree on the mode.  [startBot] makes
    exactly one call on the bot: [setWebhook] when the controller's
    [webhookEnabled] flag for the same configuration is set, [launch]
    otherwise.  For a validated document the URL given to [setWebhook] is a
    non-empty string. *)
Theorem webhook_mode_is_agreed
    (b : ConfigService.Bot)
    (telegraf : list TelegramService.Call -> TelegramService.Call -> option exn)
    (st : TelegramService.State) :
  let webhookEnabled := fst (TelegramController.constructor (Some (Ok (Some b)))) in
  let started := snd (TelegramService.startBot b telegraf st) in
  (webhookEnabled = true ->
   exists w, ConfigService.webhook b = Some w
             /\ TelegramService.calls started
                = TelegramService.calls st
                    ++ [TelegramService.SetWebhook (ConfigService.url w)])
  /\ (webhookEnabled = false ->
      TelegramService.calls started
      = TelegramService.calls st ++ [TelegramService.Launch])
  /\ (forall c,
        ConfigService.acceptable c ->
        ConfigService.bot (ConfigService.normalised c) = Some b ->
        webhookEnabled = true ->
        exists u, u <> EmptyString
                  /\ TelegramService.calls started
                     = TelegramService.calls st
                         ++ [TelegramService.SetWebhook (Some u)]).
Proof.
  intros webhookEnabled started. subst webhookEnabled started.
  unfold TelegramController.constructor, TelegramService.startBot. simpl.
  split; [| split].
  - destruct (ConfigService.webhook b) as [w |]; [| discriminate].
    rewrite orb_false_r. intros Hon. rewrite Hon. eauto.
  - destruct (ConfigService.webhook b) as [w |]; [| reflexivity].
    rewrite orb_false_r. intros Hoff. now rewrite Hoff.
  - intros c Hacc Hb.
    destruct (normalised_acceptable c Hacc) as [(_ & _ & _ & _ & Hw) _].
    specialize (Hw b Hb).
    unfold ConfigService.webhook_enabled, ConfigService.webhook_incomplete in Hw.
    destruct (ConfigService.webhook b) as [w |]; [| discriminate].
    rewrite orb_false_r. intros Hon. rewrite Hon in *. specialize (Hw eq_refl).
    apply orb_false_iff in Hw as [Hurl _]. apply negb_false_iff in Hurl.
    unfold ConfigService.present in Hurl.
    destruct (ConfigService.url w) as [u |]; [| discriminate].
    exists u. split; [| reflexivity].
    intros ->. discriminate Hurl.
Qed.

(** X27.  The webhook endpoint always answers, once, and never throws:
    403 "Webhook mode is disabled" without touching the update when
    webhooks are off; otherwise 200 "OK" when the update was processed and
    500 "Internal Server Error", with the error logged, when processing
    threw. *)
Theorem handleWebhook_answers_once {S : Type}
    (webhookEnabled : bool) (handleWebhookUpdate : M S unit)
    (st : TelegramController.State S) :
  let out := TelegramController.handleWebhook S webhookEnabled handleWebhookUpdate st in
  fst out = Ok tt
  /\ (webhookEnabled = false ->
      TelegramController.responses (snd out)
      = TelegramController.responses st ++ [(403, "Webhook mode is disabled")]
      /\ TelegramController.service (snd out) = TelegramController.service st)
  /\ (webhookEnabled = true ->
      forall s', handleWebhookUpdate (TelegramController.service st) = (Ok tt, s') ->
      TelegramController.responses (snd out)
      = TelegramController.responses st ++ [(200, "OK")]
      /\ TelegramController.service (snd out) = s'
      /\ TelegramController.log (snd out) = TelegramController.log st)
  /\ (webhookEnabled = true ->
      forall e s', handleWebhookUpdate (TelegramController.service st) = (Throw e, s') ->
      TelegramController.responses (snd out)
      = TelegramController.responses st ++ [(500, "Internal Server Error")]
      /\ TelegramController.log (snd out)
         = TelegramController.log st
             ++ [(Logger.Err, "Error handling webhook: " +:+ message e)]).
Proof.
  intros out. subst out.
  unfold TelegramController.handleWebhook, try_catch, bind,
    TelegramController.process, TelegramController.send,
    TelegramController.logger, modify.
  destruct webhookEnabled; simpl.
  - destruct (handleWebhookUpdate (TelegramController.service st))
      as [[[] | e] s1] eqn:Hu; simpl.
    + split; [reflexivity |]. split; [discriminate |]. split.
      * intros _ s' Hs. inversion Hs. auto.
      * intros _ e s' Hs. discriminate.
    + split; [reflexivity |]. split; [discriminate |]. split.
      * intros _ s' Hs. discriminate.
      * intros _ e' s' Hs. inversion Hs. auto.
  - split; [reflexivity |]. split; [auto |]. split; discriminate.
Qed.

(** X28.  Without usable settings the router serves everyone.  When the
    configuration service is missing, throws, or has no settings section,
    the constructor of BotService falls back on settings under which no
    sender is turned away or blocked and a text is a command exactly when
    it starts with a slash; settings that are there are taken as they
    are. *)
Theorem fallback_settings_admit_everyone
    (configService : option (Result (option Config.Settings))) :
  let settings := fst (BotServiceInit.constructor configService) in
  (forall configSettings,
     configService = Some (Ok (Some configSettings)) -> settings = configSettings)
  /\ ((forall configSettings, configService <> Some (Ok (Some configSettings))) ->
      forall userId text,
        ~ BotService.denied_by_allow_list settings userId
        /\ ~ BotService.on_block_list settings userId
        /\ BotService.is_command settings text = JS.startsWith text "/").
Proof.
  intros settings. subst settings. split.
  - intros configSettings ->. reflexivity.
  - intros Hnone userId text.
    assert (Hdef : fst (BotServiceInit.constructor configService)
                   = BotServiceInit.default_settings).
    { destruct configService as [[[configSettings |] | e] |]; try reflexivity.
      exfalso. now apply (Hnone configSettings). }
    rewrite Hdef. split; [| split].
    + intros (l & Hl & Hne & _). inversion Hl. subst l. now apply Hne.
    + intros (l & Hl & Hin). inversion Hl. subst l. inversion Hin.
    + reflexivity.
Qed.

End TransportExtras.

(** ** Configuration and start-up on concrete inputs *)

Section LifecycleSamples.

Import Samples.

Lemma on_text_runs_until_failure_witness :
  TelegramService.on_text unit (list string) [mark "first"; boom; mark "third"] tt []
  = (Throw (Error "handler failed"), ["first"])
  /\ TelegramService.on_text unit (list string) [mark "first"; mark "third"] tt []
     = (Ok tt, ["first"; "third"]).
Proof.
  split.
  - destruct (on_text_runs_until_failure [mark "first"] [mark "third"] boom tt [])
      as (_ & _ & _ & Hfail & _).
    apply (Hfail ["first"] (Error "handler failed") ["first"]); reflexivity.
  - destruct (on_text_runs_until_failure [mark "first"] [] (mark "third") tt [])
      as (_ & Hregister & _).
    exact Hregister.
Defined.

Lemma validated_document_is_consistent_witness :
  let st' := snd (ConfigService.validateConfig loaded) in
  ConfigService.log st'
  = [(Logger.Warn, "Both webhook and polling are enabled. Using webhook mode.");
     (Logger.Log, "Configuration validation successful")]
  /\ ConfigService.both_enabled both_modes = true
  /\ ConfigService.config st'
     = ConfigService.Document (ConfigService.normalised both_modes)
  /\ ConfigService.both_enabled (ConfigService.normalised both_modes) = false.
Proof.
  intros st'.
  destruct (validated_document_is_consistent loaded st') as (c & Hc & Hc' & Hlog & _ & Hb).
  - vm_compute. reflexivity.
  - inversion Hc. subst c.
    split; [rewrite Hlog; reflexivity |]. split; [reflexivity |].
    split; [exact Hc' | exact Hb].
Defined.

Lemma validateConfig_idempotent_witness :
  let st' := snd (ConfigService.validateConfig loaded) in
  ConfigService.validateConfig st'
  = (Ok tt,
     {| ConfigService.config := ConfigService.config st';
        ConfigService.log :=
          ConfigService.log st'
            ++ [(Logger.Log, "Configuration validation successful")] |}).
Proof.
  intros st'.
  apply (validateConfig_idempotent loaded st').
  vm_compute. reflexivity.
Defined.

Lemma loadConfig_succeeds_exactly_witness :
  fst (ConfigService.loadConfig None (reading "bot: ...")
         (fun _ => Ok (ConfigService.Document both_modes))
         {| ConfigService.config := ConfigService.Undefined;
            ConfigService.log := [] |}) = Ok tt.
Proof.
  apply (loadConfig_succeeds_exactly None (reading "bot: ...")
           (fun _ => Ok (ConfigService.Document both_modes))).
  exists "bot: ...", both_modes.
  split; [reflexivity |]. split; [reflexivity |].
  repeat split; try reflexivity.
  intros b Hb _. inversion Hb. reflexivity.
Defined.

Lemma loadConfig_failure_is_logged_witness :
  let out := ConfigService.loadConfig (Some "missing.yaml") (reading "bot: ...")
               (fun _ => Ok (ConfigService.Document both_modes))
               {| ConfigService.config := ConfigService.Undefined;
                  ConfigService.log := [] |} in
  fst out = Throw (Error "File not found")
  /\ last (ConfigService.log (snd out))
     = Some (Logger.Err, "Failed to load configuration: File not found").
Proof.
  intros out.
  destruct (loadConfig_failure_is_logged (Some "missing.yaml") (reading "bot: ...")
              (fun _ => Ok (ConfigService.Document both_modes))
              {| ConfigService.config := ConfigService.Undefined;
                 ConfigService.log := [] |}
              (snd out) (Error "File not found")) as [Hlast _].
  - vm_compute. reflexivity.
  - split; [reflexivity | exact Hlast].
Defined.

Lemma webhook_mode_is_agreed_witness :
  exists b u,
    ConfigService.bot (ConfigService.normalised both_modes) = Some b
    /\ u <> EmptyString
    /\ TelegramService.calls
         (snd (TelegramService.startBot b (fun _ _ => None)
                 {| TelegramService.calls := []; TelegramService.log := [] |}))
       = [TelegramService.SetWebhook (Some u)].
Proof.
  destruct (ConfigService.bot (ConfigService.normalised both_modes)) as [b |] eqn:Hb;
    [| discriminate Hb].
  destruct (webhook_mode_is_agreed b (fun _ _ => None)
              {| TelegramService.calls := []; TelegramService.log := [] |})
    as (_ & _ & H).
  destruct (H both_modes) as (u & Hu & Hcalls).
  - repeat split; try reflexivity.
    intros b' Hb' _. inversion Hb'. reflexivity.
  - exact Hb.
  - vm_compute in Hb. inversion Hb. reflexivity.
  - exists b, u. auto.
Defined.

Lemma handleWebhook_answers_once_witness :
  let st := {| TelegramController.responses := [];
               TelegramController.log := [];
               TelegramController.service := tt |} in
  TelegramController.responses
    (snd (TelegramController.handleWebhook unit true
            (throw (Error "Webhook error")) st))
  = [(500, "Internal Server Error")]
  /\ TelegramController.responses
       (snd (TelegramController.handleWebhook unit false
               (throw (Error "Webhook error")) st))
     = [(403, "Webhook mode is disabled")].
Proof.
  intros st. split.
  - destruct (handleWebhook_answers_once true (throw (Error "Webhook error")) st)
      as (_ & _ & _ & H).
    destruct (H eq_refl (Error "Webhook error") tt eq_refl) as [Hr _]. exact Hr.
  - destruct (handleWebhook_answers_once false (throw (Error "Webhook error")) st)
      as (_ & H & _).
    destruct (H eq_refl) as [Hr _]. exact Hr.
Defined.

Lemma fallback_settings_admit_everyone_witness :
  let settings :=
    fst (BotServiceInit.constructor (Some (Throw (Error "Config error")))) in
  ~ BotService.denied_by_allow_list settings "654321"
  /\ BotService.is_command settings "/reset" = true.
Proof.
  intros settings.
  destruct (fallback_settings_admit_everyone (Some (Throw (Error "Config error"))))
    as [_ H].
  destruct (H (fun _ => ltac:(discriminate)) "654321" "/reset") as (Ha & _ & Hc).
  split; [exact Ha |]. etransitivity; [exact Hc | reflexivity].
Defined.

End LifecycleSamples.

(** ** Reset, then the next message *)

Section ResetExtras.

Import BotService.

Variable settings : Config.Settings.
Variable personalityConfig : Config.Personality.
Variable llmConfig : Config.Llm.
Variable llmService : string -> list string -> M LlmService.State string.
Variable transport : list Call -> Call -> option exn.

Local Abbreviation handleMessage :=
  (BotService.handleMessage settings personalityConfig llmConfig llmService transport).

(** X29.  A reset clears the context of the next request.  After a reset
    command in a chat, the next text of that chat is given to the generator
    with a history that holds that text alone, whatever the chat held
    before. *)
Theorem reset_clears_context
    (ctx1 ctx2 : Context) (command text prefix : string) (st : State) :
  message_text ctx1 = Some command ->
  message_text ctx2 = Some text ->
  chat_id ctx2 = chat_id ctx1 ->
  (forall userId, ~ denied_by_allow_list settings userId) ->
  (forall userId, ~ on_block_list settings userId) ->
  Config.commandPrefix settings = Some prefix ->
  prefix <> EmptyString ->
  JS.startsWith command prefix = true ->
  JS.toLowerCase (JS.trim (JS.substring (String.length prefix) command)) = "reset" ->
  is_command settings text = false ->
  (forall tr c, transport tr c = None) ->
  let st1 := snd (handleMessage ctx1 st) in
  let chatId := toString (chat_id ctx1) in
  getChatHistory chatId (chatHistory st1) = []
  /\ exists rest,
       calls (snd (handleMessage ctx2 st1))
       = calls st1 ++ [SendChatAction chatId "typing"; Generate text [text]] ++ rest.
Proof.
  intros Hc Ht Hchat Hallow Hblock Hp Hne Hstarts Hreset Hcmd Hdeliver st1 chatId.
  assert (Hst1 : chatHistory st1 = <[chatId := []]> (chatHistory st)).
  { subst st1. unfold BotService.handleMessage. rewrite Hc.
    rewrite (admitted_unauthorized _ _ (Hallow _)), (admitted_blacklisted _ _ (Hblock _)).
    rewrite (is_command_true settings command prefix Hp Hne Hstarts).
    unfold BotService.handleCustomCommand. rewrite Hp, Hreset. reflexivity. }
  assert (Hempty : getChatHistory chatId (chatHistory st1) = []).
  { rewrite Hst1. unfold getChatHistory. now rewrite lookup_insert_eq. }
  split; [exact Hempty |].
  destruct (generation_branch_calls settings personalityConfig llmConfig
              llmService transport ctx2 text st1 Ht
              (admitted_unauthorized _ _ (Hallow _))
              (admitted_blacklisted _ _ (Hblock _)) Hcmd)
    as [rest Hrest].
  - apply Hdeliver.
  - exists rest. rewrite Hrest, Hchat. fold chatId.
    rewrite getChatHistory_add_same, Hempty. reflexivity.
Qed.

End ResetExtras.

Section ResetSamples.

Import BotService Samples.

Lemma reset_clears_context_witness :
  let st := with_history (addToChatHistory "12" "earlier") fresh in
  let st1 := snd (handleMessage open_settings personality (llm_of "grok" None)
                    (answering "Bot response") delivering (msg "/reset" 5) st) in
  getChatHistory "12" (chatHistory st) = ["earlier"]
  /\ exists rest,
       calls (snd (handleMessage open_settings personality (llm_of "grok" None)
                     (answering "Bot response") delivering (msg "hello" 5) st1))
       = calls st1 ++ [SendChatAction "12" "typing"; Generate "hello" ["hello"]] ++ rest.
Proof.
  intros st st1. split; [vm_compute; reflexivity |].
  apply (reset_clears_context open_settings personality (llm_of "grok" None)
           (answering "Bot response") delivering (msg "/reset" 5) (msg "hello" 5)
           "/reset" "hello" "/" st eq_refl eq_refl eq_refl
           open_settings_allow open_settings_block eq_refl).
  - discriminate.
  - reflexivity.
  - reflexivity.
  - reflexivity.
  - intros tr c. reflexivity.
Defined.

End ResetSamples.
